(** * The message processor of the WhatsApp expense tracker

    A shallow embedding of [src/nlp/message_processor.py] (class
    [MessageProcessor]) and the properties its specification states about it.

    Python text is a sequence of Unicode code points; a code point is an [N]
    and a [str] is a list of them.  The literals of the source are written
    as UTF-8 and decoded by [U].  What the program takes from outside
    (Python's Unicode tables beyond Latin-1, the spaCy tagger, the clock) is
    a [runtime], an argument of every method that depends on it; every
    keyword and pattern of the source is Latin-1, where the tables are
    written out.  The patterns run on a backtracking matcher that tries the
    alternatives in the order of Python's [re].

    The helpers of [src/utils/helpers.py] and the message handler of
    [src/whatsapp/message_handler.py] follow the processor; what the
    handler takes from the database and from the WhatsApp client is a
    record of [services], and the requests it makes are listed in the
    order it makes them. *)

From Stdlib Require Import ZArith NArith List Bool String Ascii Lia Floats.
Import ListNotations.

Set Implicit Arguments.
#[local] Set Warnings "-inexact-float".

(** ** Python strings *)

Definition char := N.
Definition str := list char.

Fixpoint utf8_go (s : string) (acc : N) (need : nat) : str :=
  match s with
  | EmptyString => []
  | String a s' =>
      let b := N_of_ascii a in
      match need with
      | O =>
          if (b <? 128)%N then b :: utf8_go s' 0%N 0
          else if (b <? 224)%N then utf8_go s' (b - 192)%N 1
          else if (b <? 240)%N then utf8_go s' (b - 224)%N 2
          else utf8_go s' (b - 240)%N 3
      | S O => (acc * 64 + (b - 128))%N :: utf8_go s' 0%N 0
      | S n => utf8_go s' (acc * 64 + (b - 128))%N n
      end
  end.

(** The code points of a UTF-8 literal. *)
Definition U (s : string) : str := utf8_go s 0%N 0.

Definition str_eqb (a b : str) : bool :=
  if list_eq_dec N.eq_dec a b then true else false.

(** [bool(s)] of a string: non-empty. *)
Definition truthy (s : str) : bool :=
  match s with [] => false | _ :: _ => true end.

Fixpoint startswith (p s : str) : bool :=
  match p, s with
  | [], _ => true
  | _ :: _, [] => false
  | a :: p', b :: s' => (a =? b)%N && startswith p' s'
  end.

(** [p in s]: [p] occurs as a substring of [s]. *)
Fixpoint str_in (p s : str) : bool :=
  startswith p s ||
  match s with
  | [] => false
  | _ :: s' => str_in p s'
  end.

(** [x in xs] for a list of strings. *)
Definition list_in (x : str) (xs : list str) : bool :=
  existsb (str_eqb x) xs.

(** [s.replace(a, b)] for single characters. *)
Definition replace_char (a b : char) (s : str) : str :=
  map (fun c => if (c =? a)%N then b else c) s.

(** [Py_UNICODE_ISSPACE]: the whitespace of [str.strip], [str.split] and of
    the pattern class [\s]. *)
Definition isspace (c : char) : bool :=
  ((9 <=? c) && (c <=? 13) || (28 <=? c) && (c <=? 32) ||
   (c =? 133) || (c =? 160) || (c =? 5760) ||
   (8192 <=? c) && (c <=? 8202) || (c =? 8232) || (c =? 8233) ||
   (c =? 8239) || (c =? 8287) || (c =? 12288))%N.

Fixpoint lstrip (s : str) : str :=
  match s with
  | c :: s' => if isspace c then lstrip s' else s
  | [] => []
  end.

(** [s.strip()]. *)
Definition strip (s : str) : str := rev (lstrip (rev (lstrip s))).

(** [s.split()]: the maximal runs of non-whitespace, [w] being the run read
    so far, reversed. *)
Fixpoint split_go (s : str) (w : str) : list str :=
  match s with
  | [] => match w with [] => [] | _ => [rev w] end
  | c :: s' =>
      if isspace c
      then match w with [] => split_go s' [] | _ => rev w :: split_go s' [] end
      else split_go s' (c :: w)
  end.

Definition split (s : str) : list str := split_go s [].

(** [sep.join(ws)]. *)
Fixpoint join (sep : str) (ws : list str) : str :=
  match ws with
  | [] => []
  | [w] => w
  | w :: ws' => w ++ sep ++ join sep ws'
  end.

(** Latin-1: [Py_UNICODE_TOLOWER] moves A-Z and the accented capitals
    (all of U+00C0..U+00DE but the multiplication sign) up by 32. *)
Definition latin1_tolower (c : char) : char :=
  if ((65 <=? c) && (c <=? 90) ||
      (192 <=? c) && (c <=? 222) && negb (c =? 215))%N
  then (c + 32)%N else c.

Definition latin1_isalpha (c : char) : bool :=
  ((65 <=? c) && (c <=? 90) || (97 <=? c) && (c <=? 122) ||
   (c =? 170) || (c =? 181) || (c =? 186) ||
   (192 <=? c) && (c <=? 255) && negb (c =? 215) && negb (c =? 247))%N.

(** Latin-1 characters that are numeric without being decimal digits:
    the superscripts and the vulgar fractions. *)
Definition latin1_isnumeric (c : char) : bool :=
  ((c =? 178) || (c =? 179) || (c =? 185) || (188 <=? c) && (c <=? 190))%N.

Definition is_latin1 (c : char) : bool := (c <? 256)%N.

(** A token of the spaCy document: the three attributes the program reads. *)
Record token := { pos_ : str; is_stop : bool; lemma_ : str }.

(** ** Regular expressions

    The fragment of Python's [re] the source patterns are written in.  A
    repetition only ever repeats a single-character atom there. *)

Inductive atom :=
  | Lit (c : char)            (* a literal character *)
  | Digit                     (* \d *)
  | Space                     (* \s *)
  | OneOf (cs : list char).   (* [...] *)

Inductive re :=
  | Eps
  | Chr (a : atom)
  | Bnd                       (* \b *)
  | Eos                       (* $ *)
  | Seq (a b : re)
  | Alt (a b : re)            (* a|b *)
  | Opt (a : re)              (* a? *)
  | Star (a : atom)           (* a* *)
  | Plus (a : atom)           (* a+ *)
  | Rep (n : nat) (a : atom)  (* a{n} *)
  | Grp (a : re).             (* ( ... ), the capturing group *)

(** A literal run of characters. *)
Fixpoint lits (s : str) : re :=
  match s with
  | [] => Eps
  | [c] => Chr (Lit c)
  | c :: s' => Seq (Chr (Lit c)) (lits s')
  end.

(** The text of a keyword spliced into a pattern by an f-string is read as
    pattern text: [$] is the end anchor, any other character of the
    keyword tables stands for itself. *)
Fixpoint re_of_text (s : str) : re :=
  match s with
  | [] => Eps
  | c :: s' => Seq (if (c =? 36)%N then Eos else Chr (Lit c)) (re_of_text s')
  end.

(** The state of a match attempt: the character before the cursor, the
    text after it, how many characters the attempt has consumed and the
    text of the group. *)
Record mstate := MState
  { m_prev : option char; m_rest : str; m_used : nat; m_cap : str }.

Definition start (prev : option char) (s : str) : mstate :=
  MState prev s 0 [].

Definition advance (c : char) (s' : str) (st : mstate) : mstate :=
  MState (Some c) s' (S (m_used st)) (m_cap st).

Definition set_cap (st : mstate) (cap : str) : mstate :=
  MState (m_prev st) (m_rest st) (m_used st) cap.

(** What a scan of the text leaves: a character no match covers, or a
    match with the text of its group. *)
Inductive piece :=
  | Kept (c : char)
  | Matched (cap : str).

Fixpoint captures (ps : list piece) : list str :=
  match ps with
  | [] => []
  | Kept _ :: ps' => captures ps'
  | Matched cap :: ps' => cap :: captures ps'
  end.

Fixpoint kept (ps : list piece) : str :=
  match ps with
  | [] => []
  | Kept c :: ps' => c :: kept ps'
  | Matched _ :: ps' => kept ps'
  end.

(** ** The runtime

    What the program takes from outside: [Py_UNICODE_TODECIMAL],
    [Py_UNICODE_ISALNUM] and [Py_UNICODE_TOLOWER] on the code points from
    U+0100 on, [str.lower] on a text that leaves Latin-1, the spaCy
    pipeline and [datetime.now().isoformat()]. *)
Record runtime := Runtime
  { ext_decimal : char -> option N;
    ext_isalnum : char -> bool;
    ext_tolower : char -> char;
    ext_lower : str -> str;
    nlp : str -> list token;
    now : str }.

(** A runtime that knows Latin-1 only and whose tagger finds no token. *)
Definition latin1_runtime : runtime :=
  Runtime (fun _ => None) (fun _ => false) (fun c => c) (fun s => s)
          (fun _ => []) (U "2026-01-01T00:00:00").

Section Processor.

Variable py : runtime.

(** The value of a decimal digit ([Py_UNICODE_TODECIMAL]). *)
Definition decimal_value (c : char) : option N :=
  if is_latin1 c
  then if ((48 <=? c) && (c <=? 57))%N then Some (c - 48)%N else None
  else ext_decimal py c.

Definition isdecimal (c : char) : bool :=
  match decimal_value c with Some _ => true | None => false end.

Definition isalnum (c : char) : bool :=
  isdecimal c ||
  (if is_latin1 c then latin1_isalpha c || latin1_isnumeric c
   else ext_isalnum py c).

(** The class [\w], which decides [\b]. *)
Definition isword (c : char) : bool := isalnum c || (c =? 95)%N.

Definition tolower (c : char) : char :=
  if is_latin1 c then latin1_tolower c else ext_tolower py c.

(** [s.lower()]. *)
Definition lower (s : str) : str :=
  if forallb is_latin1 s then map latin1_tolower s else ext_lower py s.

(** The Latin-1 letters [re] takes for cased. *)
Definition latin1_cased (c : char) : bool :=
  ((65 <=? c) && (c <=? 90) || (97 <=? c) && (c <=? 122) || (c =? 181) ||
   (192 <=? c) && (c <=? 255) && negb (c =? 215) && negb (c =? 247))%N.

(** The lowered character [c] counts as the lowered literal [lo]: the
    letters i, s and the micro sign also match the dotless i, the long s
    and the Greek mu. *)
Definition same_fold (lo c : char) : bool :=
  ((c =? lo) ||
   (lo =? 105) && (c =? 305) ||
   (lo =? 115) && (c =? 383) ||
   (lo =? 181) && (c =? 956))%N.

(** One character against an atom, under [re.IGNORECASE]: a cased literal
    (the literals of the source are Latin-1) is compared after lowering. *)
Definition atom_ok (a : atom) (c : char) : bool :=
  match a with
  | Lit l =>
      if latin1_cased l then same_fold (latin1_tolower l) (tolower c)
      else (c =? l)%N
  | Digit => isdecimal c
  | Space => isspace c
  | OneOf cs => existsb (N.eqb c) cs
  end.

Definition word_at (c : option char) : bool :=
  match c with Some x => isword x | None => false end.

Section Matcher.

Variable k : mstate -> option mstate.

(** [a*], greedy: [s] is the text after the cursor of [st]. *)
Fixpoint star_loop (a : atom) (s : str) (st : mstate) : option mstate :=
  match s with
  | c :: s' =>
      if atom_ok a c
      then match star_loop a s' (advance c s' st) with
           | Some r => Some r
           | None => k st
           end
      else k st
  | [] => k st
  end.

(** [a{n}]. *)
Fixpoint rep_loop (a : atom) (n : nat) (s : str) (st : mstate) : option mstate :=
  match n with
  | O => k st
  | S n' =>
      match s with
      | c :: s' => if atom_ok a c then rep_loop a n' s' (advance c s' st) else None
      | [] => None
      end
  end.

End Matcher.

(** The backtracking matcher: [rmatch r st k] matches [r] at the cursor of
    [st] and hands the state after it to [k], trying the alternatives in
    the order [re] tries them until [k] accepts one. *)
Fixpoint rmatch (r : re) (st : mstate) (k : mstate -> option mstate)
  : option mstate :=
  match r with
  | Eps => k st
  | Chr a =>
      match m_rest st with
      | c :: s' => if atom_ok a c then k (advance c s' st) else None
      | [] => None
      end
  | Bnd =>
      if xorb (word_at (m_prev st)) (word_at (hd_error (m_rest st)))
      then k st else None
  | Eos =>
      match m_rest st with
      | [] => k st
      | [c] => if (c =? 10)%N then k st else None
      | _ => None
      end
  | Seq a b => rmatch a st (fun st' => rmatch b st' k)
  | Alt a b =>
      match rmatch a st k with
      | Some x => Some x
      | None => rmatch b st k
      end
  | Opt a =>
      match rmatch a st k with
      | Some x => Some x
      | None => k st
      end
  | Star a => star_loop k a (m_rest st) st
  | Plus a =>
      match m_rest st with
      | c :: s' =>
          if atom_ok a c then star_loop k a s' (advance c s' st) else None
      | [] => None
      end
  | Rep n a => rep_loop k a n (m_rest st) st
  | Grp a =>
      rmatch a st (fun st' =>
        k (set_cap st' (firstn (m_used st' - m_used st) (m_rest st))))
  end.

(** One attempt at the cursor. *)
Definition match_here (r : re) (prev : option char) (s : str) : option mstate :=
  rmatch r (start prev s) Some.

(** The left-to-right scan behind [re.findall] and [re.sub]: at each
    position not covered by the previous match, one attempt; [skip] counts
    the characters the previous match still covers.  (The patterns of this
    program consume a character whenever they match; after a match of
    length zero the scan moves on by one character.) *)
Fixpoint scan (r : re) (prev : option char) (s : str) (skip : nat) : list piece :=
  match s with
  | [] => []
  | c :: s' =>
      match skip with
      | S n => scan r (Some c) s' n
      | O =>
          match match_here r prev s with
          | Some st =>
              match m_used st with
              | O => Matched (m_cap st) :: Kept c :: scan r (Some c) s' 0
              | S n => Matched (m_cap st) :: scan r (Some c) s' n
              end
          | None => Kept c :: scan r (Some c) s' 0
          end
      end
  end.

(** [re.findall(r, s, re.IGNORECASE)] for a pattern with one group. *)
Definition findall (r : re) (s : str) : list str := captures (scan r None s 0).

(** [re.sub(r, '', s, flags=re.IGNORECASE)]. *)
Definition sub_empty (r : re) (s : str) : str := kept (scan r None s 0).

(** ** Python floats

    A Python [float] is an IEEE 754 binary64, as Rocq's primitive floats
    are. *)

(** [n / d] rounded to the nearest integer, ties to even ([0 <= n], [0 < d]). *)
Definition round_div (n d : Z) : Z :=
  let q := (n / d)%Z in
  let r := (n mod d)%Z in
  if (2 * r <? d)%Z then q
  else if (d <? 2 * r)%Z then (q + 1)%Z
  else if Z.even q then q else (q + 1)%Z.

(** [n / (d * 2^e)] as a pair of integers. *)
Definition scaled (n d e : Z) : Z * Z :=
  if (0 <=? e)%Z then (n, (d * 2 ^ e)%Z) else ((n * 2 ^ (- e))%Z, d).

(** The binary64 nearest to [n / d] ([0 <= n], [0 < d]; the quotients met
    here are zero or at least 1/100, far from the subnormal range): a
    53-bit significand rounded once, scaled by the power of two. *)
Definition float_of_ratio (n d : Z) : float :=
  if (n =? 0)%Z then 0%float
  else
    let e1 := (Z.log2 n - Z.log2 d - 52)%Z in
    let '(n1, d1) := scaled n d e1 in
    let e := if (n1 / d1 <? 2 ^ 52)%Z then (e1 - 1)%Z else e1 in
    let '(n2, d2) := scaled n d e in
    Z.ldexp (of_uint63 (Uint63.of_Z (round_div n2 d2))) e.

(** [bool(x)] of a float. *)
Definition float_truthy (x : float) : bool := negb (PrimFloat.eqb x 0%float).

(** [min(a, b)] of two floats: [b] when [b < a], else [a]. *)
Definition py_min (a b : float) : float :=
  if PrimFloat.ltb b a then b else a.

Fixpoint digits_value (s : str) (acc : Z) : option Z :=
  match s with
  | [] => Some acc
  | c :: s' =>
      match decimal_value c with
      | Some d => digits_value s' (10 * acc + Z.of_N d)%Z
      | None => None
      end
  end.

(** The text before the first full stop, and the text after it if any. *)
Fixpoint cut_dot (s : str) : str * option str :=
  match s with
  | [] => ([], None)
  | c :: s' =>
      if (c =? 46)%N then ([], Some s')
      else let '(a, b) := cut_dot s' in (c :: a, b)
  end.

(** [float(s)] on the numerals a money pattern captures: decimal digits,
    with at most one full stop among them; [None] is [ValueError].
    ([float] reads more than that: signs, exponents, padding, [inf]; no
    pattern of this program captures such a text.) *)
Definition float_of_str (s : str) : option float :=
  match cut_dot s with
  | (ip, None) =>
      match ip, digits_value ip 0 with
      | _ :: _, Some v => Some (float_of_ratio v 1)
      | _, _ => None
      end
  | (ip, Some fp) =>
      match digits_value ip 0, digits_value fp 0 with
      | Some vi, Some vf =>
          if truthy ip || truthy fp
          then let d := (10 ^ Z.of_nat (List.length fp))%Z in
               Some (float_of_ratio (vi * d + vf) d)
          else None
      | _, _ => None
      end
  end.

(** ** The tables of [MessageProcessor.__init__] *)

Definition chr (a : ascii) : char := N_of_ascii a.

(** The first money pattern; spaced out, [(?: R\$ \s* )? ( \d+ (?: [.,] \d{2} )? )]. *)
Definition money_currency : re :=
  Seq (Opt (Seq (Chr (Lit (chr "R"))) (Seq (Chr (Lit (chr "$"))) (Star Space))))
      (Grp (Seq (Plus Digit)
                (Opt (Seq (Chr (OneOf [chr "."; chr ","])) (Rep 2 Digit))))).

(** The second, [( \d+ ) \s* reais?]. *)
Definition money_reais : re :=
  Seq (Grp (Plus Digit))
      (Seq (Star Space) (Seq (lits (U "reai")) (Opt (Chr (Lit (chr "s")))))).

(** The third, [( \d+ ) \s* (?: pila | pratas? )]. *)
Definition money_slang : re :=
  Seq (Grp (Plus Digit))
      (Seq (Star Space)
           (Alt (lits (U "pila"))
                (Seq (lits (U "prata")) (Opt (Chr (Lit (chr "s"))))))).

Definition money_patterns : list re :=
  [money_currency; money_reais; money_slang].

Definition expense_keywords : list str :=
  map U ["gastei"; "gasto"; "paguei"; "comprei"; "saiu"; "custou";
         "despesa"; "débito"; "conta"; "fatura"; "pagamento"]%string.

Definition report_keywords : list str :=
  map U ["relatório"; "relatorio"; "resumo"; "total"; "quanto gastei";
         "balanço"; "balanco"; "extrato"; "histórico"; "historico"]%string.

(** The dictionary, in the order of its keys. *)
Definition category_mapping : list (str * list str) :=
  [ (U "alimentação",
     map U ["alimentação"; "alimentacao"; "comida"; "lanche"; "almoço";
            "almoco"; "jantar"; "café"; "cafe"; "restaurante"; "mercado";
            "supermercado"; "padaria"; "açougue"; "acougue"; "feira";
            "delivery"]%string);
    (U "transporte",
     map U ["transporte"; "uber"; "taxi"; "ônibus"; "onibus"; "metro";
            "metrô"; "trem"; "passagem"; "viagem"; "combustível";
            "combustivel"; "gasolina"; "álcool"; "alcool"; "diesel";
            "posto"]%string);
    (U "combustível",
     map U ["combustível"; "combustivel"; "gasolina"; "álcool"; "alcool";
            "diesel"; "posto"; "abasteci"; "abastecer"]%string);
    (U "saúde",
     map U ["saúde"; "saude"; "médico"; "medico"; "hospital"; "farmácia";
            "farmacia"; "remédio"; "remedio"; "consulta"; "exame";
            "dentista"; "plano de saúde"]%string);
    (U "educação",
     map U ["educação"; "educacao"; "escola"; "faculdade"; "curso"; "livro";
            "material escolar"; "mensalidade"; "matrícula";
            "matricula"]%string);
    (U "lazer",
     map U ["lazer"; "cinema"; "teatro"; "show"; "festa"; "bar"; "balada";
            "entretenimento"; "diversão"; "diversao"; "jogo";
            "streaming"]%string);
    (U "casa",
     map U ["casa"; "aluguel"; "condomínio"; "condominio"; "luz"; "água";
            "agua"; "gás"; "gas"; "internet"; "telefone"; "limpeza";
            "móveis"; "moveis"]%string);
    (U "roupas",
     map U ["roupas"; "roupa"; "calça"; "calca"; "camisa"; "sapato";
            "tênis"; "tenis"; "vestido"; "saia"; "blusa"; "casaco"; "moda";
            "shopping"]%string);
    (U "outros",
     map U ["outros"; "diverso"; "vário"; "vario"; "geral"]%string) ].

Definition outros : str := U "outros".
Definition unspecified : str := U "Gasto não especificado".

(** ** The methods *)

(** The loop of [_extract_amount] over the patterns. *)
Fixpoint extract_amount_from (patterns : list re) (message : str) : option float :=
  match patterns with
  | [] => None
  | pattern :: rest =>
      match findall pattern message with
      | amount_str :: _ =>
          match float_of_str (replace_char (chr ",") (chr ".") amount_str) with
          | Some x => Some x
          | None => extract_amount_from rest message
          end
      | [] => extract_amount_from rest message
      end
  end.

Definition _extract_amount (message : str) : option float :=
  extract_amount_from money_patterns message.

(** [if x:] on an optional float: [None] and zero are false. *)
Definition amount_truthy (x : option float) : bool :=
  match x with Some v => float_truthy v | None => false end.

Definition _identify_message_type (message : str) : str :=
  if existsb (fun keyword => str_in keyword message) report_keywords
  then U "report"
  else if existsb (fun keyword => str_in keyword message) expense_keywords
  then U "expense"
  else if amount_truthy (_extract_amount message)
  then U "expense"
  else U "unknown".

(** The first loop of [_extract_category]: the first category, in the
    order of the dictionary, one of whose keywords is in the message. *)
Fixpoint category_by_keyword (table : list (str * list str)) (message : str)
  : option str :=
  match table with
  | [] => None
  | (category, keywords) :: rest =>
      if existsb (fun keyword => str_in keyword message) keywords
      then Some category
      else category_by_keyword rest message
  end.

(** The inner loop of the fallback: the first category that lists the lemma. *)
Fixpoint category_of_lemma (table : list (str * list str)) (lemma : str)
  : option str :=
  match table with
  | [] => None
  | (category, keywords) :: rest =>
      if list_in lemma keywords then Some category
      else category_of_lemma rest lemma
  end.

(** The loop of the fallback over the tokens of the document. *)
Fixpoint category_by_nouns (doc : list token) : option str :=
  match doc with
  | [] => None
  | tok :: rest =>
      if str_eqb (pos_ tok) (U "NOUN") && negb (is_stop tok)
      then match category_of_lemma category_mapping (lower (lemma_ tok)) with
           | Some category => Some category
           | None => category_by_nouns rest
           end
      else category_by_nouns rest
  end.

Definition _extract_category (message : str) : str :=
  match category_by_keyword category_mapping message with
  | Some category => category
  | None =>
      match category_by_nouns (nlp py message) with
      | Some category => category
      | None => outros
      end
  end.

(** The pattern [\b{word}\b] of the f-strings. *)
Definition word_pattern (word : str) : re :=
  Seq Bnd (Seq (re_of_text word) Bnd).

Definition common_words : list str :=
  map U ["em"; "de"; "com"; "para"; "no"; "na"; "do"; "da"; "r$"]%string.

(** The description after the three removal loops and the collapse of
    whitespace. *)
Definition cleaned (message : str) : str :=
  let description := message in
  let description :=
    fold_left (fun d keyword => sub_empty (word_pattern keyword) d)
              expense_keywords description in
  let description :=
    fold_left (fun d pattern => sub_empty pattern d)
              money_patterns description in
  let description :=
    fold_left (fun d word => sub_empty (word_pattern word) d)
              common_words description in
  join (U " ") (split description).

Definition _extract_description (message : str) : str :=
  let description := strip (cleaned message) in
  if truthy description then description else unspecified.

Definition period_keywords : list (str * str) :=
  [ (U "hoje", U "today"); (U "ontem", U "yesterday"); (U "semana", U "week");
    (U "mês", U "month"); (U "mes", U "month"); (U "ano", U "year");
    (U "total", U "all") ].

Fixpoint period_from (table : list (str * str)) (message : str) : option str :=
  match table with
  | [] => None
  | (keyword, period) :: rest =>
      if str_in keyword message then Some period else period_from rest message
  end.

Definition _extract_period (message : str) : str :=
  match period_from period_keywords message with
  | Some period => period
  | None => U "month"
  end.

Definition _calculate_confidence
  (amount : option float) (category : option str) (description : str) : float :=
  let confidence := 0%float in
  let confidence :=
    match amount with
    | Some _ => (confidence + 0.4)%float
    | None => confidence
    end in
  let confidence :=
    match category with
    | Some c =>
        if truthy c && negb (str_eqb c outros) then (confidence + 0.3)%float
        else if str_eqb c outros then (confidence + 0.1)%float
        else confidence
    | None => confidence
    end in
  let confidence :=
    if truthy description && negb (str_eqb description unspecified)
    then (confidence + 0.3)%float
    else confidence in
  py_min confidence 1%float.

(** The dictionaries the two extraction methods return. *)
Record expense_data := ExpenseData
  { amount : option float; e_category : str; description : str;
    confidence : float }.

Record report_data := ReportData { r_category : str; period : str }.

Definition _extract_expense_data (message : str) : expense_data :=
  let amount := _extract_amount message in
  let category := _extract_category message in
  let description := _extract_description message in
  ExpenseData amount category description
    (_calculate_confidence amount (Some category) description).

Definition _extract_report_data (message : str) : report_data :=
  let category := _extract_category message in
  let period := _extract_period message in
  ReportData category period.

(** The keys [process_message] adds to the three it always sets. *)
Inductive extracted :=
  | Expense (d : expense_data)
  | Report (d : report_data)
  | Nothing.

Record result := Result
  { type_ : str; original_message : str; timestamp : str; fields : extracted }.

Definition process_message (message : str) : result :=
  let message := strip (lower message) in
  let message_type := _identify_message_type message in
  Result message_type message (now py)
    (if str_eqb message_type (U "expense")
     then Expense (_extract_expense_data message)
     else if str_eqb message_type (U "report")
     then Report (_extract_report_data message)
     else Nothing).

Definition get_categories : list str := map fst category_mapping.

Definition validate_message (message : str) : bool * str :=
  if negb (truthy message) || negb (truthy (strip message))
  then (false, U "Mensagem vazia")
  else if (500 <? List.length message)%nat
  then (false, U "Mensagem muito longa (máximo 500 caracteres)")
  else (true, []).

(** ** What a match is

    The matcher above follows [re] in the order of its attempts.  [steps r
    st st'] says, without any order, that [r] can take the cursor from
    [st] to [st']: every match the matcher finds is one of these. *)
Inductive steps : re -> mstate -> mstate -> Prop :=
  | steps_eps st : steps Eps st st
  | steps_chr a c s' st :
      m_rest st = c :: s' -> atom_ok a c = true ->
      steps (Chr a) st (advance c s' st)
  | steps_bnd st :
      xorb (word_at (m_prev st)) (word_at (hd_error (m_rest st))) = true ->
      steps Bnd st st
  | steps_eos st :
      m_rest st = [] \/ m_rest st = [10%N] -> steps Eos st st
  | steps_seq a b st st1 st2 :
      steps a st st1 -> steps b st1 st2 -> steps (Seq a b) st st2
  | steps_alt_l a b st st' : steps a st st' -> steps (Alt a b) st st'
  | steps_alt_r a b st st' : steps b st st' -> steps (Alt a b) st st'
  | steps_opt_some a st st' : steps a st st' -> steps (Opt a) st st'
  | steps_opt_none a st : steps (Opt a) st st
  | steps_star_stop a st : steps (Star a) st st
  | steps_star_more a c s' st st' :
      m_rest st = c :: s' -> atom_ok a c = true ->
      steps (Star a) (advance c s' st) st' -> steps (Star a) st st'
  | steps_plus a c s' st st' :
      m_rest st = c :: s' -> atom_ok a c = true ->
      steps (Star a) (advance c s' st) st' -> steps (Plus a) st st'
  | steps_rep_O a st : steps (Rep 0 a) st st
  | steps_rep_S a n c s' st st' :
      m_rest st = c :: s' -> atom_ok a c = true ->
      steps (Rep n a) (advance c s' st) st' -> steps (Rep (S n) a) st st'
  | steps_grp a st st' :
      steps a st st' ->
      steps (Grp a) st
        (set_cap st' (firstn (m_used st' - m_used st) (m_rest st))).

(** Whether a pattern has a capturing group. *)
Fixpoint has_group (r : re) : bool :=
  match r with
  | Grp _ => true
  | Seq a b | Alt a b => has_group a || has_group b
  | Opt a => has_group a
  | _ => false
  end.

(** The character before position [i] of a text. *)
Definition char_before (s : str) (i : nat) : option char :=
  match i with O => None | S j => nth_error s j end.

(** The attempt at position [i] of a text. *)
Definition match_at (r : re) (s : str) (i : nat) : option mstate :=
  match_here r (char_before s i) (skipn i s).

(** The earliest position of [s] at which [r] matches, with the group of
    that match; [i] is the position of [s] in the whole text and [prev]
    the character before it. *)
Fixpoint earliest_in (r : re) (prev : option char) (s : str) (i : nat)
  : option (nat * str) :=
  match s with
  | [] => None
  | c :: s' =>
      match match_here r prev s with
      | Some st => Some (i, m_cap st)
      | None => earliest_in r (Some c) s' (S i)
      end
  end.

Definition earliest (r : re) (s : str) : option (nat * str) :=
  earliest_in r None s 0.

(** The specification's amount: the families in order, the first with a
    match decides, by its earliest match, read after the comma has become
    a full stop. *)
Fixpoint first_family (families : list re) (message : str) : option str :=
  match families with
  | [] => None
  | family :: rest =>
      match earliest family message with
      | Some (_, numeral) => Some numeral
      | None => first_family rest message
      end
  end.

Definition amount_spec (message : str) : option float :=
  match first_family money_patterns message with
  | Some numeral => float_of_str (replace_char (chr ",") (chr ".") numeral)
  | None => None
  end.

(** A numeral as the money patterns capture it: decimal digits, at least
    one, then possibly a separator and two more. *)
Definition all_decimal (s : str) : bool := forallb isdecimal s.

Definition is_numeral (s : str) : Prop :=
  exists ds tail,
    s = ds ++ tail /\ ds <> [] /\ all_decimal ds = true /\
    (tail = [] \/
     exists sep d1 d2,
       tail = [sep; d1; d2] /\ (sep = chr "." \/ sep = chr ",") /\
       isdecimal d1 = true /\ isdecimal d2 = true).

End Processor.

Arguments chr a : simpl never.
Arguments _extract_amount py message : simpl never.
Arguments _extract_category py message : simpl never.
Arguments _extract_description py message : simpl never.
Arguments _identify_message_type py message : simpl never.
Arguments process_message py message : simpl never.

(** ** The specification's reading of the scorer and of the extractors *)

(** A category counts as present when it is a non-empty string. *)
Definition category_present (category : option str) : bool :=
  match category with Some c => truthy c | None => false end.

Definition is_sentinel (category : option str) : bool :=
  match category with Some c => str_eqb c outros | None => false end.

Definition description_present (description : str) : bool :=
  truthy description && negb (str_eqb description unspecified).

(** The score in tenths, as the specification adds it up. *)
Definition score_tenths
  (amount : option float) (category : option str) (description : str) : Z :=
  ((match amount with Some _ => 4 | None => 0 end) +
   (if category_present category && negb (is_sentinel category) then 3
    else if is_sentinel category then 1 else 0) +
   (if description_present description then 3 else 0))%Z.

Definition clamp (lo hi x : Z) : Z := Z.max lo (Z.min hi x).

(** The same sum in binary64, clamped to the unit interval. *)
Definition float_clamp01 (x : float) : float :=
  if PrimFloat.ltb x 0%float then 0%float
  else if PrimFloat.ltb 1%float x then 1%float else x.

Definition score_float
  (amount : option float) (category : option str) (description : str) : float :=
  float_clamp01
    ((match amount with Some _ => 0.4 | None => 0 end) +
     (if category_present category && negb (is_sentinel category) then 0.3
      else if is_sentinel category then 0.1 else 0) +
     (if description_present description then 0.3 else 0))%float.

(** Some keyword of the list occurs in the message. *)
Definition any_in (keywords : list str) (message : str) : bool :=
  existsb (fun keyword => str_in keyword message) keywords.

(** The period cascade of the specification, written out. *)
Definition period_cascade (message : str) : str :=
  if str_in (U "hoje") message then U "today"
  else if str_in (U "ontem") message then U "yesterday"
  else if str_in (U "semana") message then U "week"
  else if str_in (U "mês") message then U "month"
  else if str_in (U "mes") message then U "month"
  else if str_in (U "ano") message then U "year"
  else if str_in (U "total") message then U "all"
  else U "month".

(** The period of a processed report request. *)
Definition report_period (r : result) : option str :=
  match fields r with Report d => Some (period d) | _ => None end.

(** The amount and the category of a processed expense. *)
Definition expense_amount (r : result) : option float :=
  match fields r with Expense d => amount d | _ => None end.

Definition expense_category (r : result) : option str :=
  match fields r with Expense d => Some (e_category d) | _ => None end.

(** The triggers of the first entry of the table. *)
Definition alimentacao_keywords : list str :=
  match category_mapping with (_, kws) :: _ => kws | [] => [] end.

(** Whether an optional amount is there ([is not None]). *)
Definition is_some (x : option float) : bool :=
  match x with Some _ => true | None => false end.

(** The confidence of a processed expense. *)
Definition expense_confidence (r : result) : option float :=
  match fields r with Expense d => Some (confidence d) | _ => None end.

(** The first step of [process_message]: [message.lower().strip()]. *)
Definition normalize (py : runtime) (message : str) : str :=
  strip (lower py message).

(** The code points of Latin-1. *)
Definition latin1_chars : list char := map N.of_nat (seq 0 256).

(** ** The helpers of [src/utils/helpers.py] *)

(** [re.sub(cls, '', s)] for a pattern [cls] that is one character class:
    the characters of the class are removed. *)
Definition remove_class (cls : char -> bool) (s : str) : str :=
  filter (fun c => negb (cls c)) s.

Definition is_separator (c : char) : bool :=
  ((c =? 44) || (c =? 46))%N.

(** The characters the class "[^\d,.]" leaves out: decimal digits, the
    comma and the full stop. *)
Definition currency_char (py : runtime) (c : char) : bool :=
  isdecimal py c || is_separator c.

Definition parse_currency (py : runtime) (currency_str : str) : option float :=
  let cleaned := remove_class (fun c => negb (currency_char py c)) currency_str in
  if negb (truthy cleaned) then None
  else float_of_str py (replace_char (chr ",") (chr ".") cleaned).

(** [validate_phone_number]; [None] stands for the [ValueError] that
    [int] raises on a text that is not a numeral. *)
Definition validate_phone_number (py : runtime) (phone : str) : option bool :=
  let cleaned := remove_class (fun c => negb (isdecimal py c)) phone in
  if negb (Nat.eqb (List.length cleaned) 10 || Nat.eqb (List.length cleaned) 11)
  then Some false
  else
    match firstn 2 cleaned, digits_value py (firstn 2 cleaned) 0 with
    | _ :: _, Some ddd =>
        if ((ddd <? 11) || (99 <? ddd))%Z then Some false else Some true
    | _, _ => None
    end.

(** The class "[\x00-\x1f\x7f-\x9f]". *)
Definition is_control (c : char) : bool :=
  ((c <=? 31) || (127 <=? c) && (c <=? 159))%N.

(** The slice [s[:n]]. *)
Definition slice_to (n : Z) (s : str) : str :=
  if (0 <=? n)%Z then firstn (Z.to_nat n) s
  else firstn (Z.to_nat (Z.of_nat (List.length s) + n)) s.

Definition sanitize_input (text : str) (max_length : Z) : str :=
  if negb (truthy text) then []
  else
    let sanitized := remove_class is_control text in
    let sanitized := slice_to max_length sanitized in
    let sanitized := join (U " ") (split sanitized) in
    strip sanitized.

(** The decimal digits of [n], the least significant first. *)
Fixpoint digits_lsd (fuel : nat) (n : Z) : list Z :=
  match fuel with
  | O => []
  | S fuel' =>
      (n mod 10)%Z ::
      (if (n <? 10)%Z then [] else digits_lsd fuel' (n / 10)%Z)
  end.

Definition digit_char (d : Z) : char := Z.to_N (48 + d).

(** [str(n)] for [0 <= n]. *)
Definition str_of_nat (n : Z) : str :=
  rev (map digit_char (digits_lsd (S (Z.to_nat (Z.log2 n))) n)).

(** The thousands separators of the format ",": a comma after every third
    digit, counted from the right; [ds] is reversed and [k] digits of the
    current group are out. *)
Fixpoint group_lsd (ds : str) (k : nat) : str :=
  match ds with
  | [] => []
  | d :: rest =>
      match rest, k with
      | _ :: _, 2 => d :: chr "," :: group_lsd rest 0
      | _, _ => d :: group_lsd rest (S k)
      end
  end.

Definition grouped (n : Z) : str := rev (group_lsd (rev (str_of_nat n)) 0).

(** The absolute value of a finite float in hundredths, rounded to the
    nearest integer, ties to even. *)
Definition cents_of (m : positive) (e : Z) : Z :=
  let '(n, d) := scaled (Zpos m * 100) 1 (- e) in round_div n d.

Definition sign_text (s : bool) : str := if s then U "-" else [].

(** [format(x, ',.2f')]. *)
Definition format_comma_2f (x : float) : str :=
  match Prim2SF x with
  | S754_nan => U "nan"
  | S754_infinity s => sign_text s ++ U "inf"
  | S754_zero s => sign_text s ++ U "0.00"
  | S754_finite s m e =>
      let cents := cents_of m e in
      sign_text s ++ grouped (cents / 100) ++ U "." ++
      [digit_char (cents / 10 mod 10); digit_char (cents mod 10)]
  end.

Definition format_currency (amount : float) : str :=
  replace_char (chr "X") (chr ".")
    (replace_char (chr ".") (chr ",")
       (replace_char (chr ",") (chr "X") (U "R$ " ++ format_comma_2f amount))).

(** A dictionary of strings and [d.get(key, default)]. *)
Fixpoint dict_get (d : list (str * str)) (key default : str) : str :=
  match d with
  | [] => default
  | (k, v) :: rest => if str_eqb k key then v else dict_get rest key default
  end.

Definition emoji_map : list (str * str) :=
  [ (U "alimentação", U "🍽️"); (U "transporte", U "🚗");
    (U "combustível", U "⛽"); (U "saúde", U "🏥"); (U "educação", U "📚");
    (U "lazer", U "🎬"); (U "casa", U "🏠"); (U "roupas", U "👕");
    (U "outros", U "📦") ].

Definition get_emoji_for_category (py : runtime) (category : str) : str :=
  dict_get emoji_map (lower py category) (U "📦").

(** [Config.DEFAULT_CATEGORIES] of [src/config/settings.py]. *)
Definition DEFAULT_CATEGORIES : list str :=
  map U ["alimentação"; "transporte"; "combustível"; "saúde"; "educação";
         "lazer"; "casa"; "roupas"; "outros"]%string.

(** A word of [split]: not empty, no whitespace in it. *)
Definition word_ok (w : str) : Prop :=
  w <> [] /\ forallb (fun c => negb (isspace c)) w = true.

(** How many commas and full stops a text holds. *)
Definition count_separators (s : str) : nat :=
  List.length (filter is_separator s).

(** The decimal digits of a text, and the number its first two stand for. *)
Definition digits_of (py : runtime) (s : str) : str :=
  filter (isdecimal py) s.

Definition area_code (py : runtime) (phone : str) : Z :=
  match digits_value py (firstn 2 (digits_of py phone)) 0 with
  | Some v => v
  | None => 0
  end.

(** Every decimal digit of the runtime has a value below ten. *)
Definition digits_below_ten (py : runtime) : Prop :=
  forall c d, decimal_value py c = Some d -> (d < 10)%N.

(** The comma and the full stop changed for one another. *)
Definition swap_separators (c : char) : char :=
  if (c =? 44)%N then 46%N else if (c =? 46)%N then 44%N else c.

Definition is_dot (c : char) : bool := (c =? 46)%N.

(** The number a list of decimal digits stands for, the least significant
    first. *)
Fixpoint lsd_value (l : list Z) : Z :=
  match l with
  | [] => 0
  | d :: l' => (d + 10 * lsd_value l')%Z
  end.


(** ** The message handler of [src/whatsapp/message_handler.py]

    The handler answers a text message through the WhatsApp client and
    files expenses through [ExpenseService].  Its texts come from
    [generate_response_message] of [src/utils/helpers.py]. *)

Definition nl : str := [10%N].

(** A text between double quotes. *)
Definition quoted (s : str) : str := [34%N] ++ s ++ [34%N].

(** [Py_UNICODE_TOTITLE] in full on Latin-1: the small letters move down
    by 32, but the sharp s becomes "Ss", the micro sign the Greek capital
    mu and the y with diaeresis its capital, both outside Latin-1. *)
Definition latin1_totitle (c : char) : str :=
  if (c =? 223)%N then [83%N; 115%N]
  else if (c =? 181)%N then [924%N]
  else if (c =? 255)%N then [376%N]
  else if ((97 <=? c) && (c <=? 122) ||
           (224 <=? c) && (c <=? 254) && negb (c =? 247))%N
  then [(c - 32)%N]
  else [c].

(** The loop of [str.title]: a character after a cased one is lowered,
    any other takes its title case; the Latin-1 letters are all cased. *)
Fixpoint title_go (s : str) (previous_is_cased : bool) : str :=
  match s with
  | [] => []
  | c :: s' =>
      (if previous_is_cased then [latin1_tolower c] else latin1_totitle c) ++
      title_go s' (latin1_isalpha c)
  end.

(** The dictionary [data] of [generate_response_message]; [None] is a
    key that is not there. *)
Record response_data := ResponseData
  { d_amount : option float; d_category : option str;
    d_total : option float; d_period : option str; d_message : option str }.

Definition no_data : response_data := ResponseData None None None None None.

(** [d.get(key, default)] on an optional entry. *)
Definition get_default (A : Type) (entry : option A) (default : A) : A :=
  match entry with Some v => v | None => default end.

Definition help_text : str :=
  join nl
    [ [];
      U "🤖 *WhatsApp Expense Tracker - Ajuda*";
      [];
      U "*Como registrar gastos:*";
      U "• " ++ quoted (U "Gastei 50 reais em alimentação");
      U "• " ++ quoted (U "Combustível 120");
      U "• " ++ quoted (U "Paguei 30 no almoço");
      [];
      U "*Como solicitar relatórios:*";
      U "• " ++ quoted (U "Relatório alimentação");
      U "• " ++ quoted (U "Quanto gastei este mês");
      U "• " ++ quoted (U "Total de gastos");
      [];
      U "*Categorias disponíveis:*";
      U "• Alimentação • Transporte • Combustível";
      U "• Saúde • Educação • Lazer";
      U "• Casa • Roupas • Outros";
      [];
      U "Digite " ++ quoted (U "ajuda") ++
        U " a qualquer momento para ver esta mensagem.";
      U "        " ].

Definition unknown_text : str :=
  join nl
    [ [];
      U "🤔 Não entendi sua mensagem. ";
      [];
      U "Tente algo como:";
      U "• " ++ quoted (U "Gastei 50 reais em alimentação");
      U "• " ++ quoted (U "Relatório do mês");
      U "• " ++ quoted (U "ajuda") ++ U " para ver todas as opções";
      U "        " ].

(** A row of the table [expenses], with the columns the program sets. *)
Record expense := NewExpense
  { x_user_phone : str; x_amount : option float; x_category : str;
    x_description : str; x_confidence : float; x_original_message : str }.

(** [result.get('category')], [result.get('description')],
    [result.get('confidence', 1.0)] and [result.get('period', 'month')]
    on the dictionary of [process_message]. *)
Definition get_category (r : result) : option str :=
  match fields r with
  | Expense d => Some (e_category d)
  | Report d => Some (r_category d)
  | Nothing => None
  end.

Definition get_description (r : result) : option str :=
  match fields r with Expense d => Some (description d) | _ => None end.

Definition get_confidence (r : result) : float :=
  match fields r with Expense d => confidence d | _ => 1%float end.

Definition get_period (r : result) : str :=
  match fields r with Report d => period d | _ => U "month" end.

(** [Expense.create_from_message_data] of [src/models/expense.py]. *)
Definition create_from_message_data (user_phone : str) (message_data : result)
  : expense :=
  NewExpense user_phone
    (match fields message_data with
     | Expense d => amount d
     | _ => Some 0%float
     end)
    (get_default (get_category message_data) (U "outros"))
    (get_default (get_description message_data) [])
    (get_confidence message_data)
    (original_message message_data).

(** An entry of the list [get_category_summary] returns. *)
Record summary_item := SummaryItem
  { s_category : str; s_total : float; s_count : Z }.

(** The dictionary [get_user_statistics] returns. *)
Record statistics := Statistics
  { total_expenses : Z; total_amount : float; today_total : float;
    week_total : float; month_total : float;
    most_used_category : option str }.

(** What the handler takes from outside.  The database: whether the
    commit of a new row goes through, what the sum of the amounts of a
    user's rows in a period is (over one category if one is given; the
    inner [None] is SQL's NULL, the sum of no row), the totals by
    category, the statistics; for these three [None] is an exception.
    The WhatsApp client: whether it is configured and whether a request
    returns.  Python: [str.title] on a text that leaves Latin-1.  The
    dates of a period ([get_period_dates]) stay with the database. *)
Record services := Services
  { commits : expense -> bool;
    sum_amounts : str -> str -> option str -> option (option float);
    category_totals : str -> str -> option (list summary_item);
    user_statistics : str -> option statistics;
    is_configured : bool;
    delivers : str -> str -> bool;
    ext_title : str -> str }.

(** The requests the handler makes that change something outside. *)
Inductive call :=
  | mark_message_as_read (message_id : option str)
  | session_commit (e : expense)
  | send_text_message (to message : str).

(** A computation that makes calls and returns a value. *)
Definition io (A : Type) : Type := (list call * A)%type.

Definition ret (A : Type) (a : A) : io A := ([], a).

Definition bind (A B : Type) (m : io A) (k : A -> io B) : io B :=
  let '(calls, a) := m in
  let '(calls', b) := k a in
  (calls ++ calls', b).

Notation "x <- m ;; k" := (bind m (fun x => k))
  (at level 61, m at next level, right associativity).

(** [str(n)] for an integer. *)
Definition str_of_int (n : Z) : str :=
  if (n <? 0)%Z then U "-" ++ str_of_nat (- n) else str_of_nat n.

(** A message of the webhook: the values at the keys [id] and [type]
    ([None] is a key that is not there), the sender at [from], the text at
    [text.body] (empty if there is none) and the value at
    [interactive.button_reply.id]. *)
Record incoming_message := Message
  { m_id : option str; m_from : str; m_type : option str; m_body : str;
    m_button : option str }.

(** [x == s] and [x in l] for a value that may be [None]. *)
Definition is_text (x : option str) (s : str) : bool :=
  match x with Some v => str_eqb v s | None => false end.

Definition is_among (x : option str) (l : list str) : bool :=
  match x with Some v => list_in v l | None => false end.

(** [f"{x}"] for a text that may be [None]. *)
Definition format_optional (x : option str) : str :=
  match x with Some v => v | None => U "None" end.

Definition period_names : list (str * str) :=
  [ (U "today", U "hoje"); (U "yesterday", U "ontem");
    (U "week", U "esta semana"); (U "month", U "este mês");
    (U "year", U "este ano"); (U "all", U "total geral") ].

Section Handler.

Variable py : runtime.
Variable world : services.

(** [s.title()]. *)
Definition title (s : str) : str :=
  if forallb is_latin1 s then title_go s false else ext_title world s.

Definition generate_response_message (message_type : str) (data : response_data)
  : str :=
  if str_eqb message_type (U "expense_registered") then
    let amount := format_currency (get_default (d_amount data) 0%float) in
    let category := title (get_default (d_category data) (U "outros")) in
    U "✅ Gasto de " ++ amount ++ U " em " ++ category ++
    U " registrado com sucesso!"
  else if str_eqb message_type (U "report") then
    let total := format_currency (get_default (d_total data) 0%float) in
    let period := get_default (d_period data) (U "período") in
    let category := get_default (d_category data) (U "todas as categorias") in
    let category :=
      if negb (str_eqb category (U "todas as categorias"))
      then title category else category in
    U "📊 Relatório " ++ category ++ U ": Total de " ++ total ++ U " no " ++
    period ++ U "."
  else if str_eqb message_type (U "error") then
    let error_msg := get_default (d_message data) (U "Erro desconhecido") in
    U "❌ Erro: " ++ error_msg
  else if str_eqb message_type (U "help") then strip help_text
  else if str_eqb message_type (U "unknown") then strip unknown_text
  else U "Mensagem processada.".

(** [ExpenseService.create_expense]; [None] is the exception of a commit
    that fails. *)
Definition create_expense (user_phone : str) (message_data : result)
  : io (option expense) :=
  let expense := create_from_message_data user_phone message_data in
  ([session_commit expense],
   if commits world expense then Some expense else None).

(** [ExpenseService.get_total_by_period]: the category narrows the query
    when it is a non-empty text other than "todas as categorias"; a sum
    that is NULL or zero counts as [0.0]. *)
Definition get_total_by_period (user_phone period : str) (category : option str)
  : option float :=
  let filter :=
    match category with
    | Some c =>
        if truthy c && negb (str_eqb c (U "todas as categorias"))
        then Some c else None
    | None => None
    end in
  match sum_amounts world user_phone period filter with
  | Some (Some total) => Some (if float_truthy total then total else 0%float)
  | Some None => Some 0%float
  | None => None
  end.

Definition _send_text_message (to message : str) : io (option str) :=
  if negb (is_configured world) then ret (Some message)
  else ([send_text_message to message],
        if delivers world to message then Some message else None).

Definition _send_error_response (from_number error_msg : str)
  : io (option str) :=
  let response_text :=
    generate_response_message (U "error")
      (ResponseData None None None None (Some error_msg)) in
  _send_text_message from_number response_text.

Definition _send_help_message (from_number : str) : io (option str) :=
  _send_text_message from_number (generate_response_message (U "help") no_data).

Definition _send_unknown_message_response (from_number : str)
  : io (option str) :=
  _send_text_message from_number
    (generate_response_message (U "unknown") no_data).

(** The test [not amount or amount <= 0]. *)
Definition no_amount (amount : option float) : bool :=
  match amount with
  | Some x => negb (float_truthy x) || PrimFloat.leb x 0%float
  | None => true
  end.

Definition low_confidence_notice (category : str) : str :=
  nl ++ nl ++ U "⚠️ Identifiquei automaticamente como '" ++ category ++
  U "'. Se estiver errado, me avise!".

Definition _handle_expense_message (result : result) (from_number : str)
  : io (option str) :=
  let failed := _send_error_response from_number (U "Erro ao registrar gasto") in
  let amount := expense_amount result in
  if no_amount amount then
    _send_error_response from_number
      (U "Não consegui identificar o valor do gasto. Tente algo como 'Gastei 50 reais em alimentação'")
  else
    created <- create_expense from_number result ;;
    match created with
    | Some expense =>
        match x_amount expense with
        | Some _ =>
            let response_text :=
              generate_response_message (U "expense_registered")
                (ResponseData (x_amount expense) (Some (x_category expense))
                   None None None) in
            let emoji := get_emoji_for_category py (x_category expense) in
            let response_text := emoji ++ U " " ++ response_text in
            let response_text :=
              if PrimFloat.ltb (get_confidence result) 0.7%float
              then response_text ++ low_confidence_notice (x_category expense)
              else response_text in
            _send_text_message from_number response_text
        | None => failed
        end
    | None => failed
    end.

(** A line of the summary by category. *)
Definition summary_line (item : summary_item) : str :=
  let emoji := get_emoji_for_category py (s_category item) in
  nl ++ emoji ++ U " " ++ title (s_category item) ++ U ": " ++
  format_currency (s_total item).

Definition _handle_report_message (result : result) (from_number : str)
  : io (option str) :=
  let failed := _send_error_response from_number (U "Erro ao gerar relatório") in
  let category := get_category result in
  let period := get_period result in
  match get_total_by_period from_number period category with
  | None => failed
  | Some total =>
      let period_name := dict_get period_names period period in
      let general :=
        match category with
        | Some c => negb (truthy c) || str_eqb c (U "outros")
        | None => true
        end in
      let response_text :=
        match category with
        | Some c =>
            if negb general
            then get_emoji_for_category py c ++ U " *Relatório " ++ title c ++
                 U "*" ++ nl
            else U "📊 *Relatório Geral*" ++ nl
        | None => U "📊 *Relatório Geral*" ++ nl
        end in
      let response_text := response_text ++ U "Período: " ++ period_name ++ nl in
      let response_text :=
        response_text ++ U "Total gasto: " ++ format_currency total in
      if general then
        match category_totals world from_number period with
        | None => failed
        | Some summary =>
            let response_text :=
              if negb (Nat.eqb (List.length summary) 0) then
                let response_text :=
                  response_text ++ nl ++ nl ++ U "*Por categoria:*" in
                let response_text :=
                  fold_left (fun text item => text ++ summary_line item)
                            (firstn 5 summary) response_text in
                if (5 <? List.length summary)%nat
                then response_text ++ nl ++ U "... e mais " ++
                     str_of_int (Z.of_nat (List.length summary) - 5) ++
                     U " categorias"
                else response_text
              else response_text in
            _send_text_message from_number response_text
        end
      else _send_text_message from_number response_text
  end.

Definition _send_statistics (from_number : str) : io (option str) :=
  match user_statistics world from_number with
  | None => _send_error_response from_number (U "Erro ao gerar estatísticas")
  | Some stats =>
      let response_text := U "📈 *Suas Estatísticas*" ++ nl ++ nl in
      let response_text :=
        response_text ++ U "💰 Total gasto: " ++
        format_currency (total_amount stats) ++ nl in
      let response_text :=
        response_text ++ U "📝 Total de gastos: " ++
        str_of_int (total_expenses stats) ++ nl ++ nl in
      let response_text :=
        response_text ++ U "🗓️ Hoje: " ++
        format_currency (today_total stats) ++ nl in
      let response_text :=
        response_text ++ U "📅 Esta semana: " ++
        format_currency (week_total stats) ++ nl in
      let response_text :=
        response_text ++ U "📆 Este mês: " ++
        format_currency (month_total stats) ++ nl in
      let response_text :=
        match most_used_category stats with
        | Some c =>
            if truthy c
            then response_text ++ nl ++ get_emoji_for_category py c ++
                 U " Categoria mais usada: " ++ title c
            else response_text
        | None => response_text
        end in
      _send_text_message from_number response_text
  end.

(** [_handle_text_message]; [body] is the text at
    [message.get('text', {}).get('body', '')]. *)
Definition _handle_text_message (body : str) (from_number : str)
  : io (option str) :=
  let text_body := strip body in
  if negb (truthy text_body)
  then _send_error_response from_number (U "Mensagem vazia")
  else if list_in (lower py text_body)
            (map U ["ajuda"; "help"; "/help"; "/ajuda"]%string)
  then _send_help_message from_number
  else if list_in (lower py text_body)
            (map U ["estatisticas"; "stats"; "/stats"]%string)
  then _send_statistics from_number
  else
    let '(is_valid, error_msg) := validate_message text_body in
    if negb is_valid then _send_error_response from_number error_msg
    else
      let result := process_message py text_body in
      if str_eqb (type_ result) (U "expense")
      then _handle_expense_message result from_number
      else if str_eqb (type_ result) (U "report")
      then _handle_report_message result from_number
      else _send_unknown_message_response from_number.

Definition _handle_interactive_message (message : incoming_message) (from_number : str)
  : io (option str) :=
  let button_id := m_button message in
  if is_text button_id (U "help") then _send_help_message from_number
  else if is_text button_id (U "stats") then _send_statistics from_number
  else _send_text_message from_number (U "Opção não reconhecida.").

Definition _handle_media_message (message : incoming_message) (from_number : str)
  : io (option str) :=
  let message_type := m_type message in
  let response_text :=
    U "Recebi sua " ++ format_optional message_type ++
    U ", mas ainda não consigo processar arquivos. " in
  let response_text :=
    response_text ++
    U "Por favor, envie o gasto como texto. Exemplo: 'Gastei 50 reais em alimentação'" in
  _send_text_message from_number response_text.

Definition _send_unsupported_message_response (from_number : str)
  : io (option str) :=
  let response_text :=
    U "🤖 Ainda não consigo processar esse tipo de mensagem. " in
  let response_text :=
    response_text ++ U "Por favor, envie mensagens de texto com seus gastos." in
  _send_text_message from_number response_text.

(** [_mark_as_read]: the request is made when the client is configured,
    and an exception of it is passed over. *)
Definition _mark_as_read (message_id : option str) : io unit :=
  if is_configured world then ([mark_message_as_read message_id], tt)
  else ret tt.

(** [handle_incoming_message].  With the processor loaded, on a message
    of this form none of the methods it calls lets an exception out (those
    that ask the database or the client catch their own), so its [except]
    clause is not reached. *)
Definition handle_incoming_message (message : incoming_message) : io (option str) :=
  let message_id := m_id message in
  let from_number := m_from message in
  let message_type := m_type message in
  _ <- _mark_as_read message_id ;;
  if is_text message_type (U "text")
  then _handle_text_message (m_body message) from_number
  else if is_text message_type (U "interactive")
  then _handle_interactive_message message from_number
  else if is_among message_type
            (map U ["image"; "document"; "audio"; "video"]%string)
  then _handle_media_message message from_number
  else _send_unsupported_message_response from_number.

End Handler.

(** A float that is neither NaN nor negative: zero, a positive number or
    plus infinity. *)
Definition sf_nonneg (x : spec_float) : bool :=
  match x with
  | S754_zero false | S754_finite false _ _ | S754_infinity false => true
  | _ => false
  end.

Definition no_digit (py : runtime) (s : str) : bool :=
  forallb (fun c => negb (isdecimal py c)) s.

(** A sum that is NULL or zero counts as [0.0]. *)
Definition or_zero (total : option float) : float :=
  match total with
  | Some x => if float_truthy x then x else 0%float
  | None => 0%float
  end.

(** The handler made the commits of [filed], then asked the client, if it
    is configured, to send [text]. *)
Definition answer (world : services) (from_number : str)
  (filed : list expense) (text : str) : io (option str) :=
  (map session_commit filed ++
   (if is_configured world then [send_text_message from_number text] else []),
   if is_configured world && negb (delivers world from_number text)
   then None else Some text).

Definition answers_once (world : services) (from_number : str)
  (out : io (option str)) : Prop :=
  exists (filed : list expense) (text : str),
    (List.length filed <= 1)%nat /\ out = answer world from_number filed text.

(** Services that always answer, with a client that is not configured. *)
Definition offline_services : services :=
  Services (fun _ => true) (fun _ _ _ => Some (Some 12.5%float))
           (fun _ _ => Some []) (fun _ => None) false (fun _ _ => true)
           (fun s => s).

(** The number of the caller in the examples. *)
Definition example_phone : str := U "5511999999999".

(** ** Validation *)

Lemma validate_message_unfold (message : str) :
  validate_message message =
    if negb (truthy (strip message)) then (false, U "Mensagem vazia")
    else if (500 <? List.length message)%nat
         then (false, U "Mensagem muito longa (máximo 500 caracteres)")
         else (true, []).
Proof.
  unfold validate_message.
  destruct message as [|c s]; [reflexivity|].
  reflexivity.
Qed.

Lemma truthy_false_iff (s : str) : truthy s = false <-> s = [].
Proof. destruct s; simpl; split; congruence. Qed.

(** C5, as stated, fails: a text of 501 spaces is longer than 500
    characters and is refused as empty, not as too long. *)
Lemma validate_message_blank_501 :
  (500 < List.length (repeat 32%N 501))%nat /\
  validate_message (repeat 32%N 501) = (false, U "Mensagem vazia").
Proof. split; [vm_compute; lia | vm_compute; reflexivity]. Qed.

(** C5 (amended): validation succeeds exactly when the trimmed text is
    non-empty and the text has at most 500 characters; it fails with
    "Mensagem vazia" when the trimmed text is empty, whatever the length,
    and with "Mensagem muito longa" when the trimmed text is non-empty and
    the text is longer than 500 characters. *)
Theorem validate_message_cases (message : str) :
  (fst (validate_message message) = true <->
     strip message <> [] /\ (List.length message <= 500)%nat) /\
  (strip message = [] ->
     validate_message message = (false, U "Mensagem vazia")) /\
  (strip message <> [] -> (500 < List.length message)%nat ->
     validate_message message =
       (false, U "Mensagem muito longa (máximo 500 caracteres)")).
Proof.
  rewrite validate_message_unfold.
  destruct (truthy (strip message)) eqn:Ht; simpl.
  - assert (Hs : strip message <> []).
    { intro E. rewrite E in Ht. discriminate. }
    destruct (500 <? List.length message)%nat eqn:Hl; simpl.
    + apply Nat.ltb_lt in Hl.
      split; [split; [discriminate | intros [_ H]; lia] |].
      split; [congruence | reflexivity].
    + apply Nat.ltb_ge in Hl.
      split; [split; [intros _; split; assumption | reflexivity] |].
      split; [congruence | intros _ H; lia].
  - apply truthy_false_iff in Ht.
    split; [split; [discriminate | intros [H _]; congruence] |].
    split; [reflexivity | congruence].
Qed.

Lemma validate_message_cases_witness :
  fst (validate_message (U "gastei 50 reais")) = true /\
  validate_message (U "   ") = (false, U "Mensagem vazia") /\
  validate_message (repeat 97%N 501) =
    (false, U "Mensagem muito longa (máximo 500 caracteres)").
Proof.
  split; [|split].
  - apply (proj1 (validate_message_cases (U "gastei 50 reais"))).
    split; [vm_compute; discriminate | vm_compute; lia].
  - apply (proj1 (proj2 (validate_message_cases (U "   ")))).
    vm_compute; reflexivity.
  - apply (proj2 (proj2 (validate_message_cases (repeat 97%N 501)))).
    + vm_compute; discriminate.
    + vm_compute; lia.
Defined.

(** ** The confidence score *)

(** The score only depends on which of the three fields count as present. *)
Lemma calculate_confidence_unfold
  (amount : option float) (category : option str) (description : str) :
  _calculate_confidence amount category description =
    py_min
      (let s0 := match amount with Some _ => (0 + 0.4)%float | None => 0%float end in
       let s1 :=
         if category_present category && negb (is_sentinel category)
         then (s0 + 0.3)%float
         else if is_sentinel category then (s0 + 0.1)%float else s0 in
       if description_present description then (s1 + 0.3)%float else s1)
      1%float.
Proof.
  unfold _calculate_confidence, category_present, is_sentinel,
    description_present.
  destruct amount, category; reflexivity.
Qed.

Ltac score_cases amount category description :=
  rewrite ?calculate_confidence_unfold;
  unfold score_float, score_tenths;
  destruct amount;
  destruct (category_present category);
  destruct (is_sentinel category);
  destruct (description_present description);
  vm_compute; try reflexivity; auto.

(** C4: the score is the sum of 0.4 for a present amount, 0.3 for a present
    category other than the sentinel "outros" or 0.1 for the sentinel, and
    0.3 for a present description other than the placeholder, clamped to
    [0, 1]: it is that sum computed in binary64, and it is the binary64
    nearest to the exact sum of the tenths. *)
Theorem calculate_confidence_sum
  (amount : option float) (category : option str) (description : str) :
  _calculate_confidence amount category description =
    score_float amount category description /\
  _calculate_confidence amount category description =
    float_of_ratio (clamp 0 10 (score_tenths amount category description)) 10.
Proof.
  split; score_cases amount category description.
Qed.

(** C7: for a fixed category and description a present amount never scores
    less than an absent one; the score never exceeds 1.0; and on an
    extraction with no other field (no category and an empty description,
    or the sentinel category and the placeholder the extractors fall back
    to) the amount adds exactly 0.4. *)
Theorem calculate_confidence_monotone
  (x : float) (category : option str) (description : str) :
  PrimFloat.leb (_calculate_confidence None category description)
                (_calculate_confidence (Some x) category description) = true /\
  PrimFloat.leb (_calculate_confidence (Some x) category description) 1 = true /\
  PrimFloat.leb (_calculate_confidence None category description) 1 = true /\
  (_calculate_confidence (Some x) None [] -
   _calculate_confidence None None [] = 0.4)%float /\
  (_calculate_confidence (Some x) (Some outros) unspecified -
   _calculate_confidence None (Some outros) unspecified = 0.4)%float /\
  score_tenths (Some x) category description =
    (score_tenths None category description + 4)%Z.
Proof.
  repeat split;
    try (vm_compute; reflexivity);
    try (unfold score_tenths; lia);
    score_cases (@None float) category description.
Qed.

(** ** The period of a report *)

(** C9: the period is found by the cascade "hoje", "ontem", "semana",
    "mês", "mes", "ano", "total" in that order, the first keyword in the
    text deciding, and is month when none occurs; "Relatório alimentação"
    is a report with the default period month, "Balanço da semana" a
    report with period week. *)
Theorem extract_period_cascade (py : runtime) :
  (forall message, _extract_period message = period_cascade message) /\
  (forall message,
     any_in (map fst period_keywords) message = false ->
     _extract_period message = U "month") /\
  (type_ (process_message py (U "Relatório alimentação")) = U "report" /\
   report_period (process_message py (U "Relatório alimentação"))
     = Some (U "month") /\
   any_in (map fst period_keywords) (U "relatório alimentação") = false) /\
  (type_ (process_message py (U "Balanço da semana")) = U "report" /\
   report_period (process_message py (U "Balanço da semana"))
     = Some (U "week")).
Proof.
  split; [|split; [|split]].
  - intros message. unfold _extract_period, period_cascade. simpl.
    repeat match goal with
           | |- context [str_in ?k message] => destruct (str_in k message)
           end; reflexivity.
  - intros message H. unfold _extract_period.
    unfold any_in in H. simpl in H.
    repeat (apply orb_false_elim in H; destruct H as [?H H]).
    simpl.
    repeat match goal with
           | E : str_in ?k message = false |- _ => rewrite E; clear E
           end.
    reflexivity.
  - repeat split; vm_compute; reflexivity.
  - repeat split; vm_compute; reflexivity.
Qed.

Lemma extract_period_cascade_witness :
  _extract_period (U "balanço") = U "month".
Proof.
  apply (proj1 (proj2 (extract_period_cascade latin1_runtime))).
  vm_compute; reflexivity.
Defined.

(** ** Categories *)

Lemma category_by_keyword_skip (message : str) (pre rest : list (str * list str)) :
  (forall e, In e pre -> any_in (snd e) message = false) ->
  category_by_keyword (pre ++ rest) message = category_by_keyword rest message.
Proof.
  induction pre as [|[c kws] pre IH]; intros H; simpl; [reflexivity|].
  assert (E : any_in kws message = false) by (apply (H (c, kws)); left; reflexivity).
  unfold any_in in E. rewrite E.
  apply IH. intros e He. apply H. right. exact He.
Qed.

Lemma category_by_keyword_first
  (message : str) (pre post : list (str * list str)) (c : str) (kws : list str) :
  (forall e, In e pre -> any_in (snd e) message = false) ->
  any_in kws message = true ->
  category_by_keyword (pre ++ (c, kws) :: post) message = Some c.
Proof.
  intros Hpre Hk. rewrite category_by_keyword_skip by exact Hpre.
  simpl. unfold any_in in Hk. rewrite Hk. reflexivity.
Qed.

Lemma extract_category_first
  (py : runtime) (message : str) (pre post : list (str * list str))
  (c : str) (kws : list str) :
  category_mapping = pre ++ (c, kws) :: post ->
  (forall e, In e pre -> any_in (snd e) message = false) ->
  any_in kws message = true ->
  _extract_category py message = c.
Proof.
  intros Ht Hpre Hk. unfold _extract_category.
  assert (E : category_by_keyword category_mapping message = Some c).
  { rewrite Ht. apply category_by_keyword_first; assumption. }
  rewrite E. reflexivity.
Qed.

Lemma any_in_intro (k : str) (kws : list str) (message : str) :
  In k kws -> str_in k message = true -> any_in kws message = true.
Proof.
  intros Hin Hk. unfold any_in. apply existsb_exists.
  exists k. split; assumption.
Qed.

(** C3: the category is that of the first entry of the table, in the order
    of declaration, one of whose triggers occurs in the text; a text with
    the trigger "combustível", which the entries "transporte" and
    "combustível" share, gets "transporte", declared first of the two
    (unless the one entry before it, "alimentação", has a trigger in the
    text too); and "Combustível 120" is an expense of amount 120.0 and
    category "transporte". *)
Theorem extract_category_declaration_order (py : runtime) :
  (forall message pre post c kws,
     category_mapping = pre ++ (c, kws) :: post ->
     (forall e, In e pre -> any_in (snd e) message = false) ->
     any_in kws message = true ->
     _extract_category py message = c) /\
  (forall message,
     str_in (U "combustível") message = true ->
     any_in alimentacao_keywords message = false ->
     _extract_category py message = U "transporte") /\
  (forall message,
     str_in (U "combustível") message = true ->
     _extract_category py message = U "alimentação" \/
     _extract_category py message = U "transporte") /\
  (type_ (process_message py (U "Combustível 120")) = U "expense" /\
   expense_amount (process_message py (U "Combustível 120")) = Some 120%float /\
   expense_category (process_message py (U "Combustível 120"))
     = Some (U "transporte")).
Proof.
  assert (Hshared : forall message,
     str_in (U "combustível") message = true ->
     any_in alimentacao_keywords message = false ->
     _extract_category py message = U "transporte").
  { intros message Hk Ha.
    apply (@extract_category_first py message
             (firstn 1 category_mapping) (skipn 2 category_mapping)
             (U "transporte") (nth 1 (map snd category_mapping) [])).
    - reflexivity.
    - intros e [<-|[]]. exact Ha.
    - apply any_in_intro with (k := U "combustível"); [|exact Hk].
      vm_compute. tauto. }
  split; [|split; [|split]].
  - intros; eapply extract_category_first; eassumption.
  - exact Hshared.
  - intros message Hk.
    destruct (any_in alimentacao_keywords message) eqn:Ha.
    + left.
      apply (@extract_category_first py message [] (skipn 1 category_mapping)
               (U "alimentação") alimentacao_keywords).
      * reflexivity.
      * intros e [].
      * exact Ha.
    + right. apply Hshared; assumption.
  - repeat split; vm_compute; reflexivity.
Qed.

Lemma extract_category_declaration_order_witness :
  _extract_category latin1_runtime (U "posto de combustível") = U "transporte".
Proof.
  apply (proj1 (proj2 (extract_category_declaration_order latin1_runtime))).
  - vm_compute; reflexivity.
  - vm_compute; reflexivity.
Defined.

(** C6, as stated, fails: "gasolina" and "diesel" are two triggers of the
    entry "combustível" and both occur in "gasolina e diesel" (and in
    "diesel e gasolina"), yet the category is "transporte", an entry
    declared earlier that lists them too. *)
Lemma extract_category_shadowed :
  (exists kws,
     nth_error category_mapping 2 = Some (U "combustível", kws) /\
     In (U "gasolina") kws /\ In (U "diesel") kws) /\
  str_in (U "gasolina") (U "gasolina e diesel") = true /\
  str_in (U "diesel") (U "gasolina e diesel") = true /\
  _extract_category latin1_runtime (U "gasolina e diesel") = U "transporte" /\
  _extract_category latin1_runtime (U "diesel e gasolina") = U "transporte" /\
  str_eqb (U "transporte") (U "combustível") = false.
Proof.
  split.
  - eexists. split; [reflexivity|]. vm_compute. tauto.
  - repeat split; vm_compute; reflexivity.
Qed.

(** The keyword loop only sees which triggers occur in the text. *)
Lemma category_by_keyword_occurrences
  (table : list (str * list str)) (m1 m2 : str) :
  (forall e k, In e table -> In k (snd e) -> str_in k m1 = str_in k m2) ->
  category_by_keyword table m1 = category_by_keyword table m2.
Proof.
  induction table as [|[c kws] table IH]; intros H; simpl; [reflexivity|].
  assert (E : existsb (fun keyword => str_in keyword m1) kws =
              existsb (fun keyword => str_in keyword m2) kws).
  { assert (Hk : forall k, In k kws -> str_in k m1 = str_in k m2).
    { intros k Hk. apply (H (c, kws)); [left; reflexivity | exact Hk]. }
    clear H IH. induction kws as [|k kws IHk]; simpl; [reflexivity|].
    rewrite (Hk k) by (left; reflexivity).
    rewrite IHk; [reflexivity|]. intros k' Hk'. apply Hk. right. exact Hk'. }
  rewrite E. rewrite IH; [reflexivity|].
  intros e k He Hk. apply (H e k); [right; exact He | exact Hk].
Qed.

(** C6 (amended): when two triggers of an entry of the table both occur in
    a message and no entry declared before it has a trigger in the
    message, the category is that entry's, wherever the two triggers stand
    in the text; and two messages in which the same triggers occur get the
    same category from the keyword loop. *)
Theorem extract_category_two_triggers (py : runtime) :
  (forall message pre post c kws k1 k2,
     category_mapping = pre ++ (c, kws) :: post ->
     In k1 kws -> In k2 kws -> k1 <> k2 ->
     str_in k1 message = true -> str_in k2 message = true ->
     (forall e, In e pre -> any_in (snd e) message = false) ->
     _extract_category py message = c) /\
  (forall m1 m2,
     (forall e k, In e category_mapping -> In k (snd e) ->
                  str_in k m1 = str_in k m2) ->
     category_by_keyword category_mapping m1 =
     category_by_keyword category_mapping m2).
Proof.
  split.
  - intros message pre post c kws k1 k2 Ht H1 _ _ Hk1 _ Hpre.
    apply extract_category_first with (pre := pre) (post := post) (kws := kws);
      [exact Ht | exact Hpre |].
    apply any_in_intro with (k := k1); assumption.
  - intros m1 m2 H. apply category_by_keyword_occurrences. exact H.
Qed.

Ltac no_earlier_entry :=
  let e := fresh "e" in
  let He := fresh "He" in
  intros e He; vm_compute in He;
  repeat (destruct He as [<-|He]; [vm_compute; reflexivity|]);
  destruct He.

Lemma extract_category_two_triggers_witness :
  _extract_category latin1_runtime (U "show no bar") = U "lazer" /\
  _extract_category latin1_runtime (U "bar e show") = U "lazer".
Proof.
  split.
  - apply (proj1 (extract_category_two_triggers latin1_runtime))
      with (pre := firstn 5 category_mapping) (post := skipn 6 category_mapping)
           (kws := nth 5 (map snd category_mapping) [])
           (k1 := U "show") (k2 := U "bar").
    + reflexivity.
    + vm_compute; tauto.
    + vm_compute; tauto.
    + discriminate.
    + vm_compute; reflexivity.
    + vm_compute; reflexivity.
    + no_earlier_entry.
  - apply (proj1 (extract_category_two_triggers latin1_runtime))
      with (pre := firstn 5 category_mapping) (post := skipn 6 category_mapping)
           (kws := nth 5 (map snd category_mapping) [])
           (k1 := U "show") (k2 := U "bar").
    + reflexivity.
    + vm_compute; tauto.
    + vm_compute; tauto.
    + discriminate.
    + vm_compute; reflexivity.
    + vm_compute; reflexivity.
    + no_earlier_entry.
Defined.

(** ** Descriptions *)

(** C8: the description is never the empty string: when the three removal
    passes, the collapse of whitespace and the trim leave nothing, it is
    the placeholder "Gasto não especificado"; otherwise it is what they
    leave. *)
Theorem extract_description_never_empty (py : runtime) (message : str) :
  truthy (_extract_description py message) = true /\
  _extract_description py message =
    (if truthy (strip (cleaned py message))
     then strip (cleaned py message) else unspecified) /\
  (strip (cleaned py message) = [] ->
   _extract_description py message = U "Gasto não especificado").
Proof.
  unfold _extract_description.
  destruct (strip (cleaned py message)) as [|c s] eqn:E; simpl.
  - repeat split.
  - repeat split. discriminate.
Qed.

Lemma extract_description_never_empty_witness :
  strip (cleaned latin1_runtime (U "gastei 50 em")) = [] /\
  _extract_description latin1_runtime (U "gastei 50 em")
    = U "Gasto não especificado".
Proof.
  split; [vm_compute; reflexivity|].
  apply (proj2 (proj2 (extract_description_never_empty latin1_runtime
                         (U "gastei 50 em")))).
  vm_compute; reflexivity.
Defined.

(** ** The matcher finds matches only *)

Section MatcherFacts.

Variable py : runtime.

Lemma star_loop_sound (a : atom) (k : mstate -> option mstate) (res : mstate) :
  forall (s : str) (st : mstate),
    m_rest st = s ->
    star_loop py k a s st = Some res ->
    exists st', steps py (Star a) st st' /\ k st' = Some res.
Proof.
  induction s as [|c s' IH]; intros st Hs H; simpl in H.
  - exists st. split; [constructor | exact H].
  - destruct (atom_ok py a c) eqn:Hc.
    + destruct (star_loop py k a s' (advance c s' st)) as [r|] eqn:Hr.
      * injection H as <-.
        destruct (IH (advance c s' st) eq_refl Hr) as [st' [Hst Hk]].
        exists st'. split; [|exact Hk].
        eapply steps_star_more; eassumption.
      * exists st. split; [constructor | exact H].
    + exists st. split; [constructor | exact H].
Qed.

Lemma rep_loop_sound (a : atom) (k : mstate -> option mstate) (res : mstate) :
  forall (n : nat) (s : str) (st : mstate),
    m_rest st = s ->
    rep_loop py k a n s st = Some res ->
    exists st', steps py (Rep n a) st st' /\ k st' = Some res.
Proof.
  induction n as [|n IH]; intros s st Hs H; simpl in H.
  - exists st. split; [constructor | exact H].
  - destruct s as [|c s']; [discriminate|].
    destruct (atom_ok py a c) eqn:Hc; [|discriminate].
    destruct (IH s' (advance c s' st) eq_refl H) as [st' [Hst Hk]].
    exists st'. split; [|exact Hk].
    eapply steps_rep_S; eassumption.
Qed.

Lemma rmatch_sound (r : re) :
  forall (st : mstate) (k : mstate -> option mstate) (res : mstate),
    rmatch py r st k = Some res ->
    exists st', steps py r st st' /\ k st' = Some res.
Proof.
  induction r as [ | a | | | a IHa b IHb | a IHa b IHb | a IHa | a | a | n a
                 | a IHa ];
    intros st k res H; simpl in H.
  - exists st. split; [constructor | exact H].
  - destruct (m_rest st) as [|c s'] eqn:Hs; [discriminate|].
    destruct (atom_ok py a c) eqn:Hc; [|discriminate].
    exists (advance c s' st). split; [|exact H].
    apply steps_chr; assumption.
  - destruct (xorb _ _) eqn:Hb; [|discriminate].
    exists st. split; [|exact H]. apply steps_bnd. exact Hb.
  - destruct (m_rest st) as [|c [|c' s']] eqn:Hs; try discriminate.
    + exists st. split; [|exact H]. apply steps_eos. left. exact Hs.
    + destruct (c =? 10)%N eqn:Hc; [|discriminate].
      apply N.eqb_eq in Hc. subst c.
      exists st. split; [|exact H]. apply steps_eos. right. exact Hs.
  - destruct (IHa _ _ _ H) as [st1 [H1 H2]].
    destruct (IHb _ _ _ H2) as [st2 [H3 H4]].
    exists st2. split; [|exact H4]. eapply steps_seq; eassumption.
  - destruct (rmatch py a st k) as [x|] eqn:Ha.
    + injection H as <-.
      destruct (IHa _ _ _ Ha) as [st' [H1 H2]].
      exists st'. split; [|exact H2]. apply steps_alt_l. exact H1.
    + destruct (IHb _ _ _ H) as [st' [H1 H2]].
      exists st'. split; [|exact H2]. apply steps_alt_r. exact H1.
  - destruct (rmatch py a st k) as [x|] eqn:Ha.
    + injection H as <-.
      destruct (IHa _ _ _ Ha) as [st' [H1 H2]].
      exists st'. split; [|exact H2]. apply steps_opt_some. exact H1.
    + exists st. split; [|exact H]. apply steps_opt_none.
  - eapply star_loop_sound; [reflexivity | exact H].
  - destruct (m_rest st) as [|c s'] eqn:Hs; [discriminate|].
    destruct (atom_ok py a c) eqn:Hc; [|discriminate].
    destruct (star_loop_sound a k (advance c s' st) eq_refl H) as [st' [H1 H2]].
    exists st'. split; [|exact H2]. eapply steps_plus; eassumption.
  - eapply rep_loop_sound; [reflexivity | exact H].
  - destruct (IHa _ _ _ H) as [st' [H1 H2]].
    eexists. split; [|exact H2]. apply steps_grp. exact H1.
Qed.

Lemma match_here_sound (r : re) (prev : option char) (s : str) (st : mstate) :
  match_here py r prev s = Some st -> steps py r (start prev s) st.
Proof.
  intros H. destruct (rmatch_sound r _ _ H) as [st' [H1 H2]].
  injection H2 as <-. exact H1.
Qed.

(** A match consumes a prefix of the text after the cursor, and counts it. *)
Lemma steps_consumes (r : re) (st st' : mstate) :
  steps py r st st' ->
  exists w, m_rest st = w ++ m_rest st' /\
            m_used st' = m_used st + List.length w.
Proof.
  induction 1;
    try (exists []; split; [reflexivity | simpl; lia]);
    try assumption.
  - exists [c]. simpl. split; [assumption | lia].
  - destruct IHsteps1 as [w1 [E1 U1]]. destruct IHsteps2 as [w2 [E2 U2]].
    exists (w1 ++ w2). rewrite <- app_assoc, <- E2, <- E1.
    split; [reflexivity|]. rewrite length_app. lia.
  - destruct IHsteps as [w [E1 U1]]. simpl in E1, U1.
    exists (c :: w). simpl. rewrite <- E1. split; [assumption | lia].
  - destruct IHsteps as [w [E1 U1]]. simpl in E1, U1.
    exists (c :: w). simpl. rewrite <- E1. split; [assumption | lia].
  - destruct IHsteps as [w [E1 U1]]. simpl in E1, U1.
    exists (c :: w). simpl. rewrite <- E1. split; [assumption | lia].
Qed.

Lemma firstn_exact (A : Type) (w rest : list A) :
  firstn (List.length w) (w ++ rest) = w.
Proof.
  induction w as [|x w IH]; simpl; [destruct rest; reflexivity|].
  rewrite IH. reflexivity.
Qed.

(** The group holds the text its body consumed. *)
Lemma steps_grp_inv (a : re) (st st' : mstate) :
  steps py (Grp a) st st' ->
  exists st2 w,
    steps py a st st2 /\ m_rest st = w ++ m_rest st2 /\
    m_rest st' = m_rest st2 /\
    m_used st2 = m_used st + List.length w /\ m_cap st' = w.
Proof.
  intros H. inversion H as [| | | | | | | | | | | | | |a0 st0 st2 Ha]; subst.
  destruct (steps_consumes Ha) as [w [E1 U1]].
  exists st2, w. repeat split; try assumption.
  simpl. rewrite U1.
  replace (m_used st + List.length w - m_used st) with (List.length w) by lia.
  rewrite E1. apply firstn_exact.
Qed.

(** A repetition consumes characters of its atom and leaves the group alone. *)
Lemma steps_star_inv (a : atom) (st st' : mstate) :
  steps py (Star a) st st' ->
  exists w, m_rest st = w ++ m_rest st' /\
            forallb (atom_ok py a) w = true /\ m_cap st' = m_cap st.
Proof.
  intros H. remember (Star a) as r eqn:Er.
  induction H; try discriminate.
  - exists []. repeat split.
  - injection Er as ->.
    destruct (IHsteps eq_refl) as [w [E1 [F1 C1]]]. simpl in E1, C1.
    exists (c :: w). simpl. rewrite <- E1, H0, F1. repeat split; assumption.
Qed.

Lemma steps_plus_inv (a : atom) (st st' : mstate) :
  steps py (Plus a) st st' ->
  exists c w, m_rest st = (c :: w) ++ m_rest st' /\
              forallb (atom_ok py a) (c :: w) = true /\ m_cap st' = m_cap st.
Proof.
  intros H. inversion H as [| | | | | | | | | | |a0 c s' st0 st0' Hr Hc Hs| | |]; subst.
  destruct (steps_star_inv Hs) as [w [E1 [F1 C1]]]. simpl in E1, C1.
  exists c, w. simpl. rewrite <- E1, Hc, F1. repeat split; assumption.
Qed.

Lemma steps_rep_inv (a : atom) (n : nat) (st st' : mstate) :
  steps py (Rep n a) st st' ->
  exists w, m_rest st = w ++ m_rest st' /\ List.length w = n /\
            forallb (atom_ok py a) w = true /\ m_cap st' = m_cap st.
Proof.
  intros H. remember (Rep n a) as r eqn:Er. revert n Er.
  induction H; intros n0 Er; try discriminate.
  - injection Er as <- ->. exists []. repeat split.
  - injection Er as <- ->.
    destruct (IHsteps n eq_refl) as [w [E1 [L1 [F1 C1]]]]. simpl in E1, C1.
    exists (c :: w). simpl. rewrite <- E1, H0, F1, L1. repeat split; assumption.
Qed.

End MatcherFacts.

(** ** What the money patterns capture *)

Section AmountFacts.

Variable py : runtime.

Lemma steps_seq_inv (a b : re) (st st' : mstate) :
  steps py (Seq a b) st st' ->
  exists st1, steps py a st st1 /\ steps py b st1 st'.
Proof.
  intros H. inversion H; subst. eexists; split; eassumption.
Qed.

Lemma steps_opt_inv (a : re) (st st' : mstate) :
  steps py (Opt a) st st' -> st' = st \/ steps py a st st'.
Proof.
  intros H. inversion H; subst; [right; assumption | left; reflexivity].
Qed.

Lemma steps_chr_inv (a : atom) (st st' : mstate) :
  steps py (Chr a) st st' ->
  exists c s', m_rest st = c :: s' /\ atom_ok py a c = true /\
               st' = advance c s' st.
Proof.
  intros H. inversion H; subst. eexists _, _. repeat split; eassumption.
Qed.

Lemma steps_no_group (r : re) (st st' : mstate) :
  steps py r st st' -> has_group r = false -> m_cap st' = m_cap st.
Proof.
  induction 1; simpl; intros Hg; try reflexivity; try discriminate;
    try (apply orb_false_elim in Hg; destruct Hg as [Hg1 Hg2]).
  - rewrite IHsteps2, IHsteps1 by assumption. reflexivity.
  - apply IHsteps; assumption.
  - apply IHsteps; assumption.
  - apply IHsteps; assumption.
  - rewrite IHsteps by reflexivity. reflexivity.
  - rewrite IHsteps by reflexivity. reflexivity.
  - rewrite IHsteps by reflexivity. reflexivity.
Qed.

(** The group [(\d+)]: one decimal digit or more. *)
Lemma steps_digits_group (st st' : mstate) :
  steps py (Grp (Plus Digit)) st st' ->
  exists c w, m_cap st' = c :: w /\ all_decimal py (c :: w) = true /\
              m_rest st = (c :: w) ++ m_rest st'.
Proof.
  intros H. destruct (steps_grp_inv H) as [st2 [w [Ha [E1 [E2 [_ C1]]]]]].
  destruct (steps_plus_inv Ha) as [c [w' [E3 [F3 _]]]].
  assert (Ew : w = c :: w').
  { apply app_inv_tail with (l := m_rest st2). rewrite <- E1. exact E3. }
  exists c, w'. rewrite C1, E2, Ew. repeat split; [exact F3 | ].
  rewrite E3. reflexivity.
Qed.

Lemma one_of_separator (sep : char) :
  atom_ok py (OneOf [chr "."; chr ","]) sep = true ->
  sep = chr "." \/ sep = chr ",".
Proof.
  simpl. intros H.
  apply orb_true_iff in H. destruct H as [H|H].
  - left. apply N.eqb_eq. exact H.
  - apply orb_true_iff in H. destruct H as [H|H]; [|discriminate].
    right. apply N.eqb_eq. exact H.
Qed.

(** The first pattern captures a numeral, which lies in the text. *)
Lemma currency_capture (st st' : mstate) :
  steps py money_currency st st' ->
  is_numeral py (m_cap st') /\
  exists w0, m_rest st = w0 ++ m_cap st' ++ m_rest st'.
Proof.
  unfold money_currency. intros H.
  destruct (steps_seq_inv H) as [st1 [Hopt Hgrp]].
  destruct (steps_consumes Hopt) as [w0 [E0 _]].
  destruct (steps_grp_inv Hgrp) as [st2 [w [Hbody [E1 [E2 [_ C1]]]]]].
  destruct (steps_seq_inv Hbody) as [st3 [Hplus Htail]].
  destruct (steps_plus_inv Hplus) as [c [w1 [E3 [F3 _]]]].
  assert (Hin : exists w0', m_rest st = w0' ++ m_cap st' ++ m_rest st').
  { exists w0. rewrite C1, E2, <- E1. exact E0. }
  split; [|exact Hin].
  rewrite C1.
  destruct (steps_opt_inv Htail) as [-> | Hsep].
  - assert (Ew : w = c :: w1).
    { apply app_inv_tail with (l := m_rest st3). rewrite <- E1. exact E3. }
    exists (c :: w1), []. rewrite Ew, app_nil_r.
    repeat split; [discriminate | exact F3 | left; reflexivity].
  - destruct (steps_seq_inv Hsep) as [st4 [Hchr Hrep]].
    destruct (steps_chr_inv Hchr) as [sep [s4 [E4 [Hok ->]]]].
    destruct (steps_rep_inv Hrep) as [w2 [E5 [L5 [F5 _]]]]. simpl in E5.
    destruct w2 as [|d1 [|d2 [|d3 w2]]]; try discriminate.
    assert (Ew : w = (c :: w1) ++ [sep; d1; d2]).
    { apply app_inv_tail with (l := m_rest st2). rewrite <- E1, E3, E4, E5.
      rewrite <- app_assoc. reflexivity. }
    exists (c :: w1), [sep; d1; d2].
    simpl in F5. apply andb_true_iff in F5. destruct F5 as [Fd1 F5].
    apply andb_true_iff in F5. destruct F5 as [Fd2 _].
    repeat split; [exact Ew | discriminate | exact F3 |].
    right. exists sep, d1, d2.
    repeat split; [apply one_of_separator; exact Hok | exact Fd1 | exact Fd2].
Qed.

(** The second and third patterns capture digits, from the start of the
    match. *)
Lemma digits_then_capture (r : re) (st st' : mstate) :
  has_group r = false ->
  steps py (Seq (Grp (Plus Digit)) r) st st' ->
  is_numeral py (m_cap st') /\
  exists c s', m_rest st = c :: s' /\ isdecimal py c = true.
Proof.
  intros Hg H.
  destruct (steps_seq_inv H) as [st1 [Hgrp Hrest]].
  destruct (steps_digits_group Hgrp) as [c [w [C1 [F1 E1]]]].
  rewrite (steps_no_group Hrest Hg), C1.
  split.
  - exists (c :: w), []. rewrite app_nil_r.
    repeat split; [discriminate | exact F1 | left; reflexivity].
  - exists c, (w ++ m_rest st1). split; [exact E1|].
    simpl in F1. apply andb_true_iff in F1. apply F1.
Qed.

End AmountFacts.

(** ** Numerals always parse *)

Section NumeralFacts.

Variable py : runtime.

Lemma decimal_not_separator (c : char) :
  isdecimal py c = true -> (c =? chr ",")%N = false /\ (c =? chr ".")%N = false.
Proof.
  intros H. split.
  - destruct (N.eqb_spec c (chr ",")) as [->|]; [|reflexivity].
    vm_compute in H. discriminate.
  - destruct (N.eqb_spec c (chr ".")) as [->|]; [|reflexivity].
    vm_compute in H. discriminate.
Qed.

Lemma replace_char_digits (ds : str) :
  all_decimal py ds = true -> replace_char (chr ",") (chr ".") ds = ds.
Proof.
  induction ds as [|c ds IH]; simpl; intros H; [reflexivity|].
  apply andb_true_iff in H. destruct H as [Hc Hds].
  rewrite (proj1 (decimal_not_separator c Hc)), (IH Hds). reflexivity.
Qed.

Lemma replace_char_app (a b : char) (x y : str) :
  replace_char a b (x ++ y) = replace_char a b x ++ replace_char a b y.
Proof. apply map_app. Qed.

Lemma cut_dot_digits (ds t : str) :
  all_decimal py ds = true ->
  cut_dot (ds ++ t) = (ds ++ fst (cut_dot t), snd (cut_dot t)).
Proof.
  induction ds as [|c ds IH]; simpl; intros H.
  - destruct (cut_dot t); reflexivity.
  - apply andb_true_iff in H. destruct H as [Hc Hds].
    destruct (decimal_not_separator c Hc) as [_ E].
    change (chr ".") with 46%N in E. rewrite E, (IH Hds). reflexivity.
Qed.

Lemma digits_value_total (ds : str) :
  all_decimal py ds = true ->
  forall acc, exists v, digits_value py ds acc = Some v.
Proof.
  induction ds as [|c ds IH]; simpl; intros H acc.
  - exists acc. reflexivity.
  - apply andb_true_iff in H. destruct H as [Hc Hds].
    unfold isdecimal in Hc.
    destruct (decimal_value py c) as [d|]; [|discriminate].
    apply IH. exact Hds.
Qed.

(** [float] never raises on what a money pattern captures. *)
Lemma float_of_numeral (s : str) :
  is_numeral py s ->
  exists x, float_of_str py (replace_char (chr ",") (chr ".") s) = Some x.
Proof.
  intros [ds [tail [-> [Hne [Hds Htail]]]]].
  rewrite replace_char_app, (@replace_char_digits ds Hds).
  unfold float_of_str. rewrite (@cut_dot_digits ds _ Hds).
  destruct (@digits_value_total ds Hds 0%Z) as [vi Hvi].
  destruct Htail as [-> | [sep [d1 [d2 [-> [Hsep [H1 H2]]]]]]].
  - cbn [replace_char map cut_dot fst snd]. rewrite app_nil_r.
    destruct ds as [|c ds]; [congruence|]. rewrite Hvi. eexists. reflexivity.
  - assert (E : replace_char (chr ",") (chr ".") [sep; d1; d2]
                = [chr "."; d1; d2]).
    { unfold replace_char. simpl. rewrite (proj1 (@decimal_not_separator d1 H1)),
                     (proj1 (@decimal_not_separator d2 H2)).
      destruct Hsep as [-> | ->]; reflexivity. }
    rewrite E.
    assert (Hfp : all_decimal py [d1; d2] = true).
    { simpl. rewrite H1, H2. reflexivity. }
    destruct (@digits_value_total [d1; d2] Hfp 0%Z) as [vf Hvf].
    change (cut_dot [chr "."; d1; d2]) with ([] : str, Some [d1; d2]).
    cbn [fst snd]. rewrite app_nil_r, Hvi, Hvf.
    destruct ds as [|c ds]; [congruence|]. eexists. reflexivity.
Qed.

(** ** The first pattern matches at every decimal digit *)

Lemma star_loop_total (a : atom) (k : mstate -> option mstate) :
  (forall st, k st <> None) ->
  forall s st, star_loop py k a s st <> None.
Proof.
  intros Hk. induction s as [|c s IH]; intros st; simpl; [apply Hk|].
  destruct (atom_ok py a c); [|apply Hk].
  destruct (star_loop py k a s (advance c s st)); [discriminate | apply Hk].
Qed.

Lemma currency_at_digit (prev : option char) (c : char) (s : str) :
  isdecimal py c = true ->
  match_here py money_currency prev (c :: s) <> None.
Proof.
  intros Hc. unfold match_here, money_currency.
  cbn [rmatch].
  match goal with
  | |- match ?first with Some _ => _ | None => _ end <> None =>
      destruct first; [discriminate|]
  end.
  cbn [start m_rest atom_ok]. rewrite Hc.
  apply star_loop_total. intros st.
  match goal with
  | |- match ?first with Some _ => _ | None => _ end <> None =>
      destruct first; discriminate
  end.
Qed.

(** ** The scan and the earliest match *)

Lemma scan_head (r : re) :
  forall (s : str) (prev : option char) (i : nat),
    hd_error (captures (scan py r prev s 0)) =
    option_map snd (earliest_in py r prev s i).
Proof.
  induction s as [|c s IH]; intros prev i; simpl; [reflexivity|].
  destruct (match_here py r prev (c :: s)) as [st|].
  - destruct (m_used st); reflexivity.
  - simpl. apply IH.
Qed.

Lemma findall_head (r : re) (s : str) :
  hd_error (findall py r s) = option_map snd (earliest py r s).
Proof. apply scan_head. Qed.

Lemma skipn_cons_nth (s : str) :
  forall (j : nat) (c : char) (s' : str),
    skipn j s = c :: s' -> nth_error s j = Some c /\ skipn (S j) s = s'.
Proof.
  induction s as [|x s IH]; intros j c s' H.
  - destruct j; discriminate.
  - destruct j as [|j]; simpl in *.
    + injection H as -> ->. split; reflexivity.
    + apply IH. exact H.
Qed.

(** [earliest_in] walks the positions in order: where it stops, the
    pattern matches; before, it does not. *)
Lemma earliest_in_spec (r : re) (whole : str) :
  forall (s : str) (i : nat) (found : nat * str),
    skipn i whole = s ->
    earliest_in py r (char_before whole i) s i = Some found ->
    (exists st, match_at py r whole (fst found) = Some st /\
                m_cap st = snd found) /\
    i <= fst found < List.length whole /\
    (forall j, i <= j < fst found -> match_at py r whole j = None).
Proof.
  induction s as [|c s IH]; intros i found Hs H; simpl in H; [discriminate|].
  assert (Hlen : i < List.length whole).
  { destruct (Nat.lt_ge_cases i (List.length whole)) as [Hl|Hl]; [exact Hl|].
    rewrite skipn_all2 in Hs by exact Hl. discriminate. }
  destruct (match_here py r (char_before whole i) (c :: s)) as [st|] eqn:Hm.
  - injection H as <-. simpl.
    split; [|split; [lia | intros j Hj; lia]].
    exists st. unfold match_at. rewrite Hs. split; [exact Hm | reflexivity].
  - destruct (@skipn_cons_nth whole i c s Hs) as [Hn Hs'].
    assert (Hprev : char_before whole (S i) = Some c) by exact Hn.
    rewrite <- Hprev in H.
    destruct (IH (S i) found Hs' H) as [Hst [Hr Hbefore]].
    split; [exact Hst|]. split; [lia|].
    intros j Hj.
    destruct (Nat.eq_dec j i) as [->|Hne].
    + unfold match_at. rewrite Hs. exact Hm.
    + apply Hbefore. lia.
Qed.

Lemma earliest_in_none (r : re) (whole : str) :
  forall (s : str) (i : nat),
    skipn i whole = s ->
    earliest_in py r (char_before whole i) s i = None ->
    forall j, i <= j < List.length whole -> match_at py r whole j = None.
Proof.
  induction s as [|c s IH]; intros i Hs H j Hj; simpl in H.
  - assert (List.length (skipn i whole) = 0) by (rewrite Hs; reflexivity).
    rewrite length_skipn in *. lia.
  - destruct (match_here py r (char_before whole i) (c :: s)) as [st|] eqn:Hm;
      [discriminate|].
    destruct (@skipn_cons_nth whole i c s Hs) as [Hn Hs'].
    assert (Hprev : char_before whole (S i) = Some c) by exact Hn.
    rewrite <- Hprev in H.
    destruct (Nat.eq_dec j i) as [->|Hne].
    + unfold match_at. rewrite Hs. exact Hm.
    + apply (IH (S i) Hs' H). lia.
Qed.

End NumeralFacts.

(** ** Amounts *)

Unset Implicit Arguments.

Section ExtractAmount.

Variable py : runtime.

Lemma findall_of_earliest (r : re) (s : str) :
  match earliest py r s with
  | Some (_, numeral) => exists rest, findall py r s = numeral :: rest
  | None => findall py r s = []
  end.
Proof.
  pose proof (findall_head py r s) as H.
  destruct (earliest py r s) as [[i numeral]|]; simpl in H;
    destruct (findall py r s) as [|x rest]; try discriminate.
  - injection H as ->. exists rest. reflexivity.
  - reflexivity.
Qed.

Lemma money_pattern_cases (r : re) :
  In r money_patterns ->
  r = money_currency \/
  exists tail, r = Seq (Grp (Plus Digit)) tail /\ has_group tail = false.
Proof.
  intros [<-|[<-|[<-|[]]]].
  - left. reflexivity.
  - right. eexists. split; reflexivity.
  - right. eexists. split; reflexivity.
Qed.

Lemma existsb_decimal_app (a b : str) (c : char) :
  isdecimal py c = true -> existsb (isdecimal py) (a ++ c :: b) = true.
Proof.
  intros H. rewrite existsb_app. simpl. rewrite H.
  rewrite orb_true_r. reflexivity.
Qed.

(** A match of a money pattern captures a numeral, and the text it
    started in holds a decimal digit. *)
Lemma money_match (r : re) (prev : option char) (s : str) (st : mstate) :
  In r money_patterns ->
  match_here py r prev s = Some st ->
  is_numeral py (m_cap st) /\ existsb (isdecimal py) s = true.
Proof.
  intros Hr Hm. apply match_here_sound in Hm.
  destruct (money_pattern_cases r Hr) as [-> | [tail [-> Hg]]].
  - destruct (@currency_capture py _ _ Hm) as [Hnum [w0 E]].
    split; [exact Hnum|].
    destruct Hnum as [ds [tl [Ecap [Hne [Hds _]]]]].
    simpl in E. rewrite E, Ecap.
    destruct ds as [|c ds]; [congruence|].
    simpl in Hds. apply andb_true_iff in Hds. destruct Hds as [Hc _].
    rewrite <- !app_assoc. simpl.
    apply existsb_decimal_app. exact Hc.
  - destruct (@digits_then_capture py tail _ _ Hg Hm) as [Hnum [c [s' [E Hc]]]].
    split; [exact Hnum|].
    simpl in E. rewrite E. simpl. rewrite Hc. reflexivity.
Qed.

Lemma earliest_in_money (r : re) :
  In r money_patterns ->
  forall (s : str) (prev : option char) (i : nat) (found : nat * str),
    earliest_in py r prev s i = Some found ->
    is_numeral py (snd found) /\ existsb (isdecimal py) s = true.
Proof.
  intros Hr. induction s as [|c s IH]; intros prev i found H; simpl in H;
    [discriminate|].
  destruct (match_here py r prev (c :: s)) as [st|] eqn:Hm.
  - injection H as <-. simpl snd. exact (money_match r prev (c :: s) st Hr Hm).
  - destruct (IH _ _ _ H) as [Hnum Hd]. split; [exact Hnum|].
    simpl. rewrite Hd. apply orb_true_r.
Qed.

Lemma earliest_in_currency (s : str) :
  forall (prev : option char) (i : nat),
    existsb (isdecimal py) s = true ->
    earliest_in py money_currency prev s i <> None.
Proof.
  induction s as [|c s IH]; intros prev i H; simpl in H; [discriminate|].
  simpl.
  destruct (match_here py money_currency prev (c :: s)) as [st|] eqn:Hm;
    [discriminate|].
  destruct (isdecimal py c) eqn:Hc.
  - exfalso. exact (@currency_at_digit py prev c s Hc Hm).
  - apply IH. exact H.
Qed.

(** The loop over the patterns agrees with the specification's reading,
    for any families among the three. *)
Lemma extract_amount_from_spec (message : str) (families : list re) :
  (forall r, In r families -> In r money_patterns) ->
  extract_amount_from py families message =
    match first_family py families message with
    | Some numeral =>
        float_of_str py (replace_char (chr ",") (chr ".") numeral)
    | None => None
    end.
Proof.
  induction families as [|r rest IH]; intros Hsub; simpl; [reflexivity|].
  assert (Hr : In r money_patterns) by (apply Hsub; left; reflexivity).
  assert (Hrest : forall r', In r' rest -> In r' money_patterns).
  { intros r' H'. apply Hsub. right. exact H'. }
  pose proof (findall_of_earliest r message) as Hf.
  destruct (earliest py r message) as [[i numeral]|] eqn:He.
  - destruct Hf as [more Hf]. rewrite Hf.
    destruct (earliest_in_money r Hr _ _ _ _ He) as [Hnum _].
    destruct (@float_of_numeral py _ Hnum) as [x Hx].
    simpl in Hx. rewrite Hx. reflexivity.
  - rewrite Hf. apply IH. exact Hrest.
Qed.

Lemma extract_amount_spec (message : str) :
  _extract_amount py message = amount_spec py message.
Proof.
  unfold _extract_amount, amount_spec.
  apply extract_amount_from_spec. intros r H. exact H.
Qed.

Lemma first_family_no_digit (message : str) (families : list re) :
  (forall r, In r families -> In r money_patterns) ->
  existsb (isdecimal py) message = false ->
  first_family py families message = None.
Proof.
  induction families as [|r rest IH]; intros Hsub Hd; simpl; [reflexivity|].
  destruct (earliest py r message) as [[i numeral]|] eqn:He.
  - assert (Hr : In r money_patterns) by (apply Hsub; left; reflexivity).
    destruct (earliest_in_money r Hr _ _ _ _ He) as [_ Hd'].
    congruence.
  - apply IH; [|exact Hd]. intros r' H'. apply Hsub. right. exact H'.
Qed.

End ExtractAmount.

(** C2: the amount is read from the first of the three pattern families,
    in order, that has a match in the text, from the match of that family
    at the earliest position (no attempt of the family succeeds at a
    position before it), with the comma of the numeral turned into a full
    stop before it is parsed; "comprei roupas por r$ 85,50" gives 85.5, and
    "paguei 50 de 100" gives 50, the first numeral, not the largest or the
    last. *)
Theorem extract_amount_first_family_earliest (py : runtime) :
  (forall message, _extract_amount py message = amount_spec py message) /\
  (forall family message i numeral,
     earliest py family message = Some (i, numeral) ->
     (exists st, match_at py family message i = Some st /\
                 m_cap st = numeral) /\
     i < List.length message /\
     (forall j, j < i -> match_at py family message j = None)) /\
  (forall family message,
     earliest py family message = None ->
     forall j, j < List.length message ->
               match_at py family message j = None) /\
  (earliest py money_currency (U "comprei roupas por r$ 85,50")
     = Some (19, U "85,50") /\
   _extract_amount py (U "comprei roupas por r$ 85,50") = Some 85.5%float) /\
  _extract_amount py (U "paguei 50 de 100") = Some 50%float.
Proof.
  split; [|split; [|split; [|split]]].
  - apply extract_amount_spec.
  - intros family message i numeral H.
    destruct (@earliest_in_spec py family message message 0 (i, numeral)
                eq_refl H) as [Hst [Hr Hb]].
    simpl in *. split; [exact Hst|]. split; [lia|].
    intros j Hj. apply Hb. lia.
  - intros family message H j Hj.
    apply (@earliest_in_none py family message message 0 eq_refl H). lia.
  - split; vm_compute; reflexivity.
  - vm_compute; reflexivity.
Qed.

Lemma extract_amount_first_family_earliest_witness :
  (exists st,
     match_at latin1_runtime money_currency (U "gastei 12,50 e 7") 7 = Some st /\
     m_cap st = U "12,50") /\
  match_at latin1_runtime money_currency (U "gastei 12,50 e 7") 3 = None /\
  match_at latin1_runtime money_reais (U "gastei 12,50 e 7") 7 = None.
Proof.
  split; [|split].
  - apply (proj1 (proj2 (extract_amount_first_family_earliest latin1_runtime))
             money_currency (U "gastei 12,50 e 7") 7 (U "12,50")).
    vm_compute; reflexivity.
  - apply (proj1 (proj2 (extract_amount_first_family_earliest latin1_runtime))
             money_currency (U "gastei 12,50 e 7") 7 (U "12,50")).
    + vm_compute; reflexivity.
    + lia.
  - apply (proj1 (proj2 (proj2
             (extract_amount_first_family_earliest latin1_runtime)))
             money_reais (U "gastei 12,50 e 7")).
    + vm_compute; reflexivity.
    + vm_compute; lia.
Defined.

(** C10: an amount is found exactly when the text holds a decimal digit
    (a character of the class [\d]); the first pattern alone decides it,
    the second and third never do; and the numeral the first pattern
    captures always parses, so no text with a digit is left without an
    amount. *)
Theorem extract_amount_iff_digit (py : runtime) (message : str) :
  is_some (_extract_amount py message) = existsb (isdecimal py) message /\
  _extract_amount py message =
    extract_amount_from py [money_currency] message /\
  match hd_error (findall py money_currency message) with
  | Some numeral =>
      is_some (float_of_str py (replace_char (chr ",") (chr ".") numeral))
        = true
  | None => existsb (isdecimal py) message = false
  end.
Proof.
  assert (Hone : forall r, In r [money_currency] -> In r money_patterns).
  { intros r [<-|[]]. left. reflexivity. }
  assert (Hcur : In money_currency money_patterns) by (left; reflexivity).
  rewrite (extract_amount_from_spec py message [money_currency] Hone).
  rewrite extract_amount_spec. unfold amount_spec.
  rewrite findall_head.
  cbn [first_family money_patterns].
  destruct (earliest py money_currency message) as [[i numeral]|] eqn:He.
  - destruct (earliest_in_money py money_currency Hcur _ _ _ _ He)
      as [Hnum Hd].
    destruct (@float_of_numeral py _ Hnum) as [x Hx].
    simpl in Hx. simpl. rewrite Hx, Hd. repeat split.
  - assert (Hd : existsb (isdecimal py) message = false).
    { destruct (existsb (isdecimal py) message) eqn:Hd; [|reflexivity].
      exfalso. exact (@earliest_in_currency py message None 0 Hd He). }
    assert (Hrest : first_family py [money_reais; money_slang] message = None).
    { apply first_family_no_digit; [|exact Hd].
      intros r [<-|[<-|[]]]; [right; left | right; right; left]; reflexivity. }
    cbn [first_family] in Hrest. rewrite Hrest, Hd. simpl. repeat split.
Qed.

(** The cascade of [_identify_message_type], where the amount counts when
    [if] takes it for true. *)
Lemma identify_message_type_cascade (py : runtime) (message : str) :
  _identify_message_type py message =
    if any_in report_keywords message then U "report"
    else if any_in expense_keywords message then U "expense"
    else if amount_truthy (_extract_amount py message) then U "expense"
    else U "unknown".
Proof. reflexivity. Qed.

(** C1 at the text "0": no keyword occurs, the amount 0.0 is extracted,
    and the type is "unknown", not "expense": the test [if amount:] takes
    the zero for no amount. *)
Theorem identify_message_type_zero (py : runtime) :
  any_in report_keywords (U "0") = false /\
  any_in expense_keywords (U "0") = false /\
  _extract_amount py (U "0") = Some 0%float /\
  _identify_message_type py (U "0") = U "unknown" /\
  _extract_amount py (U "r$ 0,00") = Some 0%float /\
  _identify_message_type py (U "r$ 0,00") = U "unknown".
Proof. repeat split; vm_compute; reflexivity. Qed.

(** ** Whole messages *)

(** The examples of the test suite: an expense with a keyword, an expense
    with a currency sign and a decimal comma, and a greeting. *)
Theorem process_message_examples (py : runtime) :
  (type_ (process_message py (U "Gastei 50 reais em alimentação"))
     = U "expense" /\
   expense_amount (process_message py (U "Gastei 50 reais em alimentação"))
     = Some 50%float /\
   expense_category (process_message py (U "Gastei 50 reais em alimentação"))
     = Some (U "alimentação") /\
   expense_confidence (process_message py (U "Gastei 50 reais em alimentação"))
     = Some 1%float /\
   PrimFloat.ltb 0.5 1 = true) /\
  (type_ (process_message py (U "Comprei roupas por R$ 85,50")) = U "expense" /\
   expense_amount (process_message py (U "Comprei roupas por R$ 85,50"))
     = Some 85.5%float /\
   expense_category (process_message py (U "Comprei roupas por R$ 85,50"))
     = Some (U "roupas")) /\
  (type_ (process_message py (U "Olá, como vai?")) = U "unknown" /\
   fields (process_message py (U "Olá, como vai?")) = Nothing).
Proof. repeat split; vm_compute; reflexivity. Qed.

(** The type is one of the three, and a report keyword wins over an
    amount: "total 50" is a report. *)
Theorem identify_message_type_range (py : runtime) :
  (forall message,
     _identify_message_type py message = U "report" \/
     _identify_message_type py message = U "expense" \/
     _identify_message_type py message = U "unknown") /\
  _extract_amount py (U "total 50") = Some 50%float /\
  _identify_message_type py (U "total 50") = U "report".
Proof.
  split; [|split; vm_compute; reflexivity].
  intros message. rewrite identify_message_type_cascade.
  destruct (any_in report_keywords message); [left; reflexivity|].
  destruct (any_in expense_keywords message); [right; left; reflexivity|].
  destruct (amount_truthy (_extract_amount py message));
    [right; left | right; right]; reflexivity.
Qed.

(** ** Normalizing twice *)

Lemma latin1_table (P : char -> bool) :
  forallb P latin1_chars = true ->
  forall c, is_latin1 c = true -> P c = true.
Proof.
  intros H c Hc. rewrite forallb_forall in H. apply H.
  unfold latin1_chars. apply in_map_iff. exists (N.to_nat c).
  split; [apply N2Nat.id|].
  apply in_seq. unfold is_latin1 in Hc. apply N.ltb_lt in Hc. lia.
Qed.

Lemma latin1_tolower_outside (c : char) :
  is_latin1 c = false -> latin1_tolower c = c.
Proof.
  unfold is_latin1, latin1_tolower. intros H. apply N.ltb_ge in H.
  replace (c <=? 90)%N with false by (symmetry; apply N.leb_gt; lia).
  replace (c <=? 222)%N with false by (symmetry; apply N.leb_gt; lia).
  rewrite !andb_false_r. reflexivity.
Qed.

Lemma latin1_tolower_space (c : char) :
  isspace (latin1_tolower c) = isspace c.
Proof.
  destruct (is_latin1 c) eqn:Hc.
  - apply eqb_prop.
    apply (latin1_table
             (fun x => Bool.eqb (isspace (latin1_tolower x)) (isspace x)));
      [vm_compute; reflexivity | exact Hc].
  - rewrite latin1_tolower_outside by exact Hc. reflexivity.
Qed.

Lemma latin1_tolower_idem (c : char) :
  latin1_tolower (latin1_tolower c) = latin1_tolower c.
Proof.
  destruct (is_latin1 c) eqn:Hc.
  - apply N.eqb_eq.
    apply (latin1_table
             (fun x => (latin1_tolower (latin1_tolower x) =? latin1_tolower x)%N));
      [vm_compute; reflexivity | exact Hc].
  - rewrite (latin1_tolower_outside c Hc). apply latin1_tolower_outside.
    exact Hc.
Qed.

Lemma latin1_tolower_latin1 (c : char) :
  is_latin1 c = true -> is_latin1 (latin1_tolower c) = true.
Proof.
  apply (latin1_table (fun x => is_latin1 (latin1_tolower x))).
  vm_compute; reflexivity.
Qed.

Lemma lstrip_map (s : str) :
  lstrip (map latin1_tolower s) = map latin1_tolower (lstrip s).
Proof.
  induction s as [|c s IH]; simpl; [reflexivity|].
  rewrite latin1_tolower_space. destruct (isspace c); [exact IH | reflexivity].
Qed.

Lemma strip_map (s : str) :
  strip (map latin1_tolower s) = map latin1_tolower (strip s).
Proof.
  unfold strip. rewrite lstrip_map, <- map_rev, lstrip_map, <- map_rev.
  reflexivity.
Qed.

Lemma lstrip_app_nonspace (a b : str) (c : char) :
  isspace c = false -> lstrip (a ++ c :: b) = lstrip a ++ c :: b.
Proof.
  intros Hc. induction a as [|x a IH]; simpl.
  - rewrite Hc. reflexivity.
  - destruct (isspace x); [exact IH | reflexivity].
Qed.

Lemma lstrip_idem (s : str) : lstrip (lstrip s) = lstrip s.
Proof.
  induction s as [|c s IH]; simpl; [reflexivity|].
  destruct (isspace c) eqn:Hc; [exact IH|]. simpl. rewrite Hc. reflexivity.
Qed.

Lemma strip_idem (s : str) : strip (strip s) = strip s.
Proof.
  unfold strip.
  assert (Hhead : forall t, lstrip t = t ->
            lstrip (rev (lstrip (rev t))) = rev (lstrip (rev t))).
  { intros [|c t] Ht; [reflexivity|].
    assert (Hc : isspace c = false).
    { simpl in Ht. destruct (isspace c) eqn:E; [|reflexivity].
      exfalso.
      assert (L : List.length (lstrip t) <= List.length t).
      { clear. induction t as [|x t IH]; simpl; [lia|].
        destruct (isspace x); simpl; lia. }
      rewrite Ht in L. simpl in L. lia. }
    change (rev (c :: t)) with (rev t ++ [c]).
    rewrite (lstrip_app_nonspace (rev t) [] c Hc).
    rewrite rev_app_distr. simpl. rewrite Hc. reflexivity. }
  rewrite (Hhead (lstrip s) (lstrip_idem s)).
  rewrite rev_involutive, lstrip_idem. reflexivity.
Qed.

Lemma forallb_lstrip (P : char -> bool) (s : str) :
  forallb P s = true -> forallb P (lstrip s) = true.
Proof.
  induction s as [|c s IH]; simpl; [reflexivity|]. intros H.
  destruct (isspace c); [|exact H].
  apply andb_true_iff in H. apply IH. apply H.
Qed.

Lemma forallb_rev_true (P : char -> bool) (s : str) :
  forallb P s = true -> forallb P (rev s) = true.
Proof.
  intros H. apply forallb_forall. intros x Hx.
  apply in_rev in Hx. rewrite forallb_forall in H. apply H. exact Hx.
Qed.

Lemma forallb_strip (P : char -> bool) (s : str) :
  forallb P s = true -> forallb P (strip s) = true.
Proof.
  intros H. unfold strip.
  apply forallb_rev_true, forallb_lstrip, forallb_rev_true, forallb_lstrip.
  exact H.
Qed.

(** Lowering and trimming a Latin-1 text a second time changes nothing. *)
Theorem normalize_idempotent (py : runtime) (message : str) :
  forallb is_latin1 message = true ->
  normalize py (normalize py message) = normalize py message.
Proof.
  intros H. unfold normalize, lower. rewrite H.
  assert (Hl : forallb is_latin1 (strip (map latin1_tolower message)) = true).
  { apply forallb_strip. apply forallb_forall. intros x Hx.
    apply in_map_iff in Hx. destruct Hx as [c [<- Hc]].
    apply latin1_tolower_latin1.
    rewrite forallb_forall in H. apply H. exact Hc. }
  rewrite Hl, !strip_map, strip_idem, map_map.
  apply map_ext. intros c. apply latin1_tolower_idem.
Qed.

Lemma normalize_idempotent_witness :
  normalize latin1_runtime (U "gastei 50 em café") = U "gastei 50 em café" /\
  normalize latin1_runtime (normalize latin1_runtime (U "  Gastei 50 em CAFÉ "))
    = normalize latin1_runtime (U "  Gastei 50 em CAFÉ ").
Proof.
  split; [vm_compute; reflexivity|].
  apply (normalize_idempotent latin1_runtime (U "  Gastei 50 em CAFÉ ")).
  vm_compute; reflexivity.
Defined.

(** ** [sanitize_input] *)

Lemma forallb_rev_eq (P : char -> bool) (s : str) :
  forallb P (rev s) = forallb P s.
Proof.
  induction s as [|c s IH]; simpl; [reflexivity|].
  rewrite forallb_app, IH. simpl. rewrite andb_true_r. apply andb_comm.
Qed.

Lemma split_go_words (s : str) :
  forall w, forallb (fun c => negb (isspace c)) w = true ->
            Forall word_ok (split_go s w).
Proof.
  induction s as [|c s IH]; intros w Hw; simpl.
  - destruct w as [|x w]; [constructor|].
    constructor; [|constructor]. split.
    + intro E. apply (f_equal (@List.length char)) in E.
      rewrite length_rev in E. discriminate.
    + rewrite forallb_rev_eq. exact Hw.
  - destruct (isspace c) eqn:Hc.
    + destruct w as [|x w]; [apply IH; reflexivity|].
      constructor; [|apply IH; reflexivity]. split.
      * intro E. apply (f_equal (@List.length char)) in E.
        rewrite length_rev in E. discriminate.
      * rewrite forallb_rev_eq. exact Hw.
    + apply IH. simpl. rewrite Hc, Hw. reflexivity.
Qed.

Lemma split_words (s : str) : Forall word_ok (split s).
Proof. apply split_go_words. reflexivity. Qed.

Lemma split_go_word (w : str) :
  forallb (fun c => negb (isspace c)) w = true ->
  forall rest acc, split_go (w ++ rest) acc = split_go rest (rev w ++ acc).
Proof.
  induction w as [|c w IH]; intros Hw rest acc; [reflexivity|].
  simpl in Hw. apply andb_true_iff in Hw. destruct Hw as [Hc Hw].
  simpl. apply negb_true_iff in Hc. rewrite Hc.
  rewrite (IH Hw). rewrite <- app_assoc. reflexivity.
Qed.

Lemma rev_nonempty (w : str) : w <> [] -> rev w <> [].
Proof.
  intros H E. apply H. apply (f_equal (@rev char)) in E.
  rewrite rev_involutive in E. exact E.
Qed.

Lemma split_go_space (rest : str) (a : char) (acc : str) :
  split_go (32%N :: rest) (a :: acc) = rev (a :: acc) :: split_go rest [].
Proof. reflexivity. Qed.

(** Splitting what [join] put together gives the words back. *)
Lemma split_join (ws : list str) :
  Forall word_ok ws -> split (join (U " ") ws) = ws.
Proof.
  unfold split. induction 1 as [|w ws [Hne Hw] Hws IH]; [reflexivity|].
  destruct ws as [|w' ws].
  - simpl. rewrite <- (app_nil_r w) at 1.
    rewrite (split_go_word w Hw). simpl. rewrite app_nil_r.
    destruct (rev w) eqn:E; [exfalso; exact (rev_nonempty w Hne E)|].
    rewrite <- E, rev_involutive. reflexivity.
  - change (join (U " ") (w :: w' :: ws))
      with (w ++ U " " ++ join (U " ") (w' :: ws)).
    rewrite (split_go_word w Hw). rewrite app_nil_r.
    change (U " " ++ join (U " ") (w' :: ws))
      with (32%N :: join (U " ") (w' :: ws)).
    destruct (rev w) as [|a acc] eqn:E; [exfalso; exact (rev_nonempty w Hne E)|].
    rewrite split_go_space, <- E, rev_involutive, IH. reflexivity.
Qed.

Lemma join_length (s : str) :
  forall w, List.length (join (U " ") (split_go s w))
            <= List.length s + List.length w.
Proof.
  induction s as [|c s IH]; intros w; simpl.
  - destruct w; simpl; [lia|]. rewrite length_app, length_rev. simpl. lia.
  - destruct (isspace c).
    + destruct w as [|x w].
      * specialize (IH []). simpl in IH. lia.
      * specialize (IH []).
        destruct (split_go s []) as [|w' ws'] eqn:E.
        -- simpl. rewrite length_app, length_rev. simpl. lia.
        -- change (join (U " ") ((rev (x :: w)) :: w' :: ws'))
             with (rev (x :: w) ++ 32%N :: join (U " ") (w' :: ws')).
           rewrite length_app, length_rev. simpl List.length at 1 2.
           simpl in IH. simpl. lia.
    + specialize (IH (c :: w)). simpl in IH. lia.
Qed.

(** Every character [join] and [split] leave is a space they put in or a
    character of the text that is not whitespace. *)
Lemma join_chars (ws : list str) (c : char) :
  In c (join (U " ") ws) -> c = 32%N \/ exists w, In w ws /\ In c w.
Proof.
  induction ws as [|w ws IH]; simpl; [intros []|].
  destruct ws as [|w' ws].
  - intros H. right. exists w. split; [left; reflexivity | exact H].
  - intros H. apply in_app_or in H. destruct H as [H|H].
    + right. exists w. split; [left; reflexivity | exact H].
    + simpl in H. destruct H as [H|H]; [left; symmetry; exact H|].
      destruct (IH H) as [E | [x [Hx Hc]]]; [left; exact E|].
      right. exists x. split; [right; exact Hx | exact Hc].
Qed.

Lemma split_go_chars (s : str) :
  forall w x c, In x (split_go s w) -> In c x -> In c s \/ In c w.
Proof.
  induction s as [|a s IH]; intros w x c Hx Hc; simpl in Hx.
  - destruct w as [|y w]; [destruct Hx|].
    destruct Hx as [<-|[]]. right. apply in_rev. exact Hc.
  - destruct (isspace a).
    + destruct w as [|y w].
      * destruct (IH _ _ _ Hx Hc) as [H|[]]. left. right. exact H.
      * destruct Hx as [<-|Hx]; [right; apply in_rev; exact Hc|].
        destruct (IH _ _ _ Hx Hc) as [H|[]]. left. right. exact H.
    + destruct (IH _ _ _ Hx Hc) as [H|[H|H]].
      * left. right. exact H.
      * left. left. exact H.
      * right. exact H.
Qed.

Lemma lstrip_fixed (t : str) :
  (forall c t', t = c :: t' -> isspace c = false) -> lstrip t = t.
Proof.
  destruct t as [|c t]; [reflexivity|]. intros H. simpl.
  rewrite (H c t eq_refl). reflexivity.
Qed.

Lemma join_head (ws : list str) (c : char) (t : str) :
  Forall word_ok ws -> join (U " ") ws = c :: t -> isspace c = false.
Proof.
  intros Hws E. destruct Hws as [|w ws [Hne Hw] Hws]; [discriminate|].
  destruct w as [|x w]; [congruence|].
  assert (Ec : c = x).
  { destruct ws; simpl in E; injection E as <- _; reflexivity. }
  subst c. simpl in Hw. apply andb_true_iff in Hw. destruct Hw as [Hx _].
  apply negb_true_iff. exact Hx.
Qed.

Lemma join_rev_head (ws : list str) (c : char) (t : str) :
  Forall word_ok ws -> rev (join (U " ") ws) = c :: t -> isspace c = false.
Proof.
  intros Hws. revert c t.
  induction Hws as [|w ws [Hne Hw] Hws IH]; intros c t E; [discriminate|].
  destruct ws as [|w' ws].
  - simpl in E.
    assert (Hin : In c (rev w)) by (rewrite E; left; reflexivity).
    apply in_rev in Hin. rewrite forallb_forall in Hw.
    apply negb_true_iff. apply Hw. exact Hin.
  - change (join (U " ") (w :: w' :: ws))
      with (w ++ 32%N :: join (U " ") (w' :: ws)) in E.
    remember (join (U " ") (w' :: ws)) as J eqn:EJ.
    rewrite rev_app_distr in E.
    change (rev (32%N :: J)) with (rev J ++ [32%N]) in E.
    destruct (rev J) as [|y r] eqn:Er.
    + exfalso. apply (f_equal (@rev char)) in Er.
      rewrite rev_involutive in Er. simpl in Er. subst J.
      inversion Hws as [|? ? [Hne' _] _]; subst.
      destruct w' as [|z w']; [congruence|].
      destruct ws; simpl in Er; discriminate.
    + simpl in E. injection E as <- _. exact (IH y r eq_refl).
Qed.

(** [strip] leaves a joined text as it is. *)
Lemma strip_join (ws : list str) :
  Forall word_ok ws -> strip (join (U " ") ws) = join (U " ") ws.
Proof.
  intros Hws. unfold strip.
  rewrite (lstrip_fixed (join (U " ") ws)).
  - rewrite (lstrip_fixed (rev (join (U " ") ws))); [apply rev_involutive|].
    intros c t E. exact (join_rev_head ws c t Hws E).
  - intros c t E. exact (join_head ws c t Hws E).
Qed.

Lemma sanitize_input_unfold (text : str) (max_length : Z) :
  sanitize_input text max_length =
    if negb (truthy text) then []
    else join (U " ")
           (split (slice_to max_length (remove_class is_control text))).
Proof.
  unfold sanitize_input. destruct (truthy text); [|reflexivity].
  simpl. apply strip_join. apply split_words.
Qed.

Lemma slice_to_length (n : Z) (s : str) :
  List.length (slice_to n s) <= List.length s /\
  ((0 <= n)%Z -> List.length (slice_to n s) <= Z.to_nat n).
Proof.
  unfold slice_to. destruct (0 <=? n)%Z eqn:Hn.
  - split; [rewrite length_firstn; lia | intros _; apply firstn_le_length].
  - apply Z.leb_gt in Hn. split; [rewrite length_firstn; lia | lia].
Qed.

Lemma firstn_in (n : nat) (s : str) (c : char) :
  In c (firstn n s) -> In c s.
Proof.
  revert n. induction s as [|x s IH]; intros [|n]; simpl; try tauto.
  intros [H|H]; [left; exact H | right; exact (IH n H)].
Qed.

Lemma slice_to_in (n : Z) (s : str) (c : char) :
  In c (slice_to n s) -> In c s.
Proof.
  unfold slice_to. destruct (0 <=? n)%Z; apply firstn_in.
Qed.

(** What [sanitize_input] returns is no longer than the text nor, for a
    limit that is not negative, than the limit; it holds no control
    character; and it is in the form trimming and collapsing whitespace
    give: [strip] and the collapse of whitespace leave it as it is. *)
Theorem sanitize_input_invariants (text : str) (max_length : Z) :
  List.length (sanitize_input text max_length) <= List.length text /\
  ((0 <= max_length)%Z ->
   List.length (sanitize_input text max_length) <= Z.to_nat max_length) /\
  (forall c, In c (sanitize_input text max_length) -> is_control c = false) /\
  strip (sanitize_input text max_length) = sanitize_input text max_length /\
  join (U " ") (split (sanitize_input text max_length))
    = sanitize_input text max_length.
Proof.
  rewrite sanitize_input_unfold.
  destruct (truthy text) eqn:Ht; simpl negb; cbv iota.
  2:{ repeat split; try reflexivity; simpl; try lia; intros c []. }
  set (z := slice_to max_length (remove_class is_control text)).
  pose proof (join_length z []) as Hlen. simpl in Hlen.
  rewrite Nat.add_0_r in Hlen. fold (split z) in Hlen.
  destruct (slice_to_length max_length (remove_class is_control text))
    as [Hz1 Hz2]. fold z in Hz1, Hz2.
  pose proof (filter_length_le (fun c => negb (is_control c)) text) as Hf.
  fold (remove_class is_control text) in Hf.
  split; [lia|]. split; [intros Hn; specialize (Hz2 Hn); lia|].
  split; [|split].
  - intros c Hc. apply join_chars in Hc. destruct Hc as [->|[w [Hw Hc]]];
      [reflexivity|].
    destruct (split_go_chars z [] w c Hw Hc) as [H|[]].
    apply slice_to_in in H. unfold remove_class in H.
    apply filter_In in H. destruct H as [_ H].
    apply negb_true_iff. exact H.
  - apply strip_join. apply split_words.
  - rewrite split_join by apply split_words. reflexivity.
Qed.

Lemma sanitize_input_invariants_witness :
  List.length (sanitize_input (U "  gastei   50 reais  ") 10) <= 10.
Proof.
  apply (proj1 (proj2 (sanitize_input_invariants
                         (U "  gastei   50 reais  ") 10))).
  lia.
Defined.

(** Sanitizing a sanitized text again, with the same limit, changes
    nothing. *)
Theorem sanitize_input_idempotent (text : str) (max_length : Z) :
  (0 <= max_length)%Z ->
  sanitize_input (sanitize_input text max_length) max_length
    = sanitize_input text max_length.
Proof.
  intros Hn.
  destruct (sanitize_input_invariants text max_length)
    as [_ [Hlen [Hctl [_ Hjoin]]]].
  specialize (Hlen Hn).
  set (o := sanitize_input text max_length) in *.
  rewrite (sanitize_input_unfold o).
  destruct (truthy o) eqn:Ho; simpl negb; cbv iota.
  2:{ destruct o; [reflexivity | discriminate]. }
  assert (Hf : remove_class is_control o = o).
  { unfold remove_class. apply forallb_filter_id. apply forallb_forall.
    intros c Hc. rewrite (Hctl c Hc). reflexivity. }
  assert (Hs : slice_to max_length o = o).
  { unfold slice_to. apply Z.leb_le in Hn. rewrite Hn.
    apply firstn_all2. exact Hlen. }
  rewrite Hf, Hs. exact Hjoin.
Qed.

Lemma sanitize_input_idempotent_witness :
  sanitize_input (U "gastei 50") 9 = U "gastei 50" /\
  sanitize_input (sanitize_input (U "  gastei   50 reais  ") 9) 9
    = sanitize_input (U "  gastei   50 reais  ") 9.
Proof.
  split; [vm_compute; reflexivity|].
  apply (sanitize_input_idempotent (U "  gastei   50 reais  ") 9). lia.
Defined.

(** With a limit of at most 500, the default, what [sanitize_input]
    returns is empty or passes [validate_message]. *)
Theorem sanitize_input_validates (text : str) (max_length : Z) :
  (0 <= max_length <= 500)%Z ->
  sanitize_input text max_length = [] \/
  validate_message (sanitize_input text max_length) = (true, []).
Proof.
  intros Hn.
  destruct (sanitize_input_invariants text max_length)
    as [_ [Hlen [_ [Hstrip _]]]].
  assert (H0 : (0 <= max_length)%Z) by lia. specialize (Hlen H0).
  set (o := sanitize_input text max_length) in *.
  destruct o as [|c o'] eqn:Eo; [left; reflexivity|]. right.
  rewrite validate_message_unfold, Hstrip. simpl truthy. simpl negb.
  cbv iota.
  assert (Hl : (500 <? List.length (c :: o'))%nat = false).
  { apply Nat.ltb_ge. lia. }
  rewrite Hl. reflexivity.
Qed.

Lemma sanitize_input_validates_witness :
  validate_message (sanitize_input (U " paguei  30 no almoço ") 500)
    = (true, []).
Proof.
  destruct (sanitize_input_validates (U " paguei  30 no almoço ") 500) as [H|H].
  - lia.
  - exfalso. vm_compute in H. discriminate.
  - exact H.
Defined.

(** ** [parse_currency] *)

Section ParseCurrency.

Variable py : runtime.

Lemma digits_value_decimal (s : str) :
  forall acc v, digits_value py s acc = Some v -> all_decimal py s = true.
Proof.
  induction s as [|c s IH]; intros acc v H; simpl in *; [reflexivity|].
  unfold isdecimal.
  destruct (decimal_value py c) as [d|]; [|discriminate].
  simpl. exact (IH _ _ H).
Qed.

Lemma digits_value_is_some (s : str) (acc : Z) :
  match digits_value py s acc with Some _ => true | None => false end
  = all_decimal py s.
Proof.
  destruct (digits_value py s acc) as [v|] eqn:E.
  - symmetry. exact (digits_value_decimal s acc v E).
  - destruct (all_decimal py s) eqn:Ha; [|reflexivity].
    destruct (@digits_value_total py s Ha acc) as [v Hv]. congruence.
Qed.

Lemma decimal_not_dot (c : char) : isdecimal py c = true -> is_dot c = false.
Proof.
  intros H. exact (proj2 (@decimal_not_separator py c H)).
Qed.

Lemma cut_dot_cases (t : str) :
  (cut_dot t = (t, None) /\ filter is_dot t = []) \/
  (exists ip fp : str,
     t = ip ++ (46%N : char) :: fp /\ cut_dot t = (ip, Some fp) /\
     filter is_dot ip = []).
Proof.
  induction t as [|c t IH]; [left; split; reflexivity|].
  cbn [cut_dot filter]. fold (is_dot c).
  destruct (is_dot c) eqn:Hc.
  - right. apply N.eqb_eq in Hc. subst c.
    exists [], t. repeat split.
  - destruct IH as [[E F] | [ip [fp [E [C F]]]]].
    + left. rewrite E, F. split; reflexivity.
    + right. exists (c :: ip), fp. rewrite C.
      split; [rewrite E; reflexivity|]. split; [reflexivity|].
      cbn [filter]. rewrite Hc. exact F.
Qed.

Lemma all_decimal_no_dot (s : str) :
  all_decimal py s = true -> filter is_dot s = [].
Proof.
  induction s as [|c s IH]; simpl; [reflexivity|]. intros H.
  apply andb_true_iff in H. destruct H as [Hc Hs].
  rewrite (decimal_not_dot c Hc). exact (IH Hs).
Qed.

Lemma no_dot_all_decimal (s : str) :
  forallb (fun c => isdecimal py c || is_dot c) s = true ->
  filter is_dot s = [] -> all_decimal py s = true.
Proof.
  induction s as [|c s IH]; simpl; [reflexivity|]. intros H F.
  apply andb_true_iff in H. destruct H as [Hc Hs].
  destruct (is_dot c) eqn:Hd; [discriminate|].
  rewrite orb_false_r in Hc. rewrite Hc. exact (IH Hs F).
Qed.

Lemma all_decimal_existsb (s : str) :
  all_decimal py s = true -> existsb (isdecimal py) s = truthy s.
Proof.
  destruct s as [|c s]; simpl; [reflexivity|]. intros H.
  apply andb_true_iff in H. destruct H as [Hc _]. rewrite Hc. reflexivity.
Qed.

(** [float] reads a text of digits and full stops exactly when it has a
    digit and at most one full stop. *)
Lemma float_of_str_defined (t : str) :
  forallb (fun c => isdecimal py c || is_dot c) t = true ->
  is_some (float_of_str py t) =
    existsb (isdecimal py) t && (List.length (filter is_dot t) <=? 1).
Proof.
  intros Hall. unfold float_of_str.
  destruct (cut_dot_cases t) as [[E F] | [ip [fp [E [C F]]]]].
  - rewrite E, F. simpl List.length. simpl Nat.leb. rewrite andb_true_r.
    pose proof (no_dot_all_decimal t Hall F) as Hd.
    rewrite (all_decimal_existsb t Hd).
    destruct (@digits_value_total py t Hd 0%Z) as [v Hv].
    destruct t as [|c t]; [reflexivity|]. rewrite Hv. reflexivity.
  - rewrite C. subst t.
    rewrite forallb_app in Hall. apply andb_true_iff in Hall.
    destruct Hall as [Hip Hfp]. simpl in Hfp.
    pose proof (no_dot_all_decimal ip Hip F) as Hdi.
    destruct (@digits_value_total py ip Hdi 0%Z) as [vi Hvi].
    rewrite Hvi, filter_app, F. simpl.
    rewrite existsb_app. cbn [existsb].
    replace (isdecimal py 46%N) with false by reflexivity. cbn [orb].
    rewrite (all_decimal_existsb ip Hdi).
    pose proof (digits_value_is_some fp 0%Z) as Hsome.
    destruct (filter is_dot fp) as [|x l] eqn:Ff.
    + pose proof (no_dot_all_decimal fp Hfp Ff) as Hdf.
      rewrite Hdf in Hsome.
      destruct (digits_value py fp 0) as [vf|]; [|discriminate].
      rewrite (all_decimal_existsb fp Hdf). simpl. rewrite andb_true_r.
      destruct (truthy ip || truthy fp); reflexivity.
    + assert (Hnd : all_decimal py fp = false).
      { destruct (all_decimal py fp) eqn:Ha; [|reflexivity].
        rewrite (all_decimal_no_dot fp Ha) in Ff. discriminate. }
      rewrite Hnd in Hsome.
      destruct (digits_value py fp 0); [discriminate|].
      simpl. rewrite andb_false_r. reflexivity.
Qed.

(** The text [parse_currency] hands to [float]. *)
Lemma cleaned_eq (s : str) :
  replace_char (chr ",") (chr ".")
    (remove_class (fun c => negb (currency_char py c)) s)
  = map (fun c => if (c =? 44)%N then 46%N else c)
      (filter (currency_char py) s).
Proof.
  unfold replace_char, remove_class. f_equal.
  apply filter_ext. intros c. apply negb_involutive.
Qed.

Ltac currency_cases c :=
  let Hd := fresh "Hd" in
  let H44 := fresh "H44" in
  let H46 := fresh "H46" in
  unfold currency_char, is_separator, is_dot;
  destruct (isdecimal py c) eqn:Hd;
  [ destruct (@decimal_not_separator py c Hd) as [H44 H46];
    change (chr ",") with 44%N in H44; change (chr ".") with 46%N in H46
  | destruct (c =? 44)%N eqn:H44;
    [ apply N.eqb_eq in H44; subst c
    | destruct (c =? 46)%N eqn:H46;
      [ apply N.eqb_eq in H46; subst c | ] ] ];
  cbn; rewrite ?H44, ?H46, ?Hd; cbn; rewrite ?H44, ?H46, ?Hd; cbn.

Lemma cleaned_chars (s : str) :
  forallb (fun c => isdecimal py c || is_dot c)
    (map (fun c => if (c =? 44)%N then 46%N else c)
       (filter (currency_char py) s)) = true.
Proof.
  induction s as [|c s IH]; [reflexivity|].
  cbn [filter]. currency_cases c; exact IH.
Qed.

Lemma cleaned_digits (s : str) :
  existsb (isdecimal py)
    (map (fun c => if (c =? 44)%N then 46%N else c)
       (filter (currency_char py) s))
  = existsb (isdecimal py) s.
Proof.
  induction s as [|c s IH]; [reflexivity|].
  cbn [filter]. currency_cases c; try exact IH; reflexivity.
Qed.

Lemma cleaned_dots (s : str) :
  List.length
    (filter is_dot
       (map (fun c => if (c =? 44)%N then 46%N else c)
          (filter (currency_char py) s)))
  = count_separators s.
Proof.
  unfold count_separators.
  induction s as [|c s IH]; [reflexivity|].
  cbn [filter]. currency_cases c; try exact IH; f_equal; exact IH.
Qed.

Lemma cleaned_truthy (s : str) :
  existsb (isdecimal py) s = true ->
  truthy (remove_class (fun c => negb (currency_char py c)) s) = true.
Proof.
  induction s as [|c s IH]; simpl; [discriminate|].
  unfold remove_class in *. simpl. rewrite negb_involutive.
  unfold currency_char at 1.
  destruct (isdecimal py c); simpl; [reflexivity|].
  intros H. destruct (is_separator c); [reflexivity | exact (IH H)].
Qed.

End ParseCurrency.

Lemma parse_currency_is_some (py : runtime) (currency_str : str) :
  is_some (parse_currency py currency_str) =
    existsb (isdecimal py) currency_str &&
    (count_separators currency_str <=? 1).
Proof.
  unfold parse_currency.
  destruct (truthy (remove_class (fun c => negb (currency_char py c))
                      currency_str)) eqn:Ht; simpl negb; cbv iota.
  - rewrite cleaned_eq.
    rewrite (float_of_str_defined py _ (cleaned_chars py currency_str)).
    rewrite cleaned_digits, cleaned_dots. reflexivity.
  - destruct (existsb (isdecimal py) currency_str) eqn:Hd; [|reflexivity].
    rewrite (cleaned_truthy py currency_str Hd) in Ht. discriminate.
Qed.

(** [parse_currency] gives a value exactly for the texts with a decimal
    digit and at most one comma or full stop; whatever else the text
    holds, a sign included, is passed over. *)
Theorem parse_currency_defined (py : runtime) (currency_str : str) :
  is_some (parse_currency py currency_str) =
    existsb (isdecimal py) currency_str &&
    (count_separators currency_str <=? 1) /\
  parse_currency py currency_str =
    parse_currency py (filter (currency_char py) currency_str).
Proof.
  split; [apply parse_currency_is_some|].
  unfold parse_currency, remove_class.
  assert (E : forall s, filter (fun c => negb (negb (currency_char py c))) s
                        = filter (currency_char py) s).
  { intros s. apply filter_ext. intros c. apply negb_involutive. }
  rewrite !E.
  rewrite (forallb_filter_id (currency_char py)
             (filter (currency_char py) currency_str))
    by apply forallb_filter.
  reflexivity.
Qed.

Lemma numeral_currency_chars (py : runtime) (s : str) :
  is_numeral py s -> forallb (currency_char py) s = true /\ truthy s = true.
Proof.
  intros [ds [tail [-> [Hne [Hds Htail]]]]].
  assert (Hd : forallb (currency_char py) ds = true).
  { apply forallb_forall. intros c Hc. unfold currency_char.
    unfold all_decimal in Hds. rewrite forallb_forall in Hds.
    rewrite (Hds c Hc). reflexivity. }
  split.
  - rewrite forallb_app, Hd.
    destruct Htail as [-> | [sep [d1 [d2 [-> [Hsep [H1 H2]]]]]]];
      [reflexivity|].
    simpl. unfold currency_char. rewrite H1, H2. simpl.
    destruct Hsep as [-> | ->]; rewrite orb_true_r; reflexivity.
  - destruct ds; [congruence | reflexivity].
Qed.

(** On the numeral the first money pattern finds in a message,
    [parse_currency] gives the amount [_extract_amount] reads from the
    message. *)
Theorem parse_currency_reads_amount (py : runtime) (message numeral : str) :
  hd_error (findall py money_currency message) = Some numeral ->
  parse_currency py numeral = _extract_amount py message /\
  is_some (parse_currency py numeral) = true.
Proof.
  intros H. rewrite findall_head in H.
  destruct (earliest py money_currency message) as [[i n]|] eqn:He;
    [|discriminate].
  simpl in H. injection H as ->.
  assert (Hcur : In money_currency money_patterns) by (left; reflexivity).
  destruct (earliest_in_money py money_currency Hcur _ _ _ _ He)
    as [Hnum _]. simpl in Hnum.
  destruct (numeral_currency_chars py numeral Hnum) as [Hchars Ht].
  destruct (@float_of_numeral py numeral Hnum) as [x Hx].
  assert (Hp : parse_currency py numeral = Some x).
  { unfold parse_currency, remove_class.
    assert (E : filter (fun c => negb (negb (currency_char py c))) numeral
                = numeral).
    { apply forallb_filter_id. apply forallb_forall. intros c Hc.
      rewrite forallb_forall in Hchars. rewrite (Hchars c Hc). reflexivity. }
    rewrite E, Ht. simpl. exact Hx. }
  rewrite Hp. split; [|reflexivity].
  rewrite extract_amount_spec. unfold amount_spec.
  cbn [first_family money_patterns]. rewrite He. symmetry. exact Hx.
Qed.

Lemma parse_currency_reads_amount_witness :
  parse_currency latin1_runtime (U "85,50")
    = _extract_amount latin1_runtime (U "comprei roupas por r$ 85,50").
Proof.
  apply (parse_currency_reads_amount latin1_runtime
           (U "comprei roupas por r$ 85,50") (U "85,50")).
  vm_compute; reflexivity.
Defined.

(** ** [validate_phone_number] *)

Lemma digits_of_all_decimal (py : runtime) (s : str) :
  all_decimal py (digits_of py s) = true.
Proof. apply forallb_filter. Qed.

Lemma all_decimal_firstn (py : runtime) (n : nat) (s : str) :
  all_decimal py s = true -> all_decimal py (firstn n s) = true.
Proof.
  intros H. apply forallb_forall. intros c Hc.
  unfold all_decimal in H. rewrite forallb_forall in H.
  apply H. exact (firstn_in n s c Hc).
Qed.

Lemma digits_value_some (py : runtime) (c : char) (s : str) (acc : Z) (d : N) :
  decimal_value py c = Some d ->
  digits_value py (c :: s) acc = digits_value py s (10 * acc + Z.of_N d)%Z.
Proof. intros H. cbn [digits_value]. rewrite H. reflexivity. Qed.

Lemma two_digits_value (py : runtime) (a b : char) :
  digits_below_ten py ->
  forall v, digits_value py [a; b] 0 = Some v -> (0 <= v <= 99)%Z.
Proof.
  intros Hok v H.
  destruct (decimal_value py a) as [da|] eqn:Ha;
    [|cbn [digits_value] in H; rewrite Ha in H; discriminate].
  rewrite (digits_value_some py a [b] 0 da Ha) in H.
  destruct (decimal_value py b) as [db|] eqn:Hb;
    [|cbn [digits_value] in H; rewrite Hb in H; discriminate].
  rewrite (digits_value_some py b [] _ db Hb) in H.
  cbn [digits_value] in H.
  pose proof (Hok a da Ha). pose proof (Hok b db Hb).
  assert (E : v = (10 * (10 * 0 + Z.of_N da) + Z.of_N db)%Z) by congruence.
  lia.
Qed.

Lemma remove_nondecimal (py : runtime) (s : str) :
  remove_class (fun c => negb (isdecimal py c)) s = digits_of py s.
Proof.
  unfold remove_class, digits_of. apply filter_ext.
  intros c. apply negb_involutive.
Qed.

(** [validate_phone_number] never raises; it accepts exactly the texts
    with ten or eleven decimal digits of which the first two stand for a
    number from 11 to 99, whatever else the text holds; and when the
    digits of the runtime have values below ten, as those of Unicode have,
    the upper bound holds by itself: only the area codes 00 to 10 are
    refused. *)
Theorem validate_phone_number_spec (py : runtime) (phone : str) :
  (exists b, validate_phone_number py phone = Some b) /\
  (validate_phone_number py phone = Some true <->
     (List.length (digits_of py phone) = 10 \/
      List.length (digits_of py phone) = 11) /\
     (11 <= area_code py phone <= 99)%Z) /\
  (digits_below_ten py -> (0 <= area_code py phone <= 99)%Z) /\
  validate_phone_number py phone
    = validate_phone_number py (digits_of py phone).
Proof.
  assert (Hdec : all_decimal py (firstn 2 (digits_of py phone)) = true).
  { apply all_decimal_firstn. apply digits_of_all_decimal. }
  destruct (@digits_value_total py _ Hdec 0%Z) as [v Hv].
  assert (Harea : area_code py phone = v).
  { unfold area_code. rewrite Hv. reflexivity. }
  assert (Hidem : digits_of py (digits_of py phone) = digits_of py phone).
  { unfold digits_of. apply forallb_filter_id. apply forallb_filter. }
  assert (Hbound : digits_below_ten py -> (0 <= v <= 99)%Z).
  { intros Hok.
    destruct (firstn 2 (digits_of py phone)) as [|a [|b [|c l]]] eqn:Ef.
    - simpl in Hv. injection Hv as <-. lia.
    - destruct (decimal_value py a) as [da|] eqn:Ha;
        [|cbn [digits_value] in Hv; rewrite Ha in Hv; discriminate].
      rewrite (digits_value_some py a [] 0 da Ha) in Hv.
      cbn [digits_value] in Hv. pose proof (Hok a da Ha).
      assert (E : v = (10 * 0 + Z.of_N da)%Z) by congruence. lia.
    - exact (two_digits_value py a b Hok v Hv).
    - exfalso. apply (f_equal (@List.length char)) in Ef.
      pose proof (firstn_le_length 2 (digits_of py phone)). rewrite Ef in H.
      simpl in H. lia. }
  assert (Hval : validate_phone_number py phone =
                 if negb (Nat.eqb (List.length (digits_of py phone)) 10 ||
                          Nat.eqb (List.length (digits_of py phone)) 11)
                 then Some false
                 else if ((v <? 11) || (99 <? v))%Z then Some false
                      else Some true).
  { unfold validate_phone_number. rewrite remove_nondecimal.
    destruct (Nat.eqb (List.length (digits_of py phone)) 10 ||
              Nat.eqb (List.length (digits_of py phone)) 11) eqn:Hn;
      [|reflexivity].
    cbn [negb]. rewrite Hv.
    destruct (firstn 2 (digits_of py phone)) as [|a l] eqn:Ef;
      [|reflexivity].
    exfalso. apply (f_equal (@List.length char)) in Ef.
    rewrite length_firstn in Ef. cbn [List.length] in Ef.
    apply orb_true_iff in Hn.
    destruct Hn as [Hn|Hn]; apply Nat.eqb_eq in Hn; lia. }
  split; [|split; [|split]].
  - rewrite Hval.
    destruct (negb _); [eexists; reflexivity|].
    destruct ((v <? 11)%Z || (99 <? v)%Z); eexists; reflexivity.
  - rewrite Hval, Harea.
    destruct (Nat.eqb (List.length (digits_of py phone)) 10 ||
              Nat.eqb (List.length (digits_of py phone)) 11) eqn:Hn;
      cbn [negb].
    + apply orb_true_iff in Hn.
      assert (Hlen : List.length (digits_of py phone) = 10 \/
                     List.length (digits_of py phone) = 11).
      { destruct Hn as [Hn|Hn]; apply Nat.eqb_eq in Hn; [left | right];
          exact Hn. }
      destruct ((v <? 11)%Z || (99 <? v)%Z) eqn:Hv'.
      * split; [discriminate|]. intros [_ Hr].
        apply orb_true_iff in Hv'.
        destruct Hv' as [H|H]; apply Z.ltb_lt in H; lia.
      * apply orb_false_elim in Hv'. destruct Hv' as [H1 H2].
        apply Z.ltb_ge in H1. apply Z.ltb_ge in H2.
        split; [intros _; split; [exact Hlen | lia] | reflexivity].
    + apply orb_false_elim in Hn. destruct Hn as [H10 H11].
      apply Nat.eqb_neq in H10. apply Nat.eqb_neq in H11.
      split; [discriminate|]. intros [[H|H] _]; contradiction.
  - rewrite Harea. exact Hbound.
  - unfold validate_phone_number. rewrite !remove_nondecimal, Hidem.
    reflexivity.
Qed.

Lemma validate_phone_number_spec_witness :
  validate_phone_number latin1_runtime (U "(11) 99999-9999") = Some true /\
  (0 <= area_code latin1_runtime (U "(11) 99999-9999") <= 99)%Z.
Proof.
  split.
  - apply (proj1 (proj2 (validate_phone_number_spec latin1_runtime
                           (U "(11) 99999-9999")))).
    vm_compute. split; [right; reflexivity | split; discriminate].
  - apply (proj1 (proj2 (proj2 (validate_phone_number_spec latin1_runtime
                                  (U "(11) 99999-9999"))))).
    intros c d H. unfold decimal_value in H.
    destruct (is_latin1 c); [|discriminate].
    destruct ((48 <=? c) && (c <=? 57))%N eqn:Hr; [|discriminate].
    injection H as <-. apply andb_true_iff in Hr. destruct Hr as [Ha Hb].
    apply N.leb_le in Ha. apply N.leb_le in Hb. lia.
Defined.

(** ** [format_currency] *)

Lemma digits_lsd_range (fuel : nat) :
  forall n, (0 <= n)%Z ->
            Forall (fun d => (0 <= d < 10)%Z) (digits_lsd fuel n).
Proof.
  induction fuel as [|fuel IH]; intros n Hn; simpl; [constructor|].
  constructor; [apply Z.mod_pos_bound; lia|].
  destruct (n <? 10)%Z; [constructor|].
  apply IH. apply Z.div_pos; lia.
Qed.

Lemma digits_lsd_value (fuel : nat) :
  forall n, (0 <= n < 10 ^ Z.of_nat fuel)%Z ->
            lsd_value (digits_lsd fuel n) = n.
Proof.
  induction fuel as [|fuel IH]; intros n Hn.
  - simpl in *. lia.
  - cbn [digits_lsd lsd_value].
    destruct (n <? 10)%Z eqn:H10.
    + apply Z.ltb_lt in H10. cbn [lsd_value].
      rewrite Z.mod_small by lia. lia.
    + apply Z.ltb_ge in H10. rewrite IH.
      * pose proof (Z.div_mod n 10). lia.
      * rewrite Nat2Z.inj_succ, Z.pow_succ_r in Hn by lia.
        split; [apply Z.div_pos; lia|].
        apply Z.div_lt_upper_bound; lia.
Qed.

Lemma digits_lsd_short (fuel : nat) :
  forall n k, (0 <= n < 10 ^ Z.of_nat (S k))%Z ->
              List.length (digits_lsd fuel n) <= S k.
Proof.
  induction fuel as [|fuel IH]; intros n k Hn; simpl; [lia|].
  destruct (n <? 10)%Z eqn:H10; [simpl; lia|].
  apply Z.ltb_ge in H10.
  destruct k as [|k]; [simpl in Hn; lia|].
  apply le_n_S. apply IH.
  rewrite Nat2Z.inj_succ, Z.pow_succ_r in Hn by lia.
  split; [apply Z.div_pos; lia|].
  apply Z.div_lt_upper_bound; lia.
Qed.


Lemma fuel_enough (n : Z) :
  (0 <= n)%Z -> (n < 10 ^ Z.of_nat (S (Z.to_nat (Z.log2 n))))%Z.
Proof.
  intros Hn. rewrite Nat2Z.inj_succ, Z2Nat.id by apply Z.log2_nonneg.
  destruct (Z.eq_dec n 0) as [->|Hz]; [reflexivity|].
  assert (Hpos : (0 < n)%Z) by lia.
  destruct (Z.log2_spec n Hpos) as [_ Hlt].
  pose proof (Z.log2_nonneg n).
  apply Z.lt_le_trans with (2 ^ Z.succ (Z.log2 n))%Z; [exact Hlt|].
  apply Z.pow_le_mono_l. lia.
Qed.

Lemma digit_char_value (py : runtime) (d : Z) :
  (0 <= d < 10)%Z -> decimal_value py (digit_char d) = Some (Z.to_N d).
Proof.
  intros H.
  assert (E : (d = 0 \/ d = 1 \/ d = 2 \/ d = 3 \/ d = 4 \/ d = 5 \/
               d = 6 \/ d = 7 \/ d = 8 \/ d = 9)%Z) by lia.
  repeat (destruct E as [->|E]; [reflexivity|]). subst d. reflexivity.
Qed.

Lemma digit_char_decimal (py : runtime) (d : Z) :
  (0 <= d < 10)%Z -> isdecimal py (digit_char d) = true.
Proof.
  intros H. unfold isdecimal. rewrite (digit_char_value py d H). reflexivity.
Qed.

Lemma digits_value_app (py : runtime) (a b : str) :
  forall acc,
    digits_value py (a ++ b) acc =
    match digits_value py a acc with
    | Some v => digits_value py b v
    | None => None
    end.
Proof.
  induction a as [|c a IH]; intros acc; [reflexivity|].
  cbn [app digits_value]. destruct (decimal_value py c); [apply IH | reflexivity].
Qed.

Lemma digits_value_lsd (py : runtime) (l : list Z) :
  Forall (fun d => (0 <= d < 10)%Z) l ->
  forall acc,
    digits_value py (rev (map digit_char l)) acc
    = Some (acc * 10 ^ Z.of_nat (List.length l) + lsd_value l)%Z.
Proof.
  induction 1 as [|d l Hd Hl IH]; intros acc.
  - simpl. f_equal. lia.
  - cbn [map rev]. rewrite digits_value_app, IH.
    rewrite (digits_value_some py (digit_char d) [] _ (Z.to_N d)
               (digit_char_value py d Hd)).
    cbn [digits_value lsd_value List.length]. f_equal.
    rewrite Nat2Z.inj_succ, Z.pow_succ_r by lia.
    rewrite Z2N.id by lia. lia.
Qed.

(** Reading the digits of a number gives the number back. *)
Lemma digits_value_str_of_nat (py : runtime) (n : Z) :
  (0 <= n)%Z -> digits_value py (str_of_nat n) 0 = Some n.
Proof.
  intros Hn. unfold str_of_nat.
  rewrite (digits_value_lsd py _ (digits_lsd_range _ n Hn)).
  rewrite (digits_lsd_value _ n (conj Hn (fuel_enough n Hn))). reflexivity.
Qed.

Lemma str_of_nat_decimal (py : runtime) (n : Z) :
  (0 <= n)%Z -> all_decimal py (str_of_nat n) = true.
Proof.
  intros Hn. exact (digits_value_decimal py _ 0%Z n
                      (digits_value_str_of_nat py n Hn)).
Qed.


Lemma group_lsd_short (ds : str) :
  forall k, List.length ds + k <= 3 -> group_lsd ds k = ds.
Proof.
  induction ds as [|d rest IH]; intros k H; [reflexivity|].
  cbn [group_lsd]. simpl in H.
  destruct rest as [|d' rest'].
  - reflexivity.
  - destruct k as [|[|[|k]]];
      try (rewrite IH by (simpl in *; lia); reflexivity);
      simpl in H; lia.
Qed.


Lemma group_lsd_chars (ds : str) :
  forall k c, In c (group_lsd ds k) -> c = chr "," \/ In c ds.
Proof.
  induction ds as [|d rest IH]; intros k c H; [destruct H|].
  cbn [group_lsd] in H.
  destruct rest as [|d' rest'].
  - destruct H as [H|[]]. right. left. exact H.
  - destruct k as [|[|[|k]]];
      try (destruct H as [H|H]; [right; left; exact H|];
           destruct (IH _ _ H) as [E|E]; [left; exact E | right; right; exact E]).
    destruct H as [H|[H|H]];
      [right; left; exact H | left; symmetry; exact H |].
    destruct (IH _ _ H) as [E|E]; [left; exact E | right; right; exact E].
Qed.

Lemma str_of_nat_length (n : Z) (k : nat) :
  (0 <= n < 10 ^ Z.of_nat (S k))%Z -> List.length (str_of_nat n) <= S k.
Proof.
  intros H. unfold str_of_nat. rewrite length_rev, length_map.
  apply digits_lsd_short. exact H.
Qed.

(** Below a thousand there is nothing to group. *)
Lemma grouped_small (n : Z) :
  (0 <= n < 1000)%Z -> grouped n = str_of_nat n.
Proof.
  intros H. unfold grouped. rewrite group_lsd_short.
  - apply rev_involutive.
  - rewrite length_rev.
    pose proof (str_of_nat_length n 2) as Hl.
    change (10 ^ Z.of_nat 3)%Z with 1000%Z in Hl. specialize (Hl H). lia.
Qed.


Lemma grouped_chars (py : runtime) (n : Z) (c : char) :
  (0 <= n)%Z -> In c (grouped n) -> c = chr "," \/ isdecimal py c = true.
Proof.
  intros Hn H. unfold grouped in H. apply in_rev in H.
  destruct (group_lsd_chars _ _ _ H) as [E|E]; [left; exact E|].
  right. apply in_rev in E.
  pose proof (str_of_nat_decimal py n Hn) as Hd.
  unfold all_decimal in Hd. rewrite forallb_forall in Hd. exact (Hd c E).
Qed.

Lemma round_div_nonneg (n d : Z) :
  (0 <= n)%Z -> (0 < d)%Z -> (0 <= round_div n d)%Z.
Proof.
  intros Hn Hd. unfold round_div.
  assert (0 <= n / d)%Z by (apply Z.div_pos; lia).
  destruct (2 * (n mod d) <? d)%Z; [lia|].
  destruct (d <? 2 * (n mod d))%Z; [lia|].
  destruct (Z.even (n / d)); lia.
Qed.

Lemma cents_of_nonneg (m : positive) (e : Z) : (0 <= cents_of m e)%Z.
Proof.
  unfold cents_of, scaled.
  destruct (0 <=? - e)%Z eqn:He.
  - apply Z.leb_le in He. apply round_div_nonneg; [lia|].
    assert (0 < 2 ^ (- e))%Z; [|lia].
    apply Z.pow_pos_nonneg; lia.
  - apply round_div_nonneg; [|lia].
    apply Z.mul_nonneg_nonneg; [lia|]. apply Z.pow_nonneg. lia.
Qed.

Lemma two_digits (c : Z) :
  (0 <= c)%Z ->
  (0 <= c / 10 mod 10 < 10)%Z /\ (0 <= c mod 10 < 10)%Z /\
  (c / 100 * 100 + (10 * (c / 10 mod 10) + c mod 10) = c)%Z.
Proof.
  intros Hc.
  pose proof (Z.mod_pos_bound (c / 10) 10 ltac:(lia)).
  pose proof (Z.mod_pos_bound c 10 ltac:(lia)).
  pose proof (Z.div_mod c 10 ltac:(lia)).
  pose proof (Z.div_mod (c / 10) 10 ltac:(lia)).
  pose proof (Z.div_div c 10 10 ltac:(lia) ltac:(lia)) as Hdd.
  change (10 * 10)%Z with 100%Z in Hdd.
  repeat split; lia.
Qed.

(** The detour over [X] swaps commas and full stops in a text without
    [X]. *)
Lemma replace_swap (s : str) :
  forallb (fun c => negb (c =? 88)%N) s = true ->
  replace_char (chr "X") (chr ".")
    (replace_char (chr ".") (chr ",") (replace_char (chr ",") (chr "X") s))
  = map swap_separators s.
Proof.
  unfold replace_char. rewrite !map_map. intros H.
  apply map_ext_in. intros c Hc.
  rewrite forallb_forall in H. specialize (H c Hc).
  apply negb_true_iff in H. unfold swap_separators.
  change (chr ",") with 44%N. change (chr ".") with 46%N.
  change (chr "X") with 88%N.
  destruct (c =? 44)%N eqn:H44; [reflexivity|].
  destruct (c =? 46)%N eqn:H46; [reflexivity|].
  rewrite H. reflexivity.
Qed.

Lemma swap_decimal (py : runtime) (s : str) :
  all_decimal py s = true -> map swap_separators s = s.
Proof.
  intros H. rewrite <- (map_id s) at 2. apply map_ext_in. intros c Hc.
  unfold all_decimal in H. rewrite forallb_forall in H.
  destruct (@decimal_not_separator py c (H c Hc)) as [H44 H46].
  change (chr ",") with 44%N in H44. change (chr ".") with 46%N in H46.
  unfold swap_separators. rewrite H44, H46. reflexivity.
Qed.

Lemma format_no_x (x : float) :
  forallb (fun c => negb (c =? 88)%N) (U "R$ " ++ format_comma_2f x) = true.
Proof.
  rewrite forallb_app. change (forallb _ (U "R$ ")) with true. cbn [andb].
  unfold format_comma_2f.
  destruct (Prim2SF x) as [s|s| |s m e]; try (destruct s; reflexivity);
    try reflexivity.
  pose proof (cents_of_nonneg m e) as Hc.
  destruct (two_digits (cents_of m e) Hc) as [H1 [H2 _]].
  assert (Hdig : forall d, (0 <= d < 10)%Z ->
                           negb (digit_char d =? 88)%N = true).
  { intros d Hd.
    pose proof (digit_char_decimal latin1_runtime d Hd) as H.
    destruct (N.eqb_spec (digit_char d) 88) as [E|]; [|reflexivity].
    rewrite E in H. discriminate. }
  rewrite !forallb_app. cbn [forallb].
  rewrite (Hdig _ H1), (Hdig _ H2).
  assert (Hg : forallb (fun c => negb (c =? 88)%N)
                 (grouped (cents_of m e / 100)) = true).
  { apply forallb_forall. intros c Hin.
    destruct (grouped_chars latin1_runtime (cents_of m e / 100) c
                ltac:(apply Z.div_pos; lia) Hin) as [->|H]; [reflexivity|].
    destruct (N.eqb_spec c 88) as [E|]; [|reflexivity].
    rewrite E in H. discriminate. }
  apply andb_true_iff. split; [destruct s; reflexivity|].
  apply andb_true_iff. split; [exact Hg | reflexivity].
Qed.

Lemma format_currency_swap (x : float) :
  format_currency x = U "R$ " ++ map swap_separators (format_comma_2f x).
Proof.
  unfold format_currency. rewrite (replace_swap _ (format_no_x x)).
  rewrite map_app. reflexivity.
Qed.

Lemma swap_digit (d : Z) :
  (0 <= d < 10)%Z -> swap_separators (digit_char d) = digit_char d.
Proof.
  intros H.
  pose proof (swap_decimal latin1_runtime [digit_char d]) as E.
  simpl in E. rewrite (digit_char_decimal latin1_runtime d H) in E.
  specialize (E eq_refl). injection E as E. exact E.
Qed.



(** The text of a finite amount: the sign, the hundredths grouped by
    thousands with full stops, a comma and two digits. *)
Lemma format_currency_finite (x : float) (s : bool) (m : positive) (e : Z) :
  Prim2SF x = S754_finite s m e ->
  format_currency x =
    U "R$ " ++ sign_text s ++
    map swap_separators (grouped (cents_of m e / 100)) ++ U "," ++
    [digit_char (cents_of m e / 10 mod 10); digit_char (cents_of m e mod 10)].
Proof.
  intros HP. rewrite format_currency_swap. unfold format_comma_2f.
  rewrite HP. cbv zeta.
  destruct (two_digits (cents_of m e) (cents_of_nonneg m e)) as [H1 [H2 _]].
  rewrite !map_app. cbn [map].
  rewrite (swap_digit _ H1), (swap_digit _ H2).
  destruct s; reflexivity.
Qed.

(** [format_currency] writes every amount without an [X]; a finite one as
    ["R$ "], a minus sign if it is negative, the whole part in groups of
    three digits with full stops between them, a comma and two digits. *)
Theorem format_currency_shape (x : float) :
  forallb (fun c => negb (c =? 88)%N) (format_currency x) = true /\
  (forall s m e,
     Prim2SF x = S754_finite s m e ->
     format_currency x =
       U "R$ " ++ sign_text s ++
       map swap_separators (grouped (cents_of m e / 100)) ++ U "," ++
       [digit_char (cents_of m e / 10 mod 10);
        digit_char (cents_of m e mod 10)] /\
     (forall c, In c (map swap_separators (grouped (cents_of m e / 100))) ->
                c = chr "." \/ (48 <= c <= 57)%N) /\
     (cents_of m e < 100000 ->
      grouped (cents_of m e / 100) = str_of_nat (cents_of m e / 100))%Z).
Proof.
  split.
  - rewrite format_currency_swap.
    pose proof (format_no_x x) as H.
    rewrite forallb_app in *. apply andb_true_iff in H. destruct H as [_ H].
    apply andb_true_iff. split; [reflexivity|].
    apply forallb_forall. intros c Hc. apply in_map_iff in Hc.
    destruct Hc as [c' [<- Hc']]. rewrite forallb_forall in H.
    specialize (H c' Hc'). unfold swap_separators.
    destruct (c' =? 44)%N; [reflexivity|].
    destruct (c' =? 46)%N; [reflexivity | exact H].
  - intros s m e HP. split; [exact (format_currency_finite x s m e HP)|].
    pose proof (cents_of_nonneg m e) as Hc.
    assert (Hip : (0 <= cents_of m e / 100)%Z) by (apply Z.div_pos; lia).
    split.
    + intros c Hin. apply in_map_iff in Hin. destruct Hin as [c' [<- Hc']].
      destruct (grouped_chars latin1_runtime _ c' Hip Hc') as [-> | Hd];
        [left; reflexivity|].
      right.
      assert (E : map swap_separators [c'] = [c']).
      { apply (swap_decimal latin1_runtime). simpl. rewrite Hd. reflexivity. }
      injection E as ->.
      unfold isdecimal, decimal_value in Hd.
      destruct (is_latin1 c'); [|discriminate].
      destruct ((48 <=? c') && (c' <=? 57))%N eqn:Hr; [|discriminate].
      apply andb_true_iff in Hr. destruct Hr as [Ha Hb].
      apply N.leb_le in Ha. apply N.leb_le in Hb. lia.
    + intros Hlt. apply grouped_small. split; [exact Hip|].
      apply Z.div_lt_upper_bound; lia.
Qed.

Lemma format_currency_shape_witness :
  format_currency 1234.5%float = U "R$ 1.234,50".
Proof.
  destruct (proj2 (format_currency_shape 1234.5%float)
              false 5429388417957888%positive (-42)%Z) as [H _].
  - vm_compute; reflexivity.
  - rewrite H. vm_compute; reflexivity.
Defined.


(** ** The sign of an amount *)

Lemma shr_1_nonneg (mrs : shr_record) :
  (0 <= shr_m mrs)%Z -> (0 <= shr_m (shr_1 mrs))%Z.
Proof.
  destruct mrs as [m r s]. simpl.
  destruct m as [|[p|p|]|[p|p|]]; simpl; lia.
Qed.

Lemma iter_shr_1_nonneg (p : positive) (mrs : shr_record) :
  (0 <= shr_m mrs)%Z -> (0 <= shr_m (iter_pos shr_1 p mrs))%Z.
Proof.
  revert mrs. induction p as [p IH|p IH|]; intros mrs H; simpl.
  - apply IH, IH, shr_1_nonneg, H.
  - apply IH, IH, H.
  - apply shr_1_nonneg, H.
Qed.

Lemma shr_fexp_nonneg (m e : Z) (l : location) :
  (0 <= m)%Z -> (0 <= shr_m (fst (shr_fexp prec emax m e l)))%Z.
Proof.
  intros H. unfold shr_fexp, shr.
  assert (H0 : (0 <= shr_m (shr_record_of_loc m l))%Z)
    by (destruct l as [|[]]; exact H).
  destruct (_ - e)%Z; simpl; try exact H0.
  apply iter_shr_1_nonneg, H0.
Qed.

Lemma round_nearest_even_nonneg (m : Z) (l : location) :
  (0 <= m)%Z -> (0 <= round_nearest_even m l)%Z.
Proof.
  intros H. destruct l as [|[]]; simpl; try lia.
  destruct (Z.even m); lia.
Qed.

Lemma binary_round_aux_nonneg (m e : Z) (l : location) :
  (0 <= m)%Z -> sf_nonneg (binary_round_aux prec emax false m e l) = true.
Proof.
  intros H. unfold binary_round_aux.
  pose proof (shr_fexp_nonneg m e l H) as H1.
  destruct (shr_fexp prec emax m e l) as [mrs' e']. simpl in H1.
  pose proof (round_nearest_even_nonneg _ (loc_of_shr_record mrs') H1) as H2.
  pose proof (shr_fexp_nonneg _ e' loc_Exact H2) as H3.
  destruct (shr_fexp prec emax _ e' loc_Exact) as [mrs'' e'']. simpl in H3.
  destruct (shr_m mrs''); [reflexivity| |lia].
  destruct (e'' <=? _)%Z; reflexivity.
Qed.

Lemma binary_round_nonneg (m : positive) (e : Z) :
  sf_nonneg (binary_round prec emax false m e) = true.
Proof.
  unfold binary_round. destruct (shl_align m e _) as [mz ez].
  apply binary_round_aux_nonneg. lia.
Qed.

Lemma float_of_ratio_nonneg (n d : Z) :
  sf_nonneg (Prim2SF (float_of_ratio n d)) = true.
Proof.
  unfold float_of_ratio. destruct (n =? 0)%Z; [reflexivity|].
  destruct (scaled n d _) as [n1 d1].
  destruct (scaled n d _) as [n2 d2].
  rewrite Z_ldexp_spec, of_uint63_spec.
  pose proof (Uint63.to_Z_bounded (Uint63.of_Z (round_div n2 d2))) as B.
  unfold binary_normalize.
  destruct (Uint63.to_Z _) as [|p|p]; [reflexivity| |lia].
  pose proof (binary_round_nonneg p 0) as R.
  destruct (binary_round prec emax false p 0) as [[]|[]| |[] m e];
    try discriminate; try reflexivity.
  apply binary_round_nonneg.
Qed.

Lemma float_of_str_nonneg (py : runtime) (s : str) (x : float) :
  float_of_str py s = Some x -> sf_nonneg (Prim2SF x) = true.
Proof.
  unfold float_of_str. destruct (cut_dot s) as [ip [fp|]].
  - destruct (digits_value py ip 0); [|discriminate].
    destruct (digits_value py fp 0); [|discriminate].
    destruct (_ || _); [|discriminate].
    intros [= <-]. apply float_of_ratio_nonneg.
  - destruct ip; [discriminate|].
    destruct (digits_value py _ 0); [|discriminate].
    intros [= <-]. apply float_of_ratio_nonneg.
Qed.

Lemma extract_amount_from_nonneg (py : runtime) (patterns : list re)
  (message : str) (x : float) :
  extract_amount_from py patterns message = Some x ->
  sf_nonneg (Prim2SF x) = true.
Proof.
  induction patterns as [|p rest IH]; simpl; [discriminate|].
  destruct (findall py p message) as [|amount_str l]; [exact IH|].
  destruct (float_of_str py _) eqn:E; [|exact IH].
  intros [= <-]. exact (float_of_str_nonneg _ _ _ E).
Qed.

(** An amount the processor extracts is never NaN and never below zero
    (a minus sign before the digits is not read), so the handler's test
    [not amount or amount <= 0] refuses an extracted amount only when it
    is zero. *)
Theorem extract_amount_nonneg (py : runtime) (message : str) (x : float) :
  _extract_amount py message = Some x ->
  PrimFloat.leb 0 x = true /\
  PrimFloat.leb x 0 = PrimFloat.eqb x 0 /\
  no_amount (Some x) = PrimFloat.eqb x 0.
Proof.
  intros H. apply extract_amount_from_nonneg in H.
  unfold no_amount, float_truthy.
  rewrite !leb_spec, eqb_spec. change (Prim2SF 0) with (S754_zero false).
  destruct (Prim2SF x) as [[]|[]| |[] m e]; try discriminate;
    repeat split; reflexivity.
Qed.

Lemma extract_amount_nonneg_witness :
  PrimFloat.leb 0 50 = true /\ PrimFloat.leb 50 0 = PrimFloat.eqb 50 0 /\
  no_amount (Some 50%float) = PrimFloat.eqb 50 0.
Proof.
  apply (extract_amount_nonneg latin1_runtime (U "gastei 50 reais")).
  vm_compute; reflexivity.
Defined.

(** ** The categories and the periods the processor returns *)

Lemma category_by_keyword_in (table : list (str * list str)) (message c : str) :
  category_by_keyword table message = Some c -> In c (map fst table).
Proof.
  induction table as [|[category keywords] rest IH]; simpl; [discriminate|].
  destruct (existsb _ keywords).
  - intros [= <-]. now left.
  - intros H. right. now apply IH.
Qed.

Lemma category_of_lemma_in (table : list (str * list str)) (lemma c : str) :
  category_of_lemma table lemma = Some c -> In c (map fst table).
Proof.
  induction table as [|[category keywords] rest IH]; simpl; [discriminate|].
  destruct (list_in lemma keywords).
  - intros [= <-]. now left.
  - intros H. right. now apply IH.
Qed.

Lemma category_by_nouns_in (py : runtime) (doc : list token) (c : str) :
  category_by_nouns py doc = Some c -> In c (map fst category_mapping).
Proof.
  induction doc as [|tok rest IH]; cbn [category_by_nouns]; [discriminate|].
  destruct (_ && _); [|exact IH].
  destruct (category_of_lemma category_mapping (lower py (lemma_ tok))) eqn:E; [|exact IH].
  intros [= <-]. exact (category_of_lemma_in _ _ _ E).
Qed.

Lemma extract_category_in (py : runtime) (message : str) :
  In (_extract_category py message) (map fst category_mapping).
Proof.
  unfold _extract_category.
  destruct (category_by_keyword category_mapping message) eqn:E.
  - exact (category_by_keyword_in _ _ _ E).
  - destruct (category_by_nouns py (nlp py message)) eqn:E'.
    + exact (category_by_nouns_in _ _ _ E').
    + vm_compute. tauto.
Qed.

Lemma category_known (py : runtime) (c : str) :
  In c (map fst category_mapping) ->
  In c DEFAULT_CATEGORIES /\ truthy c = true /\
  In (c, get_emoji_for_category py c) emoji_map.
Proof.
  intros Hc. unfold get_emoji_for_category. simpl in Hc.
  repeat (destruct Hc as [<-|Hc];
    [split; [vm_compute; tauto | split; [reflexivity | vm_compute; tauto]]|]).
  destruct Hc.
Qed.

(** The category the processor returns is always one of the nine of
    [Config.DEFAULT_CATEGORIES], which are the keys of its table in their
    order; it is never empty, and it has an emoji of its own:
    [get_emoji_for_category] never falls back on the default for it. *)
Theorem extract_category_default (py : runtime) (message : str) :
  get_categories = DEFAULT_CATEGORIES /\
  In (_extract_category py message) DEFAULT_CATEGORIES /\
  truthy (_extract_category py message) = true /\
  In (_extract_category py message,
      get_emoji_for_category py (_extract_category py message)) emoji_map.
Proof.
  split; [reflexivity|].
  exact (category_known py _ (extract_category_in py message)).
Qed.

Lemma startswith_iff (p s : str) :
  startswith p s = true <-> exists b, s = p ++ b.
Proof.
  revert s. induction p as [|a p IH]; intros s; simpl.
  - split; [intros _; exists s; reflexivity | reflexivity].
  - destruct s as [|c s].
    + split; [discriminate | intros [b E]; discriminate].
    + rewrite andb_true_iff, N.eqb_eq, IH. split.
      * intros [-> [b ->]]. exists b. reflexivity.
      * intros [b E]. injection E as -> ->. split; [reflexivity | exists b; reflexivity].
Qed.

Lemma str_in_iff (p s : str) :
  str_in p s = true <-> exists a b, s = a ++ p ++ b.
Proof.
  induction s as [|c s IH].
  - simpl. rewrite orb_false_r, startswith_iff. split.
    + intros [b E]. exists [], b. exact E.
    + intros [a [b E]]. destruct a; [exists b; exact E | discriminate].
  - cbn [str_in]. rewrite orb_true_iff, startswith_iff, IH. split.
    + intros [[b E]|[a [b E]]].
      * exists [], b. exact E.
      * exists (c :: a), b. rewrite E. reflexivity.
    + intros [[|x a] [b E]].
      * left. exists b. exact E.
      * right. injection E as -> E. exists a, b. exact E.
Qed.

(** A text that occurs in a part of a message occurs in the message. *)
Lemma str_in_trans (q p s : str) :
  str_in q p = true -> str_in p s = true -> str_in q s = true.
Proof.
  rewrite !str_in_iff. intros [a [b ->]] [a' [b' ->]].
  exists (a' ++ a), (b ++ b'). rewrite <- !app_assoc. reflexivity.
Qed.

Lemma category_by_keyword_app (pre rest : list (str * list str)) (message : str) :
  category_by_keyword (pre ++ rest) message =
    match category_by_keyword pre message with
    | Some c => Some c
    | None => category_by_keyword rest message
    end.
Proof.
  induction pre as [|[c kws] pre IH]; simpl; [reflexivity|].
  destruct (existsb _ kws); [reflexivity | exact IH].
Qed.

(** The verb of most expenses decides their category: "gas", a trigger of
    the category "casa", is part of "gastei" and of "gasto", so a message
    with one of these words gets one of the seven categories declared up
    to "casa", never "roupas" nor "outros", and it gets "casa" unless a
    trigger of one of the six categories before it occurs. *)
Theorem extract_category_gastei (py : runtime) (message : str) :
  str_in (U "gastei") message = true \/ str_in (U "gasto") message = true ->
  In (_extract_category py message)
     (map U ["alimentação"; "transporte"; "combustível"; "saúde"; "educação";
             "lazer"; "casa"]%string) /\
  (category_by_keyword (firstn 6 category_mapping) message = None ->
   _extract_category py message = U "casa").
Proof.
  intros H.
  assert (Hgas : str_in (U "gas") message = true).
  { destruct H as [H|H]; refine (str_in_trans _ _ _ _ H); reflexivity. }
  assert (Hsplit : category_by_keyword category_mapping message =
            match category_by_keyword (firstn 6 category_mapping) message with
            | Some c => Some c
            | None => category_by_keyword (skipn 6 category_mapping) message
            end).
  { rewrite <- category_by_keyword_app, firstn_skipn. reflexivity. }
  unfold _extract_category. rewrite Hsplit.
  destruct (category_by_keyword (firstn 6 category_mapping) message) as [c|] eqn:E.
  - split; [|intros D; discriminate D].
    apply category_by_keyword_in in E. revert E. vm_compute. tauto.
  - assert (Hc : category_by_keyword (skipn 6 category_mapping) message
                 = Some (U "casa")).
    { cbn [skipn category_mapping category_by_keyword].
      assert (Hk : existsb (fun keyword => str_in keyword message)
                     (map U ["casa"; "aluguel"; "condomínio"; "condominio";
                             "luz"; "água"; "agua"; "gás"; "gas"; "internet";
                             "telefone"; "limpeza"; "móveis"; "moveis"]%string)
                   = true).
      { apply existsb_exists. exists (U "gas").
        split; [vm_compute; tauto | exact Hgas]. }
      rewrite Hk. reflexivity. }
    rewrite Hc. split; [vm_compute; tauto | reflexivity].
Qed.

Lemma extract_category_gastei_witness :
  _extract_category latin1_runtime (U "gastei 80 em roupas") = U "casa".
Proof.
  apply (proj2 (extract_category_gastei latin1_runtime (U "gastei 80 em roupas")
                  (or_introl eq_refl))).
  vm_compute; reflexivity.
Defined.

Lemma extract_period_in (message : str) :
  In (_extract_period message,
      dict_get period_names (_extract_period message) (_extract_period message))
     period_names.
Proof.
  unfold _extract_period, period_keywords. cbn [period_from].
  repeat match goal with
         | |- context [if str_in ?k message then _ else _] =>
             destruct (str_in k message); [vm_compute; tauto|]
         end.
  vm_compute; tauto.
Qed.

(** The period of a report is one of the six the handler has a name for:
    the lookup of the name never falls back on the period itself. *)
Theorem extract_period_named (message : str) :
  In (_extract_period message)
     (map U ["today"; "yesterday"; "week"; "month"; "year"; "all"]%string) /\
  In (_extract_period message,
      dict_get period_names (_extract_period message) (_extract_period message))
     period_names.
Proof.
  split; [|apply extract_period_in].
  pose proof (extract_period_in message) as H.
  apply (in_map fst) in H. exact H.
Qed.

(** ** The form of a description *)

Lemma currency_consumes (py : runtime) (prev : option char) (s : str) (st : mstate) :
  match_here py money_currency prev s = Some st -> m_used st <> 0.
Proof.
  intros H. apply match_here_sound in H.
  destruct (@steps_consumes py _ _ _ H) as [w [E L]].
  destruct (@currency_capture py _ _ H) as [[ds [tl [Ecap [Hne _]]]] [w0 E0]].
  simpl in E, E0, L. rewrite E in E0. rewrite app_assoc in E0.
  apply app_inv_tail in E0. rewrite L, E0, Ecap.
  destruct ds; [congruence|]. rewrite !length_app. simpl. lia.
Qed.

Lemma scan_currency_no_digit (py : runtime) (s : str) :
  forall prev skip,
    no_digit py (kept (scan py money_currency prev s skip)) = true.
Proof.
  unfold no_digit.
  induction s as [|c s IH]; intros prev skip; [reflexivity|].
  cbn [scan]. destruct skip as [|n]; [|apply IH].
  destruct (match_here py money_currency prev (c :: s)) as [st|] eqn:E.
  - pose proof (currency_consumes py prev (c :: s) st E) as Hu.
    destruct (m_used st); [congruence|]. cbn [kept]. apply IH.
  - cbn [kept forallb]. rewrite IH, andb_true_r.
    destruct (isdecimal py c) eqn:Hc; [|reflexivity].
    destruct (@currency_at_digit py prev c s Hc E).
Qed.

Lemma scan_kept_in (py : runtime) (r : re) (s : str) (c : char) :
  forall prev skip, In c (kept (scan py r prev s skip)) -> In c s.
Proof.
  induction s as [|a s IH]; intros prev skip; [intros []|].
  cbn [scan]. destruct skip as [|n].
  - destruct (match_here py r prev (a :: s)) as [st|].
    + destruct (m_used st); cbn [kept].
      * intros [<-|H]; [left; reflexivity | right; exact (IH _ _ H)].
      * intros H. right. exact (IH _ _ H).
    + cbn [kept]. intros [<-|H]; [left; reflexivity | right; exact (IH _ _ H)].
  - intros H. right. exact (IH _ _ H).
Qed.

Lemma sub_empty_no_digit (py : runtime) (r : re) (s : str) :
  no_digit py s = true -> no_digit py (sub_empty py r s) = true.
Proof.
  unfold no_digit. rewrite !forallb_forall. intros H c Hc.
  apply H. exact (scan_kept_in py r s c _ _ Hc).
Qed.

Lemma fold_sub_empty_no_digit (py : runtime) (A : Type) (f : A -> re)
  (l : list A) (s : str) :
  no_digit py s = true ->
  no_digit py (fold_left (fun d x => sub_empty py (f x) d) l s) = true.
Proof.
  revert s. induction l as [|x l IH]; intros s H; simpl; [exact H|].
  apply IH. apply sub_empty_no_digit. exact H.
Qed.

Lemma collapse_no_digit (py : runtime) (s : str) :
  no_digit py s = true -> no_digit py (join (U " ") (split s)) = true.
Proof.
  unfold no_digit. rewrite !forallb_forall. intros H c Hc.
  destruct (join_chars _ _ Hc) as [->|[w [Hw Hcw]]]; [reflexivity|].
  destruct (split_go_chars s [] w c Hw Hcw) as [Hin|[]].
  apply H. exact Hin.
Qed.

Lemma cleaned_no_digit (py : runtime) (message : str) :
  no_digit py (cleaned py message) = true.
Proof.
  unfold cleaned. apply collapse_no_digit.
  apply (fold_sub_empty_no_digit py _ (fun w => word_pattern w)).
  unfold money_patterns. cbn [fold_left].
  apply sub_empty_no_digit, sub_empty_no_digit.
  apply scan_currency_no_digit.
Qed.

(** The description is a collapsed text without numbers: trimming it or
    collapsing its whitespace again changes nothing, and no decimal digit
    is left in it, whether it was part of the amount or not. *)
Theorem extract_description_shape (py : runtime) (message : str) :
  strip (_extract_description py message) = _extract_description py message /\
  join (U " ") (split (_extract_description py message))
    = _extract_description py message /\
  existsb (isdecimal py) (_extract_description py message) = false.
Proof.
  assert (Hn : forall s, no_digit py s = true -> existsb (isdecimal py) s = false).
  { intros s. unfold no_digit. induction s as [|c s IH]; simpl; [reflexivity|].
    intros H. apply andb_true_iff in H. destruct H as [Hc Hs].
    apply negb_true_iff in Hc. rewrite Hc. exact (IH Hs). }
  unfold _extract_description.
  destruct (truthy (strip (cleaned py message))) eqn:Et.
  - assert (E : strip (cleaned py message) = cleaned py message).
    { unfold cleaned. apply strip_join. apply split_words. }
    rewrite E. split; [exact E|]. split.
    + unfold cleaned at 1 2.
      rewrite (split_join _ (split_words _)). reflexivity.
    + apply Hn. apply cleaned_no_digit.
  - repeat split; vm_compute; reflexivity.
Qed.

(** ** The message handler *)

Lemma send_text_message_shape (world : services) (to message : str) :
  _send_text_message world to message =
    ((if is_configured world then [send_text_message to message] else []),
     if is_configured world && negb (delivers world to message)
     then None else Some message).
Proof.
  unfold _send_text_message, ret.
  destruct (is_configured world), (delivers world to message); reflexivity.
Qed.

Lemma process_message_fields (py : runtime) (message : str) :
  fields (process_message py message) =
    if str_eqb (type_ (process_message py message)) (U "expense")
    then Expense (_extract_expense_data py (normalize py message))
    else if str_eqb (type_ (process_message py message)) (U "report")
    then Report (_extract_report_data py (normalize py message))
    else Nothing.
Proof. reflexivity. Qed.

Lemma process_message_original (py : runtime) (message : str) :
  original_message (process_message py message) = normalize py message.
Proof. reflexivity. Qed.

Lemma str_eqb_eq (a b : str) : str_eqb a b = true <-> a = b.
Proof.
  unfold str_eqb. destruct (list_eq_dec N.eq_dec a b); split; congruence.
Qed.

Lemma extract_description_truthy (py : runtime) (message : str) :
  truthy (_extract_description py message) = true.
Proof.
  unfold _extract_description.
  destruct (strip (cleaned py message)); reflexivity.
Qed.

Lemma calculate_confidence_values (x : float) (c d : str) :
  truthy c = true -> truthy d = true ->
  _calculate_confidence (Some x) (Some c) d =
    if str_eqb c outros
    then (if str_eqb d unspecified then 0.5 else 0.8)%float
    else (if str_eqb d unspecified then 0.7 else 1)%float.
Proof.
  intros Hc Hd. unfold _calculate_confidence. rewrite Hc, Hd.
  destruct (str_eqb c outros), (str_eqb d unspecified); vm_compute; reflexivity.
Qed.

Section HandlerFacts.

Variable py : runtime.
Variable world : services.

Lemma send_answers (from_number message : str) :
  answers_once world from_number (_send_text_message world from_number message).
Proof.
  exists [], message. split; [simpl; lia|]. apply send_text_message_shape.
Qed.

Lemma error_answers (from_number error_msg : str) :
  answers_once world from_number
    (_send_error_response world from_number error_msg).
Proof. apply send_answers. Qed.

Lemma after_commit_answers (from_number message : str) (e : expense) :
  answers_once world from_number
    (let '(calls', b) := _send_text_message world from_number message in
     ([session_commit e] ++ calls', b)).
Proof.
  exists [e], message. split; [simpl; lia|].
  rewrite send_text_message_shape. reflexivity.
Qed.

Lemma expense_answers (r : result) (from_number : str) :
  answers_once world from_number
    (_handle_expense_message py world r from_number).
Proof.
  unfold _handle_expense_message.
  destruct (no_amount (expense_amount r)); [apply error_answers|].
  unfold bind, create_expense.
  destruct (commits world (create_from_message_data from_number r)).
  - destruct (x_amount (create_from_message_data from_number r)).
    + apply after_commit_answers.
    + apply after_commit_answers.
  - apply after_commit_answers.
Qed.

Lemma report_answers (r : result) (from_number : str) :
  answers_once world from_number
    (_handle_report_message py world r from_number).
Proof.
  unfold _handle_report_message.
  destruct (get_total_by_period world from_number (get_period r)
              (get_category r)); [|apply error_answers].
  match goal with |- context [if ?g then _ else _] => destruct g end.
  - destruct (category_totals world from_number (get_period r));
      [apply send_answers | apply error_answers].
  - apply send_answers.
Qed.

Lemma statistics_answers (from_number : str) :
  answers_once world from_number (_send_statistics py world from_number).
Proof.
  unfold _send_statistics.
  destruct (user_statistics world from_number);
    [apply send_answers | apply error_answers].
Qed.

Lemma text_answers (body from_number : str) :
  answers_once world from_number
    (_handle_text_message py world body from_number).
Proof.
  unfold _handle_text_message.
  destruct (negb (truthy (strip body))); [apply error_answers|].
  destruct (list_in (lower py (strip body)) _); [apply send_answers|].
  destruct (list_in (lower py (strip body)) _); [apply statistics_answers|].
  destruct (validate_message (strip body)) as [is_valid error_msg].
  destruct (negb is_valid); [apply error_answers|].
  destruct (str_eqb _ (U "expense")); [apply expense_answers|].
  destruct (str_eqb _ (U "report")); [apply report_answers|].
  apply send_answers.
Qed.

(** What a commit of the expense handler files. *)
Lemma expense_commit (r : result) (from_number : str) (e : expense) :
  In (session_commit e) (fst (_handle_expense_message py world r from_number)) ->
  no_amount (expense_amount r) = false /\
  e = create_from_message_data from_number r.
Proof.
  unfold _handle_expense_message.
  destruct (no_amount (expense_amount r)).
  - unfold _send_error_response. rewrite send_text_message_shape. simpl.
    destruct (is_configured world); simpl; [intros [H|[]]; discriminate | tauto].
  - unfold bind, create_expense. intros H. split; [reflexivity|].
    assert (G : forall message,
      In (session_commit e)
         (fst (let '(calls', b) := _send_text_message world from_number message in
               ([session_commit (create_from_message_data from_number r)] ++ calls', b))) ->
      e = create_from_message_data from_number r).
    { intros message. rewrite send_text_message_shape. simpl.
      destruct (is_configured world); simpl.
      - intros [E|[E|[]]]; [congruence | discriminate].
      - intros [E|[]]; congruence. }
    destruct (commits world (create_from_message_data from_number r)).
    + destruct (x_amount (create_from_message_data from_number r));
        exact (G _ H).
    + exact (G _ H).
Qed.

Lemma send_no_commit (from_number message : str) (e : expense) :
  ~ In (session_commit e) (fst (_send_text_message world from_number message)).
Proof.
  rewrite send_text_message_shape. simpl.
  destruct (is_configured world); simpl; [intros [H|[]]; discriminate | tauto].
Qed.

Lemma report_no_commit (r : result) (from_number : str) (e : expense) :
  ~ In (session_commit e) (fst (_handle_report_message py world r from_number)).
Proof.
  unfold _handle_report_message, _send_error_response.
  destruct (get_total_by_period world from_number (get_period r)
              (get_category r)); [|apply send_no_commit].
  match goal with |- context [if ?g then _ else _] => destruct g end.
  - destruct (category_totals world from_number (get_period r));
      apply send_no_commit.
  - apply send_no_commit.
Qed.

Lemma statistics_no_commit (from_number : str) (e : expense) :
  ~ In (session_commit e) (fst (_send_statistics py world from_number)).
Proof.
  unfold _send_statistics, _send_error_response.
  destruct (user_statistics world from_number); apply send_no_commit.
Qed.

(** A commit is made on one path only. *)
Lemma text_commit (body from_number : str) (e : expense) :
  In (session_commit e) (fst (_handle_text_message py world body from_number)) ->
  fst (validate_message (strip body)) = true /\
  type_ (process_message py (strip body)) = U "expense" /\
  no_amount (expense_amount (process_message py (strip body))) = false /\
  e = create_from_message_data from_number (process_message py (strip body)).
Proof.
  unfold _handle_text_message, _send_error_response, _send_help_message,
    _send_unknown_message_response.
  destruct (negb (truthy (strip body)));
    [intros H; destruct (send_no_commit _ _ _ H)|].
  destruct (list_in (lower py (strip body)) _);
    [intros H; destruct (send_no_commit _ _ _ H)|].
  destruct (list_in (lower py (strip body)) _);
    [intros H; destruct (statistics_no_commit _ _ H)|].
  destruct (validate_message (strip body)) as [is_valid error_msg].
  destruct is_valid; simpl negb; cbv iota;
    [|intros H; destruct (send_no_commit _ _ _ H)].
  destruct (str_eqb _ (U "expense")) eqn:Et.
  - intros H. apply expense_commit in H. apply str_eqb_eq in Et.
    destruct H as [H1 H2]. repeat split; assumption.
  - destruct (str_eqb _ (U "report"));
      [intros H; destruct (report_no_commit _ _ _ H)
      |intros H; destruct (send_no_commit _ _ _ H)].
Qed.

End HandlerFacts.


Lemma statistics_quiet (py : runtime) (world : services) (from_number : str) :
  exists text,
    _send_statistics py world from_number = answer world from_number [] text.
Proof.
  unfold _send_statistics, _send_error_response.
  destruct (user_statistics world from_number);
    eexists; apply send_text_message_shape.
Qed.

Lemma is_text_eq (x : option str) (s : str) :
  is_text x s = true -> x = Some s.
Proof.
  destruct x as [v|]; simpl; [|discriminate].
  intros H. apply str_eqb_eq in H. congruence.
Qed.

(** Every message of the webhook is answered once, whatever its type and
    whatever the database and the client do: the handler asks the client,
    if it is configured, to mark the message as read, makes at most one
    commit, which only a text message can lead to, and asks the client,
    if it is configured, to send one text to the sender; it returns that
    text unless the request failed. *)
Theorem handle_incoming_message_answers_once
  (py : runtime) (world : services) (message : incoming_message) :
  exists (filed : list expense) (text : str),
    (List.length filed <= 1)%nat /\
    (filed <> [] -> m_type message = Some (U "text")) /\
    handle_incoming_message py world message =
      ((if is_configured world
        then [mark_message_as_read (m_id message)] else []) ++
       map session_commit filed ++
       (if is_configured world
        then [send_text_message (m_from message) text] else []),
       if is_configured world &&
          negb (delivers world (m_from message) text)
       then None else Some text).
Proof.
  assert (G : forall out filed text,
            out = answer world (m_from message) filed text ->
            (let '(calls, a) := _mark_as_read world (m_id message) in
             let '(calls', b) := out in (calls ++ calls', b)) =
            ((if is_configured world
              then [mark_message_as_read (m_id message)] else []) ++
             map session_commit filed ++
             (if is_configured world
              then [send_text_message (m_from message) text] else []),
             if is_configured world &&
                negb (delivers world (m_from message) text)
             then None else Some text)).
  { intros out filed text ->. unfold _mark_as_read, answer, ret.
    destruct (is_configured world); reflexivity. }
  unfold handle_incoming_message, bind.
  destruct (is_text (m_type message) (U "text")) eqn:Et.
  - destruct (text_answers py world (m_body message) (m_from message))
      as [filed [text [Hl E]]].
    exists filed, text. split; [exact Hl|].
    split; [intros _; exact (is_text_eq _ _ Et)|].
    exact (G _ _ _ E).
  - assert (Q : forall out,
              (exists text, out = answer world (m_from message) [] text) ->
              exists (filed : list expense) (text : str),
                (List.length filed <= 1)%nat /\
                (filed <> [] -> m_type message = Some (U "text")) /\
                (let '(calls, a) := _mark_as_read world (m_id message) in
                 let '(calls', b) := out in (calls ++ calls', b)) =
                ((if is_configured world
                  then [mark_message_as_read (m_id message)] else []) ++
                 map session_commit filed ++
                 (if is_configured world
                  then [send_text_message (m_from message) text] else []),
                 if is_configured world &&
                    negb (delivers world (m_from message) text)
                 then None else Some text)).
    { intros out [text E]. exists [], text.
      split; [simpl; lia|]. split; [congruence|]. exact (G _ _ _ E). }
    apply Q.
    destruct (is_text (m_type message) (U "interactive")).
    + unfold _handle_interactive_message, _send_help_message.
      destruct (is_text (m_button message) (U "help"));
        [eexists; apply send_text_message_shape|].
      destruct (is_text (m_button message) (U "stats"));
        [apply statistics_quiet | eexists; apply send_text_message_shape].
    + destruct (is_among (m_type message) _);
        eexists; apply send_text_message_shape.
Qed.

Lemma positive_amount (py : runtime) (message : str) (x : float) :
  _extract_amount py message = Some x ->
  no_amount (Some x) = false -> PrimFloat.ltb 0 x = true.
Proof.
  intros H G. apply extract_amount_from_nonneg in H.
  unfold no_amount, float_truthy in G.
  rewrite FloatAxioms.leb_spec, FloatAxioms.eqb_spec in G.
  rewrite FloatAxioms.ltb_spec.
  change (Prim2SF 0) with (S754_zero false) in *.
  destruct (Prim2SF x) as [[]|[]| |[] m e]; try discriminate; reflexivity.
Qed.

(** What the handler files: an expense is committed only for a body that
    is at most 500 characters long once trimmed, with the caller as its
    user and the normalized body as its message, an amount above zero, a
    category of the default list, a description that is not empty and a
    confidence of 0.5, 0.7, 0.8 or 1. *)
Theorem handle_text_message_files
  (py : runtime) (world : services) (body from_number : str) (e : expense) :
  In (session_commit e)
     (fst (_handle_text_message py world body from_number)) ->
  e = create_from_message_data from_number (process_message py (strip body)) /\
  (List.length (strip body) <= 500)%nat /\
  x_user_phone e = from_number /\
  x_original_message e = normalize py (strip body) /\
  (exists x, x_amount e = Some x /\ PrimFloat.ltb 0 x = true) /\
  In (x_category e) DEFAULT_CATEGORIES /\
  x_description e <> [] /\
  In (x_confidence e) [0.5; 0.7; 0.8; 1]%float.
Proof.
  intros H. apply text_commit in H. destruct H as (Hv & Ht & Ha & ->).
  split; [reflexivity|].
  split.
  { rewrite validate_message_unfold in Hv.
    destruct (negb (truthy (strip (strip body)))); [discriminate|].
    destruct (500 <? List.length (strip body))%nat eqn:E; [discriminate|].
    apply Nat.ltb_ge in E. exact E. }
  split; [reflexivity|].
  split; [reflexivity|].
  unfold create_from_message_data, get_category, get_description,
    get_confidence, expense_amount in *.
  rewrite process_message_fields in *.
  rewrite Ht in *.
  change (str_eqb (U "expense") (U "expense")) with true in *. cbv iota in *.
  set (m := normalize py (strip body)) in *.
  unfold _extract_expense_data in *. cbn [amount e_category description
    confidence x_amount x_category x_description x_confidence get_default] in *.
  pose proof (category_known py _ (extract_category_in py m)) as (Hc & Hct & _).
  pose proof (extract_description_truthy py m) as Hd.
  destruct (_extract_amount py m) as [x|] eqn:Ex; [|discriminate].
  split; [exists x; split; [reflexivity | exact (positive_amount _ _ _ Ex Ha)]|].
  split; [exact Hc|].
  split; [intros E; rewrite E in Hd; discriminate|].
  rewrite (calculate_confidence_values _ _ _ Hct Hd).
  destruct (str_eqb _ outros), (str_eqb _ unspecified); simpl; tauto.
Qed.

Lemma handle_text_message_files_witness :
  In (x_category
        (create_from_message_data example_phone
           (process_message latin1_runtime
              (strip (U "Gastei 50 reais em alimentação")))))
     DEFAULT_CATEGORIES.
Proof.
  refine (proj1 (proj2 (proj2 (proj2 (proj2 (proj2
    (handle_text_message_files latin1_runtime offline_services
       (U "Gastei 50 reais em alimentação") example_phone
       (create_from_message_data example_phone
          (process_message latin1_runtime
             (strip (U "Gastei 50 reais em alimentação")))) _))))))).
  vm_compute. left. reflexivity.
Defined.

Lemma low_confidence_iff (x : float) (c d : str) :
  truthy c = true -> truthy d = true ->
  PrimFloat.ltb (_calculate_confidence (Some x) (Some c) d) 0.7 =
    str_eqb c outros && str_eqb d unspecified.
Proof.
  intros Hc Hd. rewrite (calculate_confidence_values _ _ _ Hc Hd).
  destruct (str_eqb c outros), (str_eqb d unspecified); vm_compute; reflexivity.
Qed.

Lemma expense_row_fields (py : runtime) (message from_number : str) :
  type_ (process_message py message) = U "expense" ->
  x_amount (create_from_message_data from_number (process_message py message)) =
    expense_amount (process_message py message) /\
  (is_some (expense_amount (process_message py message)) = true ->
   PrimFloat.ltb (get_confidence (process_message py message)) 0.7 =
     str_eqb (x_category (create_from_message_data from_number
                            (process_message py message))) outros &&
     str_eqb (x_description (create_from_message_data from_number
                               (process_message py message))) unspecified).
Proof.
  intros Ht.
  unfold create_from_message_data, get_category, get_description,
    get_confidence, expense_amount.
  rewrite process_message_fields, Ht.
  change (str_eqb (U "expense") (U "expense")) with true. cbv iota.
  set (m := normalize py message).
  unfold _extract_expense_data.
  cbn [amount e_category description confidence x_amount x_category
       x_description x_confidence get_default].
  split; [reflexivity|].
  pose proof (category_known py _ (extract_category_in py m)) as (_ & Hct & _).
  pose proof (extract_description_truthy py m) as Hd.
  destruct (_extract_amount py m) as [x|]; [|discriminate].
  intros _. apply (low_confidence_iff x _ _ Hct Hd).
Qed.

(** The reply to a filed expense: the emoji of the category, the amount
    and the category in title case; the notice of an automatic category
    is added exactly when the category is "outros" and the description is
    the placeholder. *)
Theorem handle_expense_message_reply
  (py : runtime) (world : services) (message from_number : str)
  (r : result) (e : expense) :
  r = process_message py message ->
  e = create_from_message_data from_number r ->
  type_ r = U "expense" ->
  no_amount (expense_amount r) = false ->
  commits world e = true ->
  exists x,
    x_amount e = Some x /\
    _handle_expense_message py world r from_number =
      (_ <- create_expense world from_number r ;;
       _send_text_message world from_number
         (get_emoji_for_category py (x_category e) ++ U " " ++
          U "✅ Gasto de " ++ format_currency x ++ U " em " ++
          title world (x_category e) ++ U " registrado com sucesso!" ++
          (if str_eqb (x_category e) outros &&
              str_eqb (x_description e) unspecified
           then low_confidence_notice (x_category e) else []))).
Proof.
  intros -> -> Ht Ha Hc.
  destruct (expense_row_fields py message from_number Ht) as [Hx Hlow].
  destruct (expense_amount (process_message py message)) as [x|] eqn:Ea;
    [|discriminate].
  exists x. split; [exact Hx|].
  unfold _handle_expense_message. rewrite Ea, Ha.
  unfold bind, create_expense. rewrite Hc, Hx, (Hlow eq_refl).
  unfold generate_response_message.
  change (str_eqb (U "expense_registered") (U "expense_registered")) with true.
  cbv iota. cbn [d_amount d_category get_default].
  destruct (str_eqb _ outros && str_eqb _ unspecified).
  - rewrite <- !app_assoc. reflexivity.
  - rewrite !app_nil_r. reflexivity.
Qed.

Lemma handle_expense_message_reply_witness :
  exists x,
    x_amount (create_from_message_data example_phone
                (process_message latin1_runtime (U "paguei 50"))) = Some x /\
    _handle_expense_message latin1_runtime offline_services
      (process_message latin1_runtime (U "paguei 50")) example_phone =
      (_ <- create_expense offline_services example_phone
              (process_message latin1_runtime (U "paguei 50")) ;;
       _send_text_message offline_services example_phone
         (get_emoji_for_category latin1_runtime
            (x_category (create_from_message_data example_phone
                           (process_message latin1_runtime (U "paguei 50")))) ++
          U " " ++ U "✅ Gasto de " ++ format_currency x ++ U " em " ++
          title offline_services
            (x_category (create_from_message_data example_phone
                           (process_message latin1_runtime (U "paguei 50")))) ++
          U " registrado com sucesso!" ++
          (if str_eqb
                (x_category (create_from_message_data example_phone
                               (process_message latin1_runtime (U "paguei 50"))))
                outros &&
              str_eqb
                (x_description (create_from_message_data example_phone
                                  (process_message latin1_runtime (U "paguei 50"))))
                unspecified
           then low_confidence_notice
                  (x_category (create_from_message_data example_phone
                                 (process_message latin1_runtime (U "paguei 50"))))
           else []))).
Proof.
  apply (handle_expense_message_reply latin1_runtime offline_services
           (U "paguei 50") example_phone _ _ eq_refl eq_refl);
    vm_compute; reflexivity.
Defined.

Lemma fold_left_app_concat (A : Type) (f : A -> str) (l : list A) (init : str) :
  fold_left (fun text item => text ++ f item) l init = init ++ List.concat (map f l).
Proof.
  revert init. induction l as [|a l IH]; intros init; simpl.
  - rewrite app_nil_r. reflexivity.
  - rewrite IH, <- app_assoc. reflexivity.
Qed.

(** A report always asks the database for the sum of one category, the
    one the processor extracted: a report on a category other than
    "outros" shows that sum under the category's emoji and title, and the
    general report, the one of a message that names no category, shows
    the sum of the category "outros" as its total, whatever the summary
    by category after it lists. *)
Theorem handle_report_message_total
  (py : runtime) (world : services) (message from_number : str) (r : result) :
  r = process_message py message ->
  type_ r = U "report" ->
  exists c name,
    get_category r = Some c /\ In c DEFAULT_CATEGORIES /\
    In (get_period r, name) period_names /\
    get_total_by_period world from_number (get_period r) (get_category r) =
      option_map or_zero
        (sum_amounts world from_number (get_period r) (Some c)) /\
    forall total,
      sum_amounts world from_number (get_period r) (Some c) = Some total ->
      (c <> outros ->
       _handle_report_message py world r from_number =
         _send_text_message world from_number
           (get_emoji_for_category py c ++ U " *Relatório " ++ title world c ++
            U "*" ++ nl ++ U "Período: " ++ name ++ nl ++
            U "Total gasto: " ++ format_currency (or_zero total))) /\
      (c = outros ->
       forall summary,
         category_totals world from_number (get_period r) = Some summary ->
         exists rest,
           _handle_report_message py world r from_number =
             _send_text_message world from_number
               (U "📊 *Relatório Geral*" ++ nl ++ U "Período: " ++ name ++ nl ++
                U "Total gasto: " ++ format_currency (or_zero total) ++ rest)).
Proof.
  intros -> Ht.
  assert (Hne : str_eqb (U "report") (U "expense") = false) by reflexivity.
  unfold _handle_report_message, get_category, get_period.
  rewrite process_message_fields, Ht, Hne.
  change (str_eqb (U "report") (U "report")) with true. cbv iota.
  set (m := normalize py message).
  unfold _extract_report_data. cbn [r_category period].
  pose proof (category_known py _ (extract_category_in py m)) as (Hc & Hct & _).
  set (c := _extract_category py m) in *.
  set (p := _extract_period m).
  exists c, (dict_get period_names p p).
  split; [reflexivity|]. split; [exact Hc|].
  split; [apply extract_period_in|].
  assert (Hall : str_eqb c (U "todas as categorias") = false).
  { destruct (str_eqb c (U "todas as categorias")) eqn:E; [|reflexivity].
    apply str_eqb_eq in E. rewrite E in Hc. exfalso.
    revert Hc. vm_compute. intuition discriminate. }
  assert (Htot : get_total_by_period world from_number p (Some c) =
                 option_map or_zero (sum_amounts world from_number p (Some c))).
  { unfold get_total_by_period. rewrite Hct, Hall. simpl.
    destruct (sum_amounts world from_number p (Some c)) as [[x|]|]; reflexivity. }
  split; [exact Htot|].
  intros total Hs. rewrite Htot, Hs. simpl option_map. cbv iota.
  rewrite Hct. simpl negb. rewrite orb_false_l.
  split.
  - intros Hn.
    assert (E : str_eqb c (U "outros") = false).
    { destruct (str_eqb c (U "outros")) eqn:E; [|reflexivity].
      apply str_eqb_eq in E. destruct (Hn E). }
    rewrite E. simpl negb. cbv iota.
    rewrite <- !app_assoc. reflexivity.
  - intros Hn.
    assert (E : str_eqb c (U "outros") = true) by (apply str_eqb_eq; exact Hn).
    rewrite E. simpl negb. cbv iota.
    intros summary Hsum. rewrite Hsum.
    destruct (negb (List.length summary =? 0)%nat).
    + rewrite fold_left_app_concat.
      destruct (5 <? List.length summary)%nat;
        eexists; rewrite <- !app_assoc; reflexivity.
    + exists []. rewrite app_nil_r, <- !app_assoc. reflexivity.
Qed.

Lemma handle_report_message_total_witness :
  exists c name,
    get_category (process_message latin1_runtime (U "relatório")) = Some c /\
    In c DEFAULT_CATEGORIES /\
    In (get_period (process_message latin1_runtime (U "relatório")), name)
       period_names /\
    get_total_by_period offline_services example_phone
      (get_period (process_message latin1_runtime (U "relatório")))
      (get_category (process_message latin1_runtime (U "relatório"))) =
      option_map or_zero
        (sum_amounts offline_services example_phone
           (get_period (process_message latin1_runtime (U "relatório")))
           (Some c)) /\
    forall total,
      sum_amounts offline_services example_phone
        (get_period (process_message latin1_runtime (U "relatório")))
        (Some c) = Some total ->
      (c <> outros ->
       _handle_report_message latin1_runtime offline_services
         (process_message latin1_runtime (U "relatório")) example_phone =
         _send_text_message offline_services example_phone
           (get_emoji_for_category latin1_runtime c ++ U " *Relatório " ++
            title offline_services c ++ U "*" ++ nl ++ U "Período: " ++ name ++
            nl ++ U "Total gasto: " ++ format_currency (or_zero total))) /\
      (c = outros ->
       forall summary,
         category_totals offline_services example_phone
           (get_period (process_message latin1_runtime (U "relatório")))
           = Some summary ->
         exists rest,
           _handle_report_message latin1_runtime offline_services
             (process_message latin1_runtime (U "relatório")) example_phone =
             _send_text_message offline_services example_phone
               (U "📊 *Relatório Geral*" ++ nl ++ U "Período: " ++ name ++ nl ++
                U "Total gasto: " ++ format_currency (or_zero total) ++ rest)).
Proof.
  apply (handle_report_message_total latin1_runtime offline_services
           (U "relatório") example_phone _ eq_refl).
  vm_compute; reflexivity.
Defined.






